(** * Crusoe audit-log forwarder: request signing and paginated fetch

    A shallow embedding of the signing helper of [test_crusoe_auth.py]
    (and of the inline variants in the other scripts), of the query
    strings of [test_url_encoding.py], of the client in
    [crusoe_client.py], of the configuration in [config.py] and of
    [forward_logs] in [main.py], together with the parts of the Python
    standard library, [requests] and [urllib3] these functions call. *)

From Stdlib Require Import ZArith NArith List String Ascii Bool Lia.
From Stdlib Require Import Strings.Byte DecimalString Sorting.Sorted Sorting.Permutation.
Import ListNotations.

Set Warnings "-register-all,-notation-for-abbreviation".

Open Scope string_scope.
Open Scope Z_scope.

(* ================================================================== *)
(** ** Python built-ins used by the scripts *)
(* ================================================================== *)

Module Py.

(** A [str] is a sequence of code points; the embedding keeps the code
    points 0..255, of which 0..127 are ASCII. *)
Definition is_ascii_char (c : ascii) : bool :=
  (N_of_ascii c <? 128)%N.

Fixpoint isascii (s : string) : bool :=
  match s with
  | EmptyString => true
  | String c r => is_ascii_char c && isascii r
  end.

Definition bytes := list byte.

(** [s.encode('ascii')]: [None] stands for [UnicodeEncodeError]. *)
Fixpoint encode_ascii (s : string) : option bytes :=
  match s with
  | EmptyString => Some []
  | String c r =>
      if is_ascii_char c then
        match encode_ascii r with
        | Some bs => Some (byte_of_ascii c :: bs)
        | None => None
        end
      else None
  end.

(** [b.decode('ascii')] on bytes that are all below 128. *)
Fixpoint decode_ascii (b : bytes) : string :=
  match b with
  | [] => EmptyString
  | x :: r => String (ascii_of_byte x) (decode_ascii r)
  end.

(** [str(n)] for an [int]. *)
Definition str_int (n : Z) : string :=
  NilZero.string_of_int (Z.to_int n).

(** [c * n] for a one-character string [c]. *)
Fixpoint str_mul (c : ascii) (n : nat) : string :=
  match n with
  | O => EmptyString
  | S k => String c (str_mul c k)
  end.

(** [len(s)] as a Python integer. *)
Definition len (s : string) : Z := Z.of_nat (String.length s).

(** [s.rstrip(c)] for a one-character set. *)
Fixpoint rstrip (c : ascii) (s : string) : string :=
  match s with
  | EmptyString => EmptyString
  | String a r =>
      match rstrip c r with
      | EmptyString => if Ascii.eqb a c then EmptyString else String a EmptyString
      | r' => String a r'
      end
  end.

(** [s.replace(a, b)] for one-character [a] and [b]. *)
Fixpoint replace_char (a b : ascii) (s : string) : string :=
  match s with
  | EmptyString => EmptyString
  | String c r => String (if Ascii.eqb c a then b else c) (replace_char a b r)
  end.

(** [sep.join(parts)]. *)
Fixpoint join (sep : string) (parts : list string) : string :=
  match parts with
  | [] => EmptyString
  | [p] => p
  | p :: r => p ++ sep ++ join sep r
  end.

(** ["%0<w>d" % n] for [n >= 0]. *)
Definition zfill (w : nat) (n : Z) : string :=
  let d := str_int n in
  str_mul "0" (w - String.length d) ++ d.

(** ** Dictionaries

    A [dict] keeps its keys unique and in insertion order; assignment
    to a key that is present replaces the value in place. *)
Section Dict.
Context {V : Type}.

Definition dict := list (string * V).

Fixpoint dict_get (d : dict) (k : string) : option V :=
  match d with
  | [] => None
  | (k', v) :: r => if String.eqb k' k then Some v else dict_get r k
  end.

Fixpoint dict_set (d : dict) (k : string) (v : V) : dict :=
  match d with
  | [] => [(k, v)]
  | (k', v') :: r =>
      if String.eqb k' k then (k', v) :: r else (k', v') :: dict_set r k v
  end.

(** [d.update(other)]. *)
Definition dict_update (d other : dict) : dict :=
  fold_left (fun acc kv => dict_set acc (fst kv) (snd kv)) other d.

Definition keys (d : dict) : list string := map fst d.

(** [d.items()]. *)
Definition items (d : dict) : list (string * V) := d.
End Dict.
Arguments dict V : clear implicits.

(** ** Sorting the items of a dictionary

    [sorted(params.items())] orders the pairs by [<] on tuples; the
    keys of a dictionary are pairwise different, so the order of two
    items is always decided by their keys, compared code point by code
    point.  The sort is stable; it is written as an insertion sort. *)
Definition str_le (a b : string) : bool := String.leb a b.

Section Sorted.
Context {V : Type}.

(** The order [sorted] puts the items in. *)
Definition key_le (x y : string * V) : Prop := str_le (fst x) (fst y) = true.

Fixpoint insert_item (x : string * V) (l : list (string * V)) :=
  match l with
  | [] => [x]
  | y :: r =>
      if str_le (fst x) (fst y) then x :: y :: r
      else y :: insert_item x r
  end.

Fixpoint sorted (l : list (string * V)) : list (string * V) :=
  match l with
  | [] => []
  | x :: r => insert_item x (sorted r)
  end.
End Sorted.

End Py.

(* ================================================================== *)
(** ** [base64] / [binascii] *)
(* ================================================================== *)

Module Base64.
Import Py.

Definition alphabet : string :=
  "ABCDEFGHIJKLMNOPQRSTUVWXYZabcdefghijklmnopqrstuvwxyz0123456789+/".

Definition pad_char : ascii := "="%char.

(** [table_b2a_base64]. *)
Definition b2a (n : Z) : ascii :=
  match String.get (Z.to_nat n) alphabet with
  | Some c => c
  | None => pad_char
  end.

(** [table_a2b_base64]: the value of a character of the standard
    alphabet, [None] for every other character. *)
Definition a2b (c : ascii) : option Z :=
  let n := Z.of_N (N_of_ascii c) in
  if (65 <=? n) && (n <=? 90) then Some (n - 65)
  else if (97 <=? n) && (n <=? 122) then Some (n - 71)
  else if (48 <=? n) && (n <=? 57) then Some (n + 4)
  else if n =? 43 then Some 62
  else if n =? 47 then Some 63
  else None.

Definition byte_of_Z (z : Z) : byte :=
  byte_of_ascii (ascii_of_N (Z.to_N (z mod 256))).

Definition Z_of_byte (b : byte) : Z := Z.of_N (Byte.to_N b).

(** [binascii.b2a_base64(data, newline=False)]. *)
Fixpoint b2a_base64 (data : bytes) : string :=
  match data with
  | [] => EmptyString
  | [x] =>
      let x := Z_of_byte x in
      String (b2a (Z.shiftr x 2))
        (String (b2a (Z.shiftl (Z.land x 3) 4))
           (String pad_char (String pad_char EmptyString)))
  | [x; y] =>
      let x := Z_of_byte x in
      let y := Z_of_byte y in
      String (b2a (Z.shiftr x 2))
        (String (b2a (Z.lor (Z.shiftl (Z.land x 3) 4) (Z.shiftr y 4)))
           (String (b2a (Z.shiftl (Z.land y 15) 2))
              (String pad_char EmptyString)))
  | x :: y :: z :: r =>
      let x := Z_of_byte x in
      let y := Z_of_byte y in
      let z := Z_of_byte z in
      String (b2a (Z.shiftr x 2))
        (String (b2a (Z.lor (Z.shiftl (Z.land x 3) 4) (Z.shiftr y 4)))
           (String (b2a (Z.lor (Z.shiftl (Z.land y 15) 2) (Z.shiftr z 6)))
              (String (b2a (Z.land z 63)) (b2a_base64 r))))
  end.

(** [_urlsafe_encode_translation]: [+] becomes [-] and [/] becomes [_]. *)
Definition urlsafe_encode_char (c : ascii) : ascii :=
  if Ascii.eqb c "+" then "-"%char
  else if Ascii.eqb c "/" then "_"%char else c.

(** [_urlsafe_decode_translation]: [-] becomes [+] and [_] becomes [/]. *)
Definition urlsafe_decode_char (c : ascii) : ascii :=
  if Ascii.eqb c "-" then "+"%char
  else if Ascii.eqb c "_" then "/"%char else c.

Fixpoint translate (f : ascii -> ascii) (s : string) : string :=
  match s with
  | EmptyString => EmptyString
  | String c r => String (f c) (translate f r)
  end.

(** [base64.urlsafe_b64encode(data).decode('ascii')]. *)
Definition urlsafe_b64encode (data : bytes) : string :=
  translate urlsafe_encode_char (b2a_base64 data).

(** The loop of [binascii.a2b_base64] in its default, non-strict
    mode.  [quad_pos] counts the characters of the current group of
    four, [leftchar] holds the bits not yet written, [pads] the [=]
    seen since the last data character; [out] is the output so far,
    last byte first.  Characters outside the alphabet are skipped.
    [None] stands for [binascii.Error]. *)
Fixpoint a2b_loop (s : string) (quad_pos : nat) (leftchar : Z) (pads : nat)
         (out : bytes) : option bytes :=
  match s with
  | EmptyString =>
      match quad_pos with
      | O => Some (rev out)
      | _ => None
      end
  | String c r =>
      if Ascii.eqb c pad_char then
        if (2 <=? quad_pos)%nat then
          if (4 <=? quad_pos + S pads)%nat then Some (rev out)
          else a2b_loop r quad_pos leftchar (S pads) out
        else a2b_loop r quad_pos leftchar pads out
      else
        match a2b c with
        | None => a2b_loop r quad_pos leftchar pads out
        | Some v =>
            match quad_pos with
            | 0%nat => a2b_loop r 1 v 0 out
            | 1%nat =>
                a2b_loop r 2 (Z.land v 15) 0
                  (byte_of_Z (Z.lor (Z.shiftl leftchar 2) (Z.shiftr v 4)) :: out)
            | 2%nat =>
                a2b_loop r 3 (Z.land v 3) 0
                  (byte_of_Z (Z.lor (Z.shiftl leftchar 4) (Z.shiftr v 2)) :: out)
            | _ =>
                a2b_loop r 0 0 0
                  (byte_of_Z (Z.lor (Z.shiftl leftchar 6) v) :: out)
            end
        end
  end.

Definition a2b_base64 (s : string) : option bytes := a2b_loop s 0 0 0 [].

(** [base64.urlsafe_b64decode(s)] for a [str] argument: a string with
    a non-ASCII character is refused, then the URL-safe characters are
    translated and the result is decoded without validation. *)
Definition urlsafe_b64decode (s : string) : option bytes :=
  if isascii s then a2b_base64 (translate urlsafe_decode_char s) else None.

End Base64.

(* ================================================================== *)
(** ** [hashlib.sha256] and [hmac] *)
(* ================================================================== *)

Module SHA256.
Import Py.

Definition w32 (x : Z) : Z := x mod 2 ^ 32.

Definition rotr (n x : Z) : Z :=
  Z.lor (Z.shiftr x n) (w32 (Z.shiftl x (32 - n))).

Definition Ch (x y z : Z) : Z :=
  Z.lxor (Z.land x y) (Z.land (Z.lxor x 0xffffffff) z).

Definition Maj (x y z : Z) : Z :=
  Z.lxor (Z.lxor (Z.land x y) (Z.land x z)) (Z.land y z).

Definition Sigma0 (x : Z) : Z :=
  Z.lxor (Z.lxor (rotr 2 x) (rotr 13 x)) (rotr 22 x).

Definition Sigma1 (x : Z) : Z :=
  Z.lxor (Z.lxor (rotr 6 x) (rotr 11 x)) (rotr 25 x).

Definition sigma0 (x : Z) : Z :=
  Z.lxor (Z.lxor (rotr 7 x) (rotr 18 x)) (Z.shiftr x 3).

Definition sigma1 (x : Z) : Z :=
  Z.lxor (Z.lxor (rotr 17 x) (rotr 19 x)) (Z.shiftr x 10).

(** The round constants: the first 32 bits of the fractional parts of
    the cube roots of the first 64 primes (FIPS 180-4, section 4.2.2). *)
Definition primes : list Z :=
  [ 2; 3; 5; 7; 11; 13; 17; 19; 23; 29; 31; 37; 41; 43; 47; 53; 59; 61; 67;
    71; 73; 79; 83; 89; 97; 101; 103; 107; 109; 113; 127; 131; 137; 139; 149;
    151; 157; 163; 167; 173; 179; 181; 191; 193; 197; 199; 211; 223; 227;
    229; 233; 239; 241; 251; 257; 263; 269; 271; 277; 281; 283; 293; 307;
    311 ].

(** The integer cube root of [n], found bit by bit below [2 ^ k]. *)
Fixpoint icbrt (k : nat) (n r : Z) : Z :=
  match k with
  | O => r
  | S k' =>
      let c := r + 2 ^ Z.of_nat k' in
      if c * c * c <=? n then icbrt k' n c else icbrt k' n r
  end.

Definition K : list Z :=
  Eval vm_compute in map (fun p => w32 (icbrt 36 (p * 2 ^ 96) 0)) primes.

Definition H0 : list Z :=
  [ 0x6a09e667; 0xbb67ae85; 0x3c6ef372; 0xa54ff53a;
    0x510e527f; 0x9b05688c; 0x1f83d9ab; 0x5be0cd19 ].

(** The message schedule, newest word first while it is built. *)
Fixpoint extend (n : nat) (w : list Z) : list Z :=
  match n with
  | O => w
  | S k =>
      extend k
        (w32 (sigma1 (nth 1 w 0) + nth 6 w 0 + sigma0 (nth 14 w 0) + nth 15 w 0)
           :: w)
  end.

Definition schedule (block : list Z) : list Z :=
  rev (extend 48 (rev block)).

Definition round (st : list Z) (kw : Z * Z) : list Z :=
  match st with
  | [a; b; c; d; e; f; g; h] =>
      let t1 := w32 (h + Sigma1 e + Ch e f g + fst kw + snd kw) in
      let t2 := w32 (Sigma0 a + Maj a b c) in
      [w32 (t1 + t2); a; b; c; w32 (d + t1); e; f; g]
  | _ => st
  end.

Definition compress (h : list Z) (block : list Z) : list Z :=
  map (fun p => w32 (fst p + snd p))
      (combine h (fold_left round (combine K (schedule block)) h)).

(** Big-endian words of a block of bytes. *)
Fixpoint words (bs : list Z) : list Z :=
  match bs with
  | a :: b :: c :: d :: r =>
      (Z.shiftl a 24 + Z.shiftl b 16 + Z.shiftl c 8 + d) :: words r
  | _ => []
  end.

Fixpoint be_bytes (n : nat) (x : Z) : list Z :=
  match n with
  | O => []
  | S k => (Z.shiftr x (8 * Z.of_nat k)) mod 256 :: be_bytes k x
  end.

Definition pad (msg : list Z) : list Z :=
  let l := Z.of_nat (List.length msg) in
  (msg ++ [0x80] ++ repeat 0 (Z.to_nat ((55 - l) mod 64)) ++ be_bytes 8 (8 * l))%list.

Fixpoint blocks (fuel : nat) (h : list Z) (bs : list Z) : list Z :=
  match fuel with
  | O => h
  | S k =>
      match bs with
      | [] => h
      | _ => blocks k (compress h (words (firstn 64 bs))) (skipn 64 bs)
      end
  end.

(** [hashlib.sha256(msg).digest()]. *)
Definition digest (msg : bytes) : bytes :=
  let p := pad (map Base64.Z_of_byte msg) in
  map Base64.byte_of_Z
      (flat_map (be_bytes 4) (blocks (List.length p) H0 p)).

End SHA256.

Module Hmac.
Import Py.

Definition block_size : nat := 64.

Definition xor_with (c : Z) (k : bytes) : bytes :=
  map (fun b => Base64.byte_of_Z (Z.lxor (Base64.Z_of_byte b) c)) k.

(** [hmac.new(key, msg, hashlib.sha256).digest()]. *)
Definition hmac_sha256 (key msg : bytes) : bytes :=
  let key := if (block_size <? List.length key)%nat then SHA256.digest key else key in
  let key := (key ++ repeat x00 (block_size - List.length key))%list in
  SHA256.digest
    (xor_with 0x5c key ++ SHA256.digest (xor_with 0x36 key ++ msg))%list.

End Hmac.

(* ================================================================== *)
(** ** Exceptions and results *)
(* ================================================================== *)

(** The exceptions that reach the functions of this development. *)
Inductive exn : Type :=
| ValueError            (** also [binascii.Error], its subclass *)
| UnicodeEncodeError
| AttributeError
| TypeError
| CrusoeAPIError (error_msg : string).

Inductive result (A : Type) : Type :=
| Ok (a : A)
| Raise (e : exn).
Arguments Ok {A} a.
Arguments Raise {A} e.

(* ================================================================== *)
(** ** [datetime] *)
(* ================================================================== *)

Module Datetime.
Import Py.

(** An aware or naive [datetime]; [tzinfo] holds the UTC offset in
    microseconds of a fixed-offset zone. *)
Record datetime : Type := mkDatetime {
  year : Z; month : Z; day : Z;
  hour : Z; minute : Z; second : Z; microsecond : Z;
  tzinfo : option Z
}.

Definition timezone_utc : option Z := Some 0.

Definition is_leap (y : Z) : bool :=
  (y mod 4 =? 0) && (negb (y mod 100 =? 0) || (y mod 400 =? 0)).

Definition days_in_month (y m : Z) : Z :=
  if m =? 2 then (if is_leap y then 29 else 28)
  else if (m =? 4) || (m =? 6) || (m =? 9) || (m =? 11) then 30 else 31.

Definition between (lo x hi : Z) : bool := (lo <=? x) && (x <=? hi).

(** The ranges the [datetime] constructor enforces. *)
Definition valid (d : datetime) : bool :=
  between 1 (year d) 9999 && between 1 (month d) 12 &&
  between 1 (day d) (days_in_month (year d) (month d)) &&
  between 0 (hour d) 23 && between 0 (minute d) 59 &&
  between 0 (second d) 59 && between 0 (microsecond d) 999999 &&
  match tzinfo d with
  | None => true
  | Some off => (- 86400000000 <? off) && (off <? 86400000000)
  end.

(** [dt.replace(microsecond=us)]. *)
Definition replace_microsecond (d : datetime) (us : Z) : datetime :=
  mkDatetime (year d) (month d) (day d) (hour d) (minute d) (second d) us
             (tzinfo d).

(** [_format_time] with [timespec='auto']. *)
Definition format_time (d : datetime) : string :=
  zfill 2 (hour d) ++ ":" ++ zfill 2 (minute d) ++ ":" ++ zfill 2 (second d)
  ++ (if microsecond d =? 0 then "" else "." ++ zfill 6 (microsecond d)).

(** [_format_offset]. *)
Definition format_offset (off : option Z) : string :=
  match off with
  | None => ""
  | Some o =>
      let sign := if o <? 0 then "-" else "+" in
      let o := Z.abs o in
      let hh := o / 3600000000 in
      let r := o mod 3600000000 in
      let mm := r / 60000000 in
      let ss := r mod 60000000 in
      sign ++ zfill 2 hh ++ ":" ++ zfill 2 mm
      ++ (if ss =? 0 then ""
          else ":" ++ zfill 2 (ss / 1000000)
               ++ (if ss mod 1000000 =? 0 then ""
                   else "." ++ zfill 6 (ss mod 1000000)))
  end.

(** [dt.isoformat(sep)]. *)
Definition isoformat_sep (sep : ascii) (d : datetime) : string :=
  zfill 4 (year d) ++ "-" ++ zfill 2 (month d) ++ "-" ++ zfill 2 (day d)
  ++ String sep (format_time d ++ format_offset (tzinfo d)).

Definition isoformat (d : datetime) : string := isoformat_sep "T" d.

(** [str(dt)]. *)
Definition str (d : datetime) : string := isoformat_sep " " d.

(** The wall clock: [wall n] is what the [n]-th reading of the process
    returns as UTC fields, [reads] counts the readings made so far. *)
Record world : Type := mkWorld {
  wall : nat -> datetime;
  reads : nat
}.

(** [datetime.datetime.now(datetime.timezone.utc)]. *)
Definition now_utc (w : world) : datetime * world :=
  let r := wall w (reads w) in
  (mkDatetime (year r) (month r) (day r) (hour r) (minute r) (second r)
              (microsecond r) timezone_utc,
   mkWorld (wall w) (S (reads w))).

End Datetime.

(* ================================================================== *)
(** ** The signing scripts *)
(* ================================================================== *)

Module Signer.
Import Py Datetime.

Definition nl : string := String (ascii_of_nat 10) EmptyString.

Definition signature_version : string := "1.0".

(** The f-string [payload] of [create_crusoe_signature]. *)
Definition signing_payload (path query_params method timestamp : string)
  : string :=
  path ++ nl ++ query_params ++ nl ++ method ++ nl ++ timestamp ++ nl.

(** [secret_key + '=' * (-len(secret_key) % 4)]. *)
Definition pad_secret (secret_key : string) : string :=
  secret_key ++ str_mul "=" (Z.to_nat ((- len secret_key) mod 4)).

(** The signature computed from the decoded secret and the payload
    bytes: lines 42 to 49 of [test_crusoe_auth.py]. *)
Definition signature_of (decoded_secret payload : bytes) : string :=
  rstrip "=" (Base64.urlsafe_b64encode (Hmac.hmac_sha256 decoded_secret payload)).

(** [create_crusoe_signature] of [test_crusoe_auth.py]; the result is
    the pair [(timestamp, authorization_header)]. *)
Definition create_crusoe_signature (w : world)
           (access_key_id secret_key method path query_params : string)
  : result (string * string) * world :=
  let (dt, w) := now_utc w in
  let dt := replace_microsecond dt 0 in
  let timestamp := isoformat dt in
  let payload := signing_payload path query_params method timestamp in
  let secret_key_padded := pad_secret secret_key in
  match Base64.urlsafe_b64decode secret_key_padded with
  | None => (Raise ValueError, w)
  | Some decoded_secret =>
      match encode_ascii payload with
      | None => (Raise UnicodeEncodeError, w)
      | Some msg =>
          let signature := signature_of decoded_secret msg in
          let auth_value :=
            signature_version ++ ":" ++ access_key_id ++ ":" ++ signature in
          (Ok (timestamp, "Bearer " ++ auth_value), w)
      end
  end.

(** The [timestamp] of lines 27 and 28 for the reading world [w] is
    about to give. *)
Definition timestamp_at (w : world) : string :=
  isoformat (replace_microsecond (fst (now_utc w)) 0).

(** The [headers] dictionary [test_crusoe_api] builds from the result
    of [create_crusoe_signature]. *)
Definition request_headers (timestamp auth_header : string) : dict string :=
  [ ("X-Crusoe-Timestamp", timestamp);
    ("Authorization", auth_header);
    ("Content-Type", "application/json") ].

(** The inline signing of [test_query_param_issue.py] (lines 32 to 47):
    the timestamp is [str(now)] with the blank replaced by [T], the
    path is [api_version + request_path]; the result is the [headers]
    dictionary. *)
Definition inline_signed_headers (w : world)
           (access_key secret_key api_version request_path query_params
            request_verb : string)
  : result (dict string) * world :=
  let (now, w) := now_utc w in
  let dt := Datetime.str (replace_microsecond now 0) in
  let dt := replace_char " " "T" dt in
  let payload :=
    api_version ++ request_path ++ nl ++ query_params ++ nl ++ request_verb
    ++ nl ++ dt ++ nl in
  match Base64.urlsafe_b64decode (pad_secret secret_key) with
  | None => (Raise ValueError, w)
  | Some decoded =>
      match encode_ascii payload with
      | None => (Raise UnicodeEncodeError, w)
      | Some msg =>
          let signature := signature_of decoded msg in
          (Ok [ ("X-Crusoe-Timestamp", dt);
                ("Authorization",
                 "Bearer " ++ signature_version ++ ":" ++ access_key ++ ":"
                 ++ signature) ], w)
      end
  end.

(** A query-parameter value: the scripts use strings and integers. *)
Inductive pvalue : Type :=
| PStr (s : string)
| PInt (n : Z).

(** [f"{v}"]. *)
Definition format_value (v : pvalue) : string :=
  match v with
  | PStr s => s
  | PInt n => str_int n
  end.

(** Lines 42 and 43 of [test_url_encoding.py]:
    [sorted_params = sorted(params.items())] and
    ["&".join([f"{k}={v}" for k, v in sorted_params])]. *)
Definition canonicalize (params : dict pvalue) : string :=
  let sorted_params := sorted (items params) in
  join "&" (map (fun kv => fst kv ++ "=" ++ format_value (snd kv)) sorted_params).

End Signer.

(* ================================================================== *)
(** ** JSON values as [response.json()] returns them *)
(* ================================================================== *)

Module Json.
Import Py.

(** Numbers are integers here; objects are Python dictionaries. *)
Inductive json : Type :=
| JNull
| JBool (b : bool)
| JNum (n : Z)
| JStr (s : string)
| JArr (l : list json)
| JObj (d : list (string * json)).

(** [bool(v)]. *)
Definition truthy (v : json) : bool :=
  match v with
  | JNull => false
  | JBool b => b
  | JNum n => negb (n =? 0)
  | JStr s => negb (String.eqb s "")
  | JArr l => match l with [] => false | _ => true end
  | JObj d => match d with [] => false | _ => true end
  end.

(** [len(v)]; [None] stands for [TypeError]. *)
Definition py_len (v : json) : option Z :=
  match v with
  | JStr s => Some (len s)
  | JArr l => Some (Z.of_nat (List.length l))
  | JObj d => Some (Z.of_nat (List.length d))
  | _ => None
  end.

Fixpoint chars (s : string) : list json :=
  match s with
  | EmptyString => []
  | String c r => JStr (String c EmptyString) :: chars r
  end.

(** The elements [list.extend(v)] appends; [None] stands for
    [TypeError]. *)
Definition py_iter (v : json) : option (list json) :=
  match v with
  | JStr s => Some (chars s)
  | JArr l => Some l
  | JObj d => Some (map (fun kv => JStr (fst kv)) d)
  | _ => None
  end.

End Json.

(* ================================================================== *)
(** ** The HTTP layer: the endpoint, [urllib3]'s [Retry] and [requests] *)
(* ================================================================== *)

Module Http.
Import Py Json Signer.

Record request : Type := mkRequest {
  req_method : string;
  req_url : string;
  req_params : dict pvalue;
  req_headers : dict string;
  req_timeout : Z
}.

(** A response that is not a redirect.  [retry_after] is the value of
    the [Retry-After] header in seconds when the header is present,
    [body] the decoded JSON body when the body is JSON. *)
Record response : Type := mkResponse {
  status_code : Z;
  reason : string;
  retry_after : option Z;
  body : option json
}.

(** What one attempt on the wire yields: an answer, or a connection
    or read failure (timeouts included). *)
Inductive outcome : Type :=
| Answer (r : response)
| Failure.

(** The endpoint: its answer to the [n]-th request put on the wire. *)
Definition server : Type := nat -> request -> outcome.

(** The observable history of a run: the requests put on the wire,
    oldest first, and the pauses taken, in milliseconds. *)
Record net : Type := mkNet {
  sent : list request;
  slept : list Z
}.

Definition net0 : net := mkNet [] [].

Definition record_sent (n : net) (r : request) : net :=
  mkNet (sent n ++ [r])%list (slept n).

(** [time.sleep]. *)
Definition sleep_ms (n : net) (ms : Z) : net :=
  mkNet (sent n) (slept n ++ [ms])%list.

(** [urllib3.util.retry.Retry] with the fields the client sets; the
    other counters keep their default [None].  [history] counts the
    failed attempts recorded so far. *)
Record Retry : Type := mkRetry {
  total : Z;
  status_forcelist : list Z;
  method_whitelist : list string;
  backoff_factor : Z;
  history : nat
}.

Definition RETRY_AFTER_STATUS_CODES : list Z := [413; 429; 503].
Definition BACKOFF_MAX : Z := 120.

Definition mem_Z (x : Z) (l : list Z) : bool := existsb (Z.eqb x) l.
Definition mem_str (x : string) (l : list string) : bool :=
  existsb (String.eqb x) l.

(** [Retry.is_retry(method, status_code, has_retry_after)]. *)
Definition is_retry (r : Retry) (method : string) (status : Z)
           (has_retry_after : bool) : bool :=
  if negb (mem_str method (method_whitelist r)) then false
  else if mem_Z status (status_forcelist r) then true
  else negb (total r =? 0) && has_retry_after
       && mem_Z status RETRY_AFTER_STATUS_CODES.

(** [Retry.increment]: the new policy, before the exhaustion test. *)
Definition increment (r : Retry) : Retry :=
  mkRetry (total r - 1) (status_forcelist r) (method_whitelist r)
          (backoff_factor r) (S (history r)).

(** [Retry.is_exhausted]: the counters that are [None] or [0] are
    dropped and the least of the others is compared with [0]. *)
Definition is_exhausted (r : Retry) : bool := total r <? 0.

(** [Retry.get_backoff_time], in seconds. *)
Definition get_backoff_time (r : Retry) : Z :=
  if (history r <=? 1)%nat then 0
  else Z.min BACKOFF_MAX (backoff_factor r * 2 ^ (Z.of_nat (history r) - 1)).

Definition sleep_backoff (r : Retry) (n : net) : net :=
  let backoff := get_backoff_time r in
  if backoff <=? 0 then n else sleep_ms n (1000 * backoff).

(** [Retry.sleep(response)]: the [Retry-After] header first, the
    backoff when the header is absent or zero. *)
Definition retry_sleep (r : Retry) (resp : option response) (n : net) : net :=
  match resp with
  | Some rs =>
      match retry_after rs with
      | Some secs => if secs =? 0 then sleep_backoff r n
                     else sleep_ms n (1000 * secs)
      | None => sleep_backoff r n
      end
  | None => sleep_backoff r n
  end.

(** The exceptions of [requests.exceptions], all of them subclasses of
    [RequestException]. *)
Inductive request_exception : Type :=
| HTTPError (r : response)      (** raised by [raise_for_status] *)
| RetryError                    (** retries exhausted on a status *)
| ConnectionError               (** retries exhausted on a failure *)
| JSONDecodeError.              (** [requests.exceptions.JSONDecodeError] *)

(** [e.response]. *)
Definition exc_response (e : request_exception) : option response :=
  match e with
  | HTTPError r => Some r
  | _ => None
  end.

(** [HTTPConnectionPool.urlopen] as [HTTPAdapter.send] calls it: the
    request is put on the wire; a failure or a status the policy
    retries consumes one unit of the policy, and the call is repeated
    after the pause unless the policy is exhausted.  [fuel] bounds the
    number of attempts; [S (Z.to_nat (total r))] is always enough. *)
Fixpoint urlopen (fuel : nat) (srv : server) (r : Retry) (rq : request)
         (n : net) : (response + request_exception) * net :=
  match fuel with
  | O => (inr ConnectionError, n)
  | S k =>
      let out := srv (List.length (sent n)) rq in
      let n := record_sent n rq in
      match out with
      | Failure =>
          let r' := increment r in
          if is_exhausted r' then (inr ConnectionError, n)
          else urlopen k srv r' rq (retry_sleep r' None n)
      | Answer resp =>
          let has_retry_after :=
            match retry_after resp with Some _ => true | None => false end in
          if is_retry r (req_method rq) (status_code resp) has_retry_after
          then
            let r' := increment r in
            if is_exhausted r' then (inr RetryError, n)
            else urlopen k srv r' rq (retry_sleep r' (Some resp) n)
          else (inl resp, n)
      end
  end.

(** [requests.Session] with the adapter mounted on both schemes. *)
Record Session : Type := mkSession {
  headers : dict string;
  max_retries : Retry
}.

(** [session.get(url, params=params, timeout=timeout)]. *)
Definition session_get (srv : server) (s : Session) (url : string)
           (params : dict pvalue) (timeout : Z) (n : net)
  : (response + request_exception) * net :=
  let rq := mkRequest "GET" url params (headers s) timeout in
  urlopen (S (Z.to_nat (total (max_retries s)))) srv (max_retries s) rq n.

(** [response.raise_for_status()]. *)
Definition raise_for_status (r : response) : option request_exception :=
  if (400 <=? status_code r) && (status_code r <? 600)
  then Some (HTTPError r) else None.

(** What depends on the installed version of [requests]: the headers
    a new session starts with, the text of an exception, the text of
    a decoded body, and whether the error of [response.json()] is a
    [RequestException] or a plain [ValueError]. *)
Record requests_lib : Type := mkLib {
  default_headers : dict string;
  str_exc : request_exception -> string;
  str_json : json -> string;
  json_error_is_request_exception : bool
}.

End Http.

(* ================================================================== *)
(** ** [config.py] *)
(* ================================================================== *)

Module Config.

Record CrusoeConfig : Type := mkCrusoeConfig {
  api_token : string;
  base_url : string;
  organization_id : string
}.

Record SplunkConfig : Type := mkSplunkConfig {
  hec_token : string;
  hec_url : string;
  index : option string;
  sourcetype : string;
  source : string;
  verify_ssl : bool
}.

Record AppConfig : Type := mkAppConfig {
  crusoe : CrusoeConfig;
  splunk : SplunkConfig;
  batch_size : Z;
  timeout : Z;
  max_retries : Z
}.

(** The defaults of the [Field] declarations. *)
Definition default_base_url : string := "https://api.crusoecloud.com/v1alpha5".
Definition default_batch_size : Z := 100.
Definition default_timeout : Z := 30.
Definition default_max_retries : Z := 3.

End Config.

(* ================================================================== *)
(** ** [crusoe_client.py] *)
(* ================================================================== *)

Module Client.
Import Py Json Signer Http Config.

Record CrusoeClient : Type := mkClient {
  config : CrusoeConfig;
  session : Session
}.

Section WithLibrary.
Variable L : requests_lib.

(** [CrusoeClient._create_session]. *)
Definition _create_session (cfg : CrusoeConfig) : Session :=
  let retry_strategy :=
    mkRetry 3 [429; 500; 502; 503; 504] ["HEAD"; "GET"; "OPTIONS"] 1 0 in
  mkSession
    (dict_update (default_headers L)
       [ ("Authorization", "Bearer " ++ api_token cfg);
         ("Content-Type", "application/json");
         ("User-Agent", "crusoe-splunk-hec/1.0") ])
    retry_strategy.

(** [CrusoeClient.__init__]. *)
Definition CrusoeClient_init (cfg : CrusoeConfig) : CrusoeClient :=
  mkClient cfg (_create_session cfg).

(** The [url] of [get_audit_logs]. *)
Definition audit_logs_url (cfg : CrusoeConfig) : string :=
  base_url cfg ++ "/organizations/" ++ organization_id cfg ++ "/audit-logs".

(** The truth value of an optional integer argument. *)
Definition truthy_int (v : option Z) : bool :=
  match v with
  | Some n => negb (n =? 0)
  | None => false
  end.

(** The query parameters [get_audit_logs] builds (lines 84 to 95).
    A [datetime] is always true, so a time is added whenever it is
    not [None]. *)
Definition build_params (start_time end_time : option Datetime.datetime)
           (limit offset : option Z) (kwargs : dict pvalue) : dict pvalue :=
  let params := [] in
  let params :=
    match start_time with
    | Some t => dict_set params "start_time" (PStr (Datetime.isoformat t))
    | None => params
    end in
  let params :=
    match end_time with
    | Some t => dict_set params "end_time" (PStr (Datetime.isoformat t))
    | None => params
    end in
  let params :=
    match limit with
    | Some n => if truthy_int limit then dict_set params "limit" (PInt n)
                else params
    | None => params
    end in
  let params :=
    match offset with
    | Some n => if truthy_int offset then dict_set params "offset" (PInt n)
                else params
    | None => params
    end in
  dict_update params kwargs.

(** The [except requests.exceptions.RequestException] handler of
    [get_audit_logs] (lines 108 to 118). *)
Definition api_error (e : request_exception) : exn :=
  let error_msg := "Failed to fetch audit logs: " ++ str_exc L e in
  let error_msg :=
    match exc_response e with
    | Some r =>
        match body r with
        | Some error_detail => error_msg ++ " - " ++ str_json L error_detail
        | None => error_msg ++ " - Status: " ++ str_int (status_code r)
        end
    | None => error_msg
    end in
  CrusoeAPIError error_msg.

(** [CrusoeClient.get_audit_logs]. *)
Definition get_audit_logs (srv : server) (self : CrusoeClient)
           (start_time end_time : option Datetime.datetime)
           (limit offset : option Z) (kwargs : dict pvalue) (n : net)
  : result json * net :=
  let url := audit_logs_url (config self) in
  let params := build_params start_time end_time limit offset kwargs in
  match session_get srv (session self) url params 30 n with
  | (inr e, n) => (Raise (api_error e), n)
  | (inl response, n) =>
      match raise_for_status response with
      | Some e => (Raise (api_error e), n)
      | None =>
          match body response with
          | None =>
              if json_error_is_request_exception L
              then (Raise (api_error JSONDecodeError), n)
              else (Raise ValueError, n)
          | Some data =>
              match data with
              | JObj d =>
                  let logs :=
                    match dict_get d "items" with
                    | Some v => v
                    | None => JArr []
                    end in
                  match py_len logs with
                  | Some _ => (Ok logs, n)
                  | None => (Raise TypeError, n)
                  end
              | _ => (Raise AttributeError, n)
              end
          end
      end
  end.

(** The truth value of [max_pages]. *)
Definition max_pages_reached (max_pages : option Z) (page_count : Z) : bool :=
  match max_pages with
  | Some m => negb (m =? 0) && (m <=? page_count)
  | None => false
  end.

(** The [while True] loop of [get_audit_logs_paginated] (lines 142 to
    174), one iteration per unit of [fuel]; [None] when the loop has
    not ended within [fuel] iterations. *)
Fixpoint paginate (fuel : nat) (srv : server) (self : CrusoeClient)
         (start_time end_time : option Datetime.datetime)
         (page_size : Z) (max_pages : option Z)
         (all_logs : list json) (offset page_count : Z) (n : net)
  : option (result (list json) * net) :=
  match fuel with
  | O => None
  | S k =>
      if max_pages_reached max_pages page_count then Some (Ok all_logs, n)
      else
        match get_audit_logs srv self start_time end_time
                             (Some page_size) (Some offset) [] n with
        | (Ok logs, n) =>
            if negb (truthy logs) then Some (Ok all_logs, n)
            else
              match py_iter logs, py_len logs with
              | Some items, Some count =>
                  let all_logs := (all_logs ++ items)%list in
                  let offset := offset + count in
                  let page_count := page_count + 1 in
                  if count <? page_size then Some (Ok all_logs, n)
                  else paginate k srv self start_time end_time page_size
                                max_pages all_logs offset page_count
                                (sleep_ms n 100)
              | _, _ => Some (Ok all_logs, n)
              end
        | (Raise (CrusoeAPIError msg), n) => Some (Raise (CrusoeAPIError msg), n)
        | (Raise _, n) => Some (Ok all_logs, n)
        end
  end.

(** [CrusoeClient.get_audit_logs_paginated]. *)
Definition get_audit_logs_paginated (fuel : nat) (srv : server)
           (self : CrusoeClient)
           (start_time end_time : option Datetime.datetime)
           (page_size : Z) (max_pages : option Z) (n : net)
  : option (result (list json) * net) :=
  paginate fuel srv self start_time end_time page_size max_pages [] 0 0 n.

(** The client [LogForwarder.__init__] of [main.py] creates from the
    application configuration. *)
Definition LogForwarder_crusoe_client (cfg : AppConfig) : CrusoeClient :=
  CrusoeClient_init (crusoe cfg).

End WithLibrary.

End Client.

(* ================================================================== *)
(** ** Well-formed URL-safe base64 text (RFC 4648, section 5) *)
(* ================================================================== *)

Module Rfc4648.
Import Py.

(** The characters of the URL-safe alphabet. *)
Definition is_urlsafe_char (c : ascii) : bool :=
  let n := Z.of_N (N_of_ascii c) in
  ((65 <=? n) && (n <=? 90)) || ((97 <=? n) && (n <=? 122))
  || ((48 <=? n) && (n <=? 57)) || (n =? 45) || (n =? 95).

Fixpoint all_chars (f : ascii -> bool) (s : string) : bool :=
  match s with
  | EmptyString => true
  | String c r => f c && all_chars f r
  end.

(** Fully padded URL-safe base64: characters of the alphabet followed
    by at most two [=], a multiple of four characters in all. *)
Definition valid_urlsafe_b64 (s : string) : bool :=
  let data := rstrip "=" s in
  all_chars is_urlsafe_char data
  && (String.length s - String.length data <=? 2)%nat
  && (Nat.modulo (String.length s) 4 =? 0)%nat.

End Rfc4648.

(* ================================================================== *)
(** ** The shape of a timestamp and the other scripts' signing steps *)
(* ================================================================== *)

Module Shape.
Import Py.

Definition is_digit (c : ascii) : bool :=
  let n := N_of_ascii c in ((48 <=? n) && (n <=? 57))%N.

(** [matches pat s]: [s] has the length of [pat], a digit wherever
    [pat] has [d] and the character of [pat] everywhere else. *)
Fixpoint matches (pat s : string) : bool :=
  match pat, s with
  | EmptyString, EmptyString => true
  | String p pr, String c r =>
      (if Ascii.eqb p "d" then is_digit c else Ascii.eqb c p) && matches pr r
  | _, _ => false
  end.

(** A pattern without a blank. *)
Fixpoint no_blank (pat : string) : bool :=
  match pat with
  | EmptyString => true
  | String p r => negb (Ascii.eqb p " ") && no_blank r
  end.

(** The integers [lo], [lo + 1], ..., [lo + n - 1]. *)
Definition Zrange (lo : Z) (n : nat) : list Z :=
  map (fun k => lo + Z.of_nat k) (seq 0 n).

(** Second precision, literal [T], UTC offset suffix. *)
Definition rfc3339_utc_seconds : string := "dddd-dd-ddTdd:dd:dd+00:00".

End Shape.

Module Debug.
Import Py Signer.

(** Lines 50 to 62 of [debug_crusoe_auth.py]: the secret is decoded as
    it is, and with the padding restored when that fails; [None] when
    both fail and the script gives up. *)
Definition decode_secret (secret_key : string) : option bytes :=
  match Base64.urlsafe_b64decode secret_key with
  | Some decoded_secret => Some decoded_secret
  | None => Base64.urlsafe_b64decode (pad_secret secret_key)
  end.

(** Lines 44 to 80 of [debug_crusoe_auth.py]: the [Authorization] value
    printed for the fixed timestamp. *)
Definition debug_authorization
           (access_key secret_key request_path query_params request_verb
            test_timestamp : string) : option (result string) :=
  let payload :=
    request_path ++ nl ++ query_params ++ nl ++ request_verb ++ nl
    ++ test_timestamp ++ nl in
  match decode_secret secret_key with
  | None => None
  | Some decoded_secret =>
      match encode_ascii payload with
      | None => Some (Raise UnicodeEncodeError)
      | Some msg =>
          let signature := signature_of decoded_secret msg in
          let auth_value :=
            signature_version ++ ":" ++ access_key ++ ":" ++ signature in
          Some (Ok ("Bearer " ++ auth_value))
      end
  end.

End Debug.

(* ================================================================== *)
(** ** Endpoints and traces used to state the properties of the client *)
(* ================================================================== *)

Module Endpoints.
Import Py Json Signer Http Config Client.

(** The name of the class of an exception. *)
Definition exn_class (e : exn) : string :=
  match e with
  | ValueError => "ValueError"
  | UnicodeEncodeError => "UnicodeEncodeError"
  | AttributeError => "AttributeError"
  | TypeError => "TypeError"
  | CrusoeAPIError _ => "CrusoeAPIError"
  end.

(** The class of the exception a call ended with, if it raised. *)
Definition raised_class {A : Type} (r : result A) : option string :=
  match r with
  | Ok _ => None
  | Raise e => Some (exn_class e)
  end.

(** A successful answer carrying one page of items. *)
Definition page_response (items : list json) : response :=
  mkResponse 200 "OK" None (Some (JObj [("items", JArr items)])).

(** An endpoint that gives the same answer to every request. *)
Definition always (r : response) : server := fun _ _ => Answer r.

(** An endpoint that answers its [i]-th request with the [i]-th page,
    and with an empty page once the pages are used up. *)
Definition serve_pages (pages : list (list json)) : server :=
  fun i _ => Answer (page_response (nth i pages [])).

(** The request [get_audit_logs] puts on the wire. *)
Definition fetch_request (self : CrusoeClient)
           (start_time end_time : option Datetime.datetime)
           (limit offset : option Z) (kwargs : dict pvalue) : request :=
  mkRequest "GET" (audit_logs_url (config self))
            (build_params start_time end_time limit offset kwargs)
            (headers (session self)) 30.

(** What [get_audit_logs] makes of the response [session.get] returns
    (lines 100 to 106, and the handler for [raise_for_status]). *)
Definition response_result (L : requests_lib) (r : response) : result json :=
  match raise_for_status r with
  | Some e => Raise (api_error L e)
  | None =>
      match body r with
      | None =>
          if json_error_is_request_exception L
          then Raise (api_error L JSONDecodeError)
          else Raise ValueError
      | Some (JObj d) =>
          let logs :=
            match dict_get d "items" with
            | Some v => v
            | None => JArr []
            end in
          match py_len logs with
          | Some _ => Ok logs
          | None => Raise TypeError
          end
      | Some _ => Raise AttributeError
      end
  end.

(** The request of the paginated fetch for one offset. *)
Definition page_request (self : CrusoeClient)
           (start_time end_time : option Datetime.datetime)
           (page_size offset : Z) : request :=
  fetch_request self start_time end_time (Some page_size) (Some offset) [].

(** The offsets at which a sequence of pages is asked for: [0], then
    the number of items received so far. *)
Fixpoint offsets_from (offset : Z) (pages : list (list json)) : list Z :=
  match pages with
  | [] => []
  | p :: r => offset :: offsets_from (offset + Z.of_nat (List.length p)) r
  end.

(** The history after full pages were fetched at the given offsets: one
    request and one pause of 100 ms per page. *)
Definition after_pages (self : CrusoeClient)
           (start_time end_time : option Datetime.datetime) (page_size : Z)
           (offs : list Z) (n : net) : net :=
  fold_left
    (fun n off =>
       sleep_ms
         (record_sent n (page_request self start_time end_time page_size off))
         100)
    offs n.

(** The [offset] a request asks for: absent means [0]. *)
Definition offset_of (rq : request) : Z :=
  match dict_get (req_params rq) "offset" with
  | Some (PInt n) => n
  | _ => 0
  end.

(** The requests of a finished run. *)
Definition trace {A : Type} (o : option (A * net)) : list request :=
  match o with
  | Some (_, n) => sent n
  | None => []
  end.

(** The result and the history of a finished run. *)
Definition finished {A : Type} (o : option (result (list A) * net))
  : result (list A) * net :=
  match o with
  | Some x => x
  | None => (Ok [], net0)
  end.

(** A full page: not empty and not shorter than the page size. *)
Definition full_page (page_size : Z) (p : list json) : Prop :=
  p <> [] /\ page_size <= Z.of_nat (List.length p).

(** A last page: empty, or shorter than the page size. *)
Definition last_page (page_size : Z) (p : list json) : Prop :=
  p = [] \/ Z.of_nat (List.length p) < page_size.

End Endpoints.

(* ================================================================== *)
(** ** Sample inputs *)
(* ================================================================== *)

Module Sample.
Import Py Datetime Signer Json Http Config.

(** A clock that shows 2024-01-02 03:04:05.123456 and advances by one
    second per reading. *)
Definition clock (n : nat) : datetime :=
  mkDatetime 2024 1 2 3 4 (5 + Z.of_nat n) 123456 None.

Definition w0 : world := mkWorld clock 0.

(** The secret [Jefe], as URL-safe base64 without its padding. *)
Definition secret : string := "SmVmZQ".

Definition decoded : bytes := ["J"%byte; "e"%byte; "f"%byte; "e"%byte].

Definition payload0 : bytes :=
  match encode_ascii
          (signing_payload "/v1alpha5/locations" "" "GET"
                           "2024-01-02T03:04:05+00:00") with
  | Some b => b
  | None => []
  end.

(** A version of [requests]. *)
Definition L0 : requests_lib :=
  mkLib
    [ ("User-Agent", "python-requests/2.31.0");
      ("Accept-Encoding", "gzip, deflate");
      ("Accept", "*/*");
      ("Connection", "keep-alive") ]
    (fun e =>
       match e with
       | HTTPError r => str_int (status_code r) ++ " Error: " ++ reason r
       | RetryError => "Max retries exceeded (too many error responses)"
       | ConnectionError => "Max retries exceeded (connection failed)"
       | JSONDecodeError => "Expecting value: line 1 column 1 (char 0)"
       end)
    (fun j => match j with JStr s => s | _ => "{...}" end)
    true.

Definition cfg0 : CrusoeConfig := mkCrusoeConfig "tok" default_base_url "org-1".

Definition splunk0 : SplunkConfig :=
  mkSplunkConfig "hec" "https://splunk.example:8088" None "crusoe:audit"
                 "crusoe_api" true.

(** The application configuration with the defaults of [AppConfig]. *)
Definition app0 : AppConfig :=
  mkAppConfig cfg0 splunk0 default_batch_size default_timeout
              default_max_retries.

Definition client0 : Client.CrusoeClient := Client.LogForwarder_crusoe_client L0 app0.

Definition item (n : Z) : json := JObj [("id", JNum n)].

(** [n] items. *)
Definition page (n : nat) : list json := map (fun k => item (Z.of_nat k)) (seq 0 n).

Definition error_response (status : Z) (reason : string) (msg : string)
  : response :=
  mkResponse status reason None (Some (JObj [("message", JStr msg)])).

(** An endpoint with three items, served two at a time. *)
Definition two_pages : server := Endpoints.serve_pages [page 2; page 1].

(** An endpoint that serves one full page of two items and then
    answers [200] with a JSON list instead of an object. *)
Definition list_body : server :=
  fun i _ =>
    match i with
    | O => Answer (Endpoints.page_response (page 2))
    | _ => Answer (mkResponse 200 "OK" None (Some (JArr [])))
    end.

(** An endpoint that serves one full page of two items and then
    answers [401]. *)
Definition then_unauthorized : server :=
  fun i _ =>
    match i with
    | O => Answer (Endpoints.page_response (page 2))
    | _ => Answer (error_response 401 "Unauthorized" "bad credentials")
    end.

End Sample.

(* ================================================================== *)
(** ** [crusoe_client.py]: the health check *)
(* ================================================================== *)

Module Health.
Import Py Json Signer Http Config Client.

(** [CrusoeClient.health_check]: one page fetch with [limit=1]; every
    exception is logged and turned into [False]. *)
Definition health_check (L : requests_lib) (srv : server)
           (self : CrusoeClient) (n : net) : bool * net :=
  match get_audit_logs L srv self None None (Some 1) None [] n with
  | (Ok _, n) => (true, n)
  | (Raise _, n) => (false, n)
  end.

(** What the retry loop makes of an attempt it repeats: the response it
    hands to [Retry.sleep], and the exception it ends with when the
    policy is exhausted. *)
Definition retried_response (o : outcome) : option response :=
  match o with
  | Answer r => Some r
  | Failure => None
  end.

Definition exhausted_exception (o : outcome) : request_exception :=
  match o with
  | Answer _ => RetryError
  | Failure => ConnectionError
  end.

(** The attempts the policy repeats: failures, and answers with a status
    of the client's [status_forcelist]. *)
Definition transient (o : outcome) : Prop :=
  match o with
  | Answer r => In (status_code r) [429; 500; 502; 503; 504]
  | Failure => True
  end.

(** The lists of the retry policy [_create_session] sets. *)
Definition client_lists (r : Retry) : Prop :=
  status_forcelist r = [429; 500; 502; 503; 504]
  /\ method_whitelist r = ["HEAD"; "GET"; "OPTIONS"].

End Health.

(* ================================================================== *)
(** ** [config.py]: the environment and the validation *)
(* ================================================================== *)

Module Env.
Import Py Config.

(** [os.environ]. *)
Definition environ : Type := dict string.

(** [os.getenv(key, default)] and [os.getenv(key)]. *)
Definition getenv (env : environ) (key default : string) : string :=
  match dict_get env key with
  | Some v => v
  | None => default
  end.

Definition getenv_opt (env : environ) (key : string) : option string :=
  dict_get env key.

(** [c.lower()] for a code point below 256: the ASCII capitals and the
    capitals of Latin-1 (192 to 222 without the multiplication sign). *)
Definition lower_char (c : ascii) : ascii :=
  let n := N_of_ascii c in
  if ((65 <=? n) && (n <=? 90))%N then ascii_of_N (n + 32)
  else if ((192 <=? n) && (n <=? 222) && negb (n =? 215))%N
       then ascii_of_N (n + 32)
       else c.

(** [s.lower()]. *)
Fixpoint str_lower (s : string) : string :=
  match s with
  | EmptyString => EmptyString
  | String c r => String (lower_char c) (str_lower r)
  end.

(** The blanks [int()] skips around a number: the ASCII ones, and the
    Latin-1 ones above 127. *)
Definition int_space (c : ascii) : bool :=
  let n := N_of_ascii c in
  (((9 <=? n) && (n <=? 13)) || (n =? 32) || (n =? 133) || (n =? 160))%N.

Definition digit_value (c : ascii) : option Z :=
  let n := Z.of_N (N_of_ascii c) in
  if (48 <=? n) && (n <=? 57) then Some (n - 48) else None.

Fixpoint lstrip_space (s : string) : string :=
  match s with
  | EmptyString => EmptyString
  | String c r => if int_space c then lstrip_space r else s
  end.

Fixpoint all_space (s : string) : bool :=
  match s with
  | EmptyString => true
  | String c r => int_space c && all_space r
  end.

(** The digits of [int()]: decimal digits, single underscores between
    them, then blanks to the end.  [acc] is the value so far, [count]
    the number of digits, [after_digit] tells whether the previous
    character was a digit. *)
Fixpoint int_digits (s : string) (acc : Z) (count : nat) (after_digit : bool)
  : option (Z * nat) :=
  match s with
  | EmptyString => if after_digit then Some (acc, count) else None
  | String c r =>
      match digit_value c with
      | Some d => int_digits r (10 * acc + d) (S count) true
      | None =>
          if Ascii.eqb c "_" then
            if after_digit then int_digits r acc count false else None
          else if after_digit && all_space s then Some (acc, count)
               else None
      end
  end.

(** [int(s)] for a string; [None] stands for [ValueError].  A number of
    more than 4300 digits is refused. *)
Definition py_int (s : string) : option Z :=
  let s := lstrip_space s in
  let (negative, s) :=
    match s with
    | String c r =>
        if Ascii.eqb c "-" then (true, r)
        else if Ascii.eqb c "+" then (false, r) else (false, s)
    | EmptyString => (false, s)
    end in
  match int_digits s 0 0 false with
  | Some (v, count) =>
      if (count <=? 4300)%nat then Some (if negative then - v else v) else None
  | None => None
  end.

(** [CrusoeConfig.from_env]. *)
Definition CrusoeConfig_from_env (env : environ) : CrusoeConfig :=
  mkCrusoeConfig
    (getenv env "CRUSOE_API_TOKEN" "")
    (getenv env "CRUSOE_BASE_URL" "https://api.crusoecloud.com/v1alpha5")
    (getenv env "CRUSOE_ORG_ID" "").

(** [SplunkConfig.from_env]. *)
Definition SplunkConfig_from_env (env : environ) : SplunkConfig :=
  mkSplunkConfig
    (getenv env "SPLUNK_HEC_TOKEN" "")
    (getenv env "SPLUNK_HEC_URL" "")
    (getenv_opt env "SPLUNK_INDEX")
    (getenv env "SPLUNK_SOURCETYPE" "crusoe:audit")
    (getenv env "SPLUNK_SOURCE" "crusoe_api")
    (String.eqb (str_lower (getenv env "SPLUNK_VERIFY_SSL" "true")) "true").

(** [AppConfig.from_env]: the three numbers are read with [int()]. *)
Definition AppConfig_from_env (env : environ) : result AppConfig :=
  let crusoe := CrusoeConfig_from_env env in
  let splunk := SplunkConfig_from_env env in
  match py_int (getenv env "BATCH_SIZE" "100") with
  | None => Raise ValueError
  | Some batch_size =>
      match py_int (getenv env "REQUEST_TIMEOUT" "30") with
      | None => Raise ValueError
      | Some timeout =>
          match py_int (getenv env "MAX_RETRIES" "3") with
          | None => Raise ValueError
          | Some max_retries =>
              Ok (mkAppConfig crusoe splunk batch_size timeout max_retries)
          end
      end
  end.

(** [not s] for a string. *)
Definition is_empty (s : string) : bool := String.eqb s "".

(** [AppConfig.validate_config]: [None] when it returns, the message of
    the [ValueError] when it raises. *)
Definition validate_config (self : AppConfig) : option string :=
  if is_empty (api_token (crusoe self))
  then Some "CRUSOE_API_TOKEN environment variable is required"
  else if is_empty (organization_id (crusoe self))
  then Some "CRUSOE_ORG_ID environment variable is required"
  else if is_empty (hec_token (splunk self))
  then Some "SPLUNK_HEC_TOKEN environment variable is required"
  else if is_empty (hec_url (splunk self))
  then Some "SPLUNK_HEC_URL environment variable is required"
  else None.

End Env.

(* ================================================================== *)
(** ** [main.py]: [LogForwarder.forward_logs] *)
(* ================================================================== *)

Module Forwarder.
Import Py Json Signer Http Config Client.

Section WithSplunk.

(** The Splunk client of [splunk_hec.py]: what it keeps track of, the
    exceptions it raises, and its [send_events_batch(logs, batch_size)],
    which returns the number of events sent. *)
Variable splunk_state : Type.
Variable splunk_error : Type.
Variable send_events_batch :
  list json -> Z -> splunk_state -> (Z + splunk_error) * splunk_state.

(** The exceptions [forward_logs] raises again. *)
Inductive forward_exn : Type :=
| FromCrusoe (e : exn)
| FromSplunk (e : splunk_error).

(** [LogForwarder.forward_logs]; [None] when the fetch has not ended
    within [fuel] pages. *)
Definition forward_logs (L : requests_lib) (fuel : nat) (srv : server)
           (cfg : AppConfig)
           (start_time end_time : option Datetime.datetime) (dry_run : bool)
           (n : net) (sp : splunk_state)
  : option ((Z + forward_exn) * net * splunk_state) :=
  let crusoe_client := LogForwarder_crusoe_client L cfg in
  match get_audit_logs_paginated L fuel srv crusoe_client start_time end_time
                                 (batch_size cfg) None n with
  | None => None
  | Some (Raise e, n) => Some (inr (FromCrusoe e), n, sp)
  | Some (Ok logs, n) =>
      match logs with
      | [] => Some (inl 0, n, sp)
      | _ =>
          if dry_run then Some (inl (Z.of_nat (List.length logs)), n, sp)
          else
            match send_events_batch logs (batch_size cfg) sp with
            | (inl sent_count, sp) => Some (inl sent_count, n, sp)
            | (inr e, sp) => Some (inr (FromSplunk e), n, sp)
            end
      end
  end.

End WithSplunk.

Arguments FromCrusoe {splunk_error} e.
Arguments FromSplunk {splunk_error} e.

End Forwarder.

(* ================================================================== *)
(** ** The sextets of a base64 group *)
(* ================================================================== *)

Module Sextets.
Import Py Base64.

(** A sextet put together from the low bits [p] of one byte and the
    high bits [q] of the next, [w] bits wide. *)
Definition glue (w p q : Z) : Z := Z.lor (Z.shiftl p w) q.

(** The character of a sextet, as the decoder sees it after the
    translation of the URL-safe characters. *)
Definition wire (v : Z) : ascii :=
  urlsafe_decode_char (urlsafe_encode_char (b2a v)).

(** The text of [urlsafe_b64encode(data)] as the decoder works on it. *)
Definition wired (data : bytes) : string :=
  translate urlsafe_decode_char (translate urlsafe_encode_char (b2a_base64 data)).

(** The number of characters before the padding in the encoding of [n]
    bytes, and the number of pad characters. *)
Definition body_length (n : nat) : nat :=
  (4 * (n / 3) + match (n mod 3)%nat with O => 0 | 1 => 2 | _ => 3 end)%nat.

Definition pad_length (n : nat) : nat :=
  match (n mod 3)%nat with O => 0 | 1 => 2 | _ => 1 end%nat.

End Sextets.

(* ================================================================== *)
(** ** [urllib.parse]: percent-encoding of a query *)
(* ================================================================== *)

Module Urllib.
Import Py.

Definition code (c : ascii) : Z := Z.of_N (N_of_ascii c).

Definition chr (b : Z) : ascii := ascii_of_N (Z.to_N b).

(** [_ALWAYS_SAFE]: the letters, the digits and [_.-~]. *)
Definition always_safe_byte (b : Z) : bool :=
  ((65 <=? b) && (b <=? 90)) || ((97 <=? b) && (b <=? 122))
  || ((48 <=? b) && (b <=? 57))
  || (b =? 95) || (b =? 46) || (b =? 45) || (b =? 126).

Definition always_safe (c : ascii) : bool := always_safe_byte (code c).

(** [s.encode('utf-8')] for the code points the embedding keeps. *)
Fixpoint encode_utf8 (s : string) : list Z :=
  match s with
  | EmptyString => []
  | String c r =>
      let n := code c in
      if n <? 128 then n :: encode_utf8 r
      else (192 + n / 64) :: (128 + n mod 64) :: encode_utf8 r
  end.

(** [bs.decode()] on bytes below 128. *)
Fixpoint decode (bs : list Z) : string :=
  match bs with
  | [] => EmptyString
  | b :: r => String (chr b) (decode r)
  end.

Definition hex_digit (n : Z) : ascii :=
  if n <? 10 then chr (48 + n) else chr (55 + n).

(** ['%{:02X}'.format(b)]. *)
Definition percent (b : Z) : string :=
  String "%"
    (String (hex_digit (b / 16)) (String (hex_digit (b mod 16)) EmptyString)).

(** [safe.encode('ascii', 'ignore')]. *)
Definition safe_bytes (safe : string) : list Z :=
  filter (fun b => b <? 128) (map code (list_ascii_of_string safe)).

(** [b in self.safe], where [self.safe] is [_ALWAYS_SAFE.union(safe)]. *)
Definition in_safe (safe : list Z) (b : Z) : bool :=
  always_safe_byte b || existsb (Z.eqb b) safe.

(** [_Quoter.__missing__]. *)
Definition quoter (safe : list Z) (b : Z) : string :=
  if in_safe safe b then String (chr b) EmptyString else percent b.

(** [quote_from_bytes]: bytes that are all safe are returned as they
    are ([bs.rstrip(...)] is empty), the others go through the quoter
    one by one. *)
Definition quote_from_bytes (bs : list Z) (safe : string) : string :=
  match bs with
  | [] => ""
  | _ =>
      let safe := safe_bytes safe in
      if forallb (in_safe safe) bs then decode bs
      else join "" (map (quoter safe) bs)
  end.

(** [quote] on a [str]. *)
Definition quote (s safe : string) : string :=
  match s with
  | EmptyString => s
  | _ => quote_from_bytes (encode_utf8 s) safe
  end.

(** [c in s]. *)
Fixpoint contains (c : ascii) (s : string) : bool :=
  match s with
  | EmptyString => false
  | String a r => Ascii.eqb a c || contains c r
  end.

(** [quote_plus(string)], with the default [safe='']. *)
Definition quote_plus (s : string) : string :=
  if negb (contains " " s) then quote s ""
  else replace_char " " "+" (quote s (String " " EmptyString)).

(** [urlencode(query)] on a list of pairs, with the defaults: every
    key and every [str(v)] goes through [quote_plus]. *)
Definition urlencode (query : list (string * Signer.pvalue)) : string :=
  join "&"
       (map (fun kv =>
               quote_plus (fst kv) ++ "="
               ++ quote_plus (Signer.format_value (snd kv)))
            query).

End Urllib.

(* ================================================================== *)
(** ** The three query strings of [test_url_encoding.py] *)
(* ================================================================== *)

Module UrlEncoding.
Import Py Signer Urllib.

(** Line 43: the query string of test 1. *)
Definition unencoded_query (params : dict pvalue) : string :=
  canonicalize params.

(** Line 65: [urlencode(sorted_params)]. *)
Definition encoded_query (params : dict pvalue) : string :=
  urlencode (sorted (items params)).

(** Line 88: ["&".join([f"{k}={quote_plus(str(v))}" ...])]. *)
Definition manual_encoded_query (params : dict pvalue) : string :=
  join "&"
       (map (fun kv => fst kv ++ "=" ++ quote_plus (format_value (snd kv)))
            (sorted (items params))).

(** The [params] of the script. *)
Definition script_params : dict pvalue :=
  [ ("start_time", PStr "2025-09-03T16:07:36.778033+00:00");
    ("end_time", PStr "2025-09-03T17:07:36.778033+00:00");
    ("limit", PInt 100) ].

End UrlEncoding.

(* ================================================================== *)
(** ** The query parameters of [make_signed_request] *)
(* ================================================================== *)

Module QueryParams.
Import Py.

(** [s.split(sep)] for a one-character separator. *)
Fixpoint split (sep : ascii) (s : string) : list string :=
  match s with
  | EmptyString => [EmptyString]
  | String c r =>
      if Ascii.eqb c sep then EmptyString :: split sep r
      else
        match split sep r with
        | p :: ps => String c p :: ps
        | [] => [String c EmptyString]
        end
  end.

(** [dict(pairs)] on a sequence of lists: an element that has not two
    items raises [ValueError]; a key met again keeps its place and
    takes the new value. *)
Fixpoint dict_from (d : dict string) (pairs : list (list string))
  : result (dict string) :=
  match pairs with
  | [] => Ok d
  | [k; v] :: r => dict_from (dict_set d k v) r
  | _ :: _ => Raise ValueError
  end.

(** Line 49 of [check_project_access.py] (and line 53 of
    [find_project_id.py], line 45 of [test_audit_approaches.py]):
    [dict(param.split('=') for param in query_params.split('&'))]. *)
Definition query_to_params (query_params : string) : result (dict string) :=
  dict_from [] (map (split "=") (split "&" query_params)).

(** The [params] argument of the [GET]: none when [query_params] is
    empty. *)
Definition request_params (query_params : string)
  : result (option (dict string)) :=
  match query_params with
  | EmptyString => Ok None
  | _ =>
      match query_to_params query_params with
      | Ok d => Ok (Some d)
      | Raise e => Raise e
      end
  end.

(** A query string written from pairs, as the callers would. *)
Definition query_of (pairs : list (string * string)) : string :=
  join "&" (map (fun kv => fst kv ++ "=" ++ snd kv) pairs).

(** Number of occurrences of [c] in [s]. *)
Fixpoint count_char (c : ascii) (s : string) : nat :=
  match s with
  | EmptyString => O
  | String a r => ((if Ascii.eqb a c then 1 else 0) + count_char c r)%nat
  end.

End QueryParams.

(* ================================================================== *)
(** ** The requests of the two signing scripts *)
(* ================================================================== *)

Module Scripts.
Import Py Datetime Signer Env.

(** One call of [requests.get]: its arguments, [None] for the ones the
    script leaves out. *)
Record get_call : Type := mkGet {
  get_url : string;
  get_headers : dict string;
  get_params : option (dict pvalue);
  get_timeout : option Z
}.

(** [f"{v}"] for a value of [os.getenv]. *)
Definition format_env (v : option string) : string :=
  match v with
  | Some s => s
  | None => "None"
  end.

(** [test_crusoe_api] of [test_crusoe_auth.py] (lines 57 to 102): the
    calls of [requests.get] it makes, with the environment as
    [load_dotenv] leaves it.  Without one of the two keys it returns
    at once; an exception of the signing is caught and printed. *)
Definition test_crusoe_api (env : environ) (w : world)
  : list get_call * world :=
  match getenv_opt env "CRUSOE_ACCESS_KEY_ID",
        getenv_opt env "CRUSOE_SECRET_ACCESS_KEY" with
  | Some access_key, Some secret_key =>
      if is_empty access_key || is_empty secret_key then ([], w)
      else
        let url := "https://api.crusoecloud.com/v1alpha5/locations" in
        let path := "/v1alpha5/locations" in
        let method := "GET" in
        match create_crusoe_signature w access_key secret_key method path ""
        with
        | (Ok (timestamp, auth_header), w) =>
            let headers := request_headers timestamp auth_header in
            ([mkGet url headers None None], w)
        | (Raise _, w) => ([], w)
        end
  | _, _ => ([], w)
  end.

(** [test_query_param_issue] of [test_query_param_issue.py]: the calls
    of [requests.get] it makes.  The signing of lines 32 to 47 is done
    once, outside any [try]; each of the four calls stands in a [try]
    of its own that catches every exception, so all four are made
    whatever the answers are.  A secret that is not set makes [len]
    raise [TypeError], after the clock was read. *)
Definition test_query_param_issue (env : environ) (w : world)
  : result (list get_call) * world :=
  let access_key := getenv_opt env "CRUSOE_ACCESS_KEY_ID" in
  let secret_key := getenv_opt env "CRUSOE_SECRET_ACCESS_KEY" in
  let org_id := getenv_opt env "CRUSOE_ORG_ID" in
  let request_path := "organizations/" ++ format_env org_id ++ "/audit-logs" in
  let request_verb := "GET" in
  let query_params := "" in
  let api_version := "/v1alpha5/" in
  match secret_key with
  | None => (Raise TypeError, snd (now_utc w))
  | Some secret_key =>
      match inline_signed_headers w (format_env access_key) secret_key
                                  api_version request_path query_params
                                  request_verb with
      | (Raise e, w) => (Raise e, w)
      | (Ok headers, w) =>
          let url := "https://api.crusoecloud.com" ++ api_version
                     ++ request_path in
          let simple_params := [("limit", PInt 5)] in
          let time_params :=
            [ ("start_time", PStr "2025-09-03T16:01:28.259931+00:00");
              ("end_time", PStr "2025-09-03T17:01:28.259931+00:00");
              ("limit", PInt 100) ] in
          let simple_time_params :=
            [ ("start_time", PStr "2025-09-03T16:00:00Z");
              ("end_time", PStr "2025-09-03T17:00:00Z");
              ("limit", PInt 10) ] in
          (Ok [ mkGet url headers None (Some 10);
                mkGet url headers (Some simple_params) (Some 10);
                mkGet url headers (Some time_params) (Some 10);
                mkGet url headers (Some simple_time_params) (Some 10) ],
           w)
      end
  end.

(** An environment with the three variables set; the secret is the one
    of [Sample]. *)
Definition env0 : environ :=
  [ ("CRUSOE_ACCESS_KEY_ID", "KEYID");
    ("CRUSOE_SECRET_ACCESS_KEY", Sample.secret);
    ("CRUSOE_ORG_ID", "org-1") ].

End Scripts.

(* ================================================================== *)
(** * Properties *)
(* ================================================================== *)

(** ** Strings *)

Module PyFacts.
Import Py.

Lemma append_nil_r (s : string) : s ++ "" = s.
Proof. induction s; simpl; congruence. Qed.

Lemma append_assoc (a b c : string) : (a ++ b) ++ c = a ++ b ++ c.
Proof. induction a; simpl; congruence. Qed.

Lemma length_append (a b : string) :
  String.length (a ++ b) = (String.length a + String.length b)%nat.
Proof. induction a; simpl; congruence. Qed.

Lemma length_str_mul (c : ascii) (n : nat) : String.length (str_mul c n) = n.
Proof. induction n; simpl; congruence. Qed.

Lemma str_mul_snoc (c : ascii) (n : nat) :
  str_mul c (S n) = str_mul c n ++ String c "".
Proof. induction n; simpl in *; congruence. Qed.

Lemma rstrip_str_mul (c : ascii) (n : nat) : rstrip c (str_mul c n) = "".
Proof.
  induction n; simpl; [reflexivity|].
  rewrite IHn, Ascii.eqb_refl. reflexivity.
Qed.

(** [rstrip] removes a block of [c] from the right end. *)
Lemma rstrip_decomp (c : ascii) (s : string) :
  s = rstrip c s ++ str_mul c (String.length s - String.length (rstrip c s)).
Proof.
  induction s as [|a r IH]; [reflexivity|].
  cbn [rstrip]. destruct (rstrip c r) as [|b t] eqn:E.
  - cbn [append String.length] in IH. rewrite Nat.sub_0_r in IH.
    destruct (Ascii.eqb_spec a c) as [->|N].
    + cbn [append String.length]. rewrite Nat.sub_0_r. cbn [str_mul].
      f_equal. exact IH.
    + cbn [append String.length]. 
      replace (S (String.length r) - 1)%nat with (String.length r) by lia.
      f_equal. exact IH.
  - cbn [append String.length] in *. f_equal. exact IH.
Qed.

Lemma rstrip_length_le (c : ascii) (s : string) :
  (String.length (rstrip c s) <= String.length s)%nat.
Proof.
  induction s as [|a r IH]; simpl; [lia|].
  destruct (rstrip c r); [destruct (Ascii.eqb a c)|]; simpl in *; lia.
Qed.

(** What [rstrip] leaves does not end with [c]. *)
Lemma rstrip_no_trailing (c : ascii) (s t : string) :
  rstrip c s <> t ++ String c "".
Proof.
  revert t. induction s as [|a r IH]; intros t; simpl.
  - destruct t; discriminate.
  - destruct (rstrip c r) as [|b u] eqn:E.
    + destruct (Ascii.eqb_spec a c) as [->|N].
      * destruct t; discriminate.
      * destruct t as [|x [|y t]]; simpl; try congruence.
    + destruct t as [|x t]; simpl; [discriminate|].
      intros H. injection H as -> H. exact (IH _ H).
Qed.

Lemma isascii_append (a b : string) :
  isascii (a ++ b) = isascii a && isascii b.
Proof.
  induction a; simpl; [reflexivity|]. rewrite IHa. apply andb_assoc.
Qed.

Lemma encode_ascii_some (s : string) :
  isascii s = true -> exists b, encode_ascii s = Some b.
Proof.
  induction s as [|c r IH]; simpl; [eauto|].
  intros H. apply andb_true_iff in H as [Hc Hr].
  destruct (IH Hr) as [b ->]. rewrite Hc. eauto.
Qed.

Lemma encode_ascii_isascii (s : string) (b : bytes) :
  encode_ascii s = Some b -> isascii s = true.
Proof.
  revert b. induction s as [|c r IH]; simpl; intros b; [reflexivity|].
  destruct (is_ascii_char c); [|discriminate].
  destruct (encode_ascii r); [|discriminate]. intros _. simpl. eauto.
Qed.

End PyFacts.

(** ** Base64 *)

Module Base64Facts.
Import Py PyFacts Base64 Rfc4648.

(** A character of the URL-safe alphabet is ASCII, is not the pad
    character, and has a value once translated. *)
Lemma urlsafe_char_decodes (c : ascii) :
  is_urlsafe_char c = true ->
  is_ascii_char c = true
  /\ Ascii.eqb (urlsafe_decode_char c) pad_char = false
  /\ exists v, a2b (urlsafe_decode_char c) = Some v.
Proof.
  intros H.
  destruct c as [[] [] [] [] [] [] [] []];
    vm_compute in H; try discriminate H;
    vm_compute; repeat split; eexists; reflexivity.
Qed.

Lemma translate_append (f : ascii -> ascii) (a b : string) :
  translate f (a ++ b) = translate f a ++ translate f b.
Proof. induction a; simpl; congruence. Qed.

Lemma translate_pads (n : nat) :
  translate urlsafe_decode_char (str_mul "=" n) = str_mul "=" n.
Proof.
  induction n; [reflexivity|].
  cbn [str_mul translate]. rewrite IHn. reflexivity.
Qed.

Lemma isascii_pads (n : nat) : isascii (str_mul "=" n) = true.
Proof.
  induction n; [reflexivity|].
  cbn [str_mul isascii]. rewrite IHn. reflexivity.
Qed.

Lemma isascii_urlsafe (d : string) :
  all_chars is_urlsafe_char d = true -> isascii d = true.
Proof.
  induction d as [|c r IH]; simpl; [reflexivity|].
  intros H. apply andb_true_iff in H as [Hc Hr].
  destruct (urlsafe_char_decodes c Hc) as [-> _]. simpl. auto.
Qed.

(** The decoder walks over data characters keeping count modulo 4. *)
Lemma a2b_loop_data (d rest : string) :
  all_chars is_urlsafe_char d = true ->
  forall (q : nat) (lc : Z) (pads : nat) (out : bytes),
    (q < 4)%nat ->
    exists lc' out',
      a2b_loop (translate urlsafe_decode_char d ++ rest) q lc pads out
      = a2b_loop rest (Nat.modulo (q + String.length d) 4) lc'
                 (match d with EmptyString => pads | _ => 0%nat end) out'.
Proof.
  induction d as [|c r IH]; intros Hd q lc pads out Hq.
  - exists lc, out. cbn [translate append String.length].
    rewrite Nat.add_0_r, Nat.mod_small by lia. reflexivity.
  - simpl in Hd. apply andb_true_iff in Hd as [Hc Hr].
    destruct (urlsafe_char_decodes c Hc) as (_ & Hp & v & Hv).
    cbn [translate append a2b_loop]. rewrite Hp, Hv.
    assert (Hstep : forall q' lc1 out1, (q' < 4)%nat ->
              Nat.modulo (q' + String.length r) 4
              = Nat.modulo (q + String.length (String c r)) 4 ->
              exists lc' out',
                a2b_loop (translate urlsafe_decode_char r ++ rest) q' lc1 0 out1
                = a2b_loop rest (Nat.modulo (q + String.length (String c r)) 4)
                           lc' 0 out').
    { intros q' lc1 out1 Hq' Hm.
      destruct (IH Hr q' lc1 0%nat out1 Hq') as (lc' & out' & E).
      exists lc', out'. rewrite E, Hm. destruct r; reflexivity. }
    cbn [String.length] in *.
    destruct q as [|[|[|[|q]]]]; try lia.
    + apply Hstep; [lia|reflexivity].
    + apply Hstep; [lia|reflexivity].
    + apply Hstep; [lia|reflexivity].
    + apply Hstep; [lia|].
      replace (3 + S (String.length r))%nat
        with (0 + String.length r + 1 * 4)%nat by lia.
      rewrite Nat.Div0.mod_add. reflexivity.
Qed.

(** The padding that completes a group ends the decoding. *)
Lemma a2b_loop_pads (q p : nat) (lc : Z) (out : bytes) :
  (q < 4)%nat -> (p <= 2)%nat -> Nat.modulo (q + p) 4 = 0%nat ->
  a2b_loop (str_mul "=" p) q lc 0 out = Some (rev out).
Proof.
  intros Hq Hp Hm.
  destruct q as [|[|[|[|q]]]]; destruct p as [|[|[|p]]];
    try lia; try (cbv in Hm; discriminate Hm); reflexivity.
Qed.

(** Every well-formed text is decoded. *)
Lemma valid_decodes (s : string) :
  valid_urlsafe_b64 s = true -> exists b, urlsafe_b64decode s = Some b.
Proof.
  unfold valid_urlsafe_b64. intros H.
  apply andb_true_iff in H as [H Hm]. apply andb_true_iff in H as [Hd Hp].
  apply Nat.leb_le in Hp. apply Nat.eqb_eq in Hm.
  pose proof (rstrip_decomp "=" s) as Hs.
  pose proof (rstrip_length_le "=" s) as Hle.
  remember (rstrip "=" s) as d eqn:Ed.
  remember (String.length s - String.length d)%nat as p eqn:Ep.
  assert (Hlen : String.length s = (String.length d + p)%nat) by lia.
  clear Ed Ep Hle. subst s.
  unfold urlsafe_b64decode, a2b_base64.
  rewrite isascii_append, (isascii_urlsafe d Hd), isascii_pads.
  cbn [andb]. rewrite translate_append, translate_pads.
  destruct (a2b_loop_data d (str_mul "=" p) Hd 0 0 0 []) as (lc & out & E);
    [lia|].
  rewrite E.
  assert (Hz : (match d with EmptyString => 0 | _ => 0 end = 0)%nat)
    by (destruct d; reflexivity).
  rewrite Hz. eexists.
  apply a2b_loop_pads; [apply Nat.mod_upper_bound; lia|lia|].
  rewrite Nat.Div0.add_mod_idemp_l. cbn [Nat.add].
  rewrite <- Hlen. exact Hm.
Qed.

End Base64Facts.

(** ** The signing scripts *)

Module SignerFacts.
Import Py PyFacts Base64 Rfc4648 Base64Facts Datetime Signer.

(** The pad length [(-len) % 4] restores a length that is a multiple
    of four. *)
Lemma pad_secret_restores (secret : string) (k : nat) :
  (k <= 3)%nat ->
  Nat.modulo (String.length (secret ++ str_mul "=" k)) 4 = 0%nat ->
  pad_secret secret = secret ++ str_mul "=" k.
Proof.
  intros Hk Hm. unfold pad_secret, len. f_equal. f_equal.
  rewrite length_append, length_str_mul in Hm.
  set (n := String.length secret) in *.
  pose proof (Nat.Div0.div_mod (n + k) 4) as Hq. rewrite Hm in Hq.
  set (q := ((n + k) / 4)%nat) in *.
  replace (- Z.of_nat n) with (Z.of_nat k + (- Z.of_nat q) * 4) by lia.
  rewrite Z.mod_add by lia. rewrite Z.mod_small by lia. lia.
Qed.

(** C9: a secret that lacks [k <= 3] of the trailing [=] of a
    well-formed URL-safe base64 text gets exactly that text back from
    the padding expression; decoding the re-padded secret succeeds,
    yields the bytes of the fully padded text, and does not depend on
    how many pad characters were missing. *)
Theorem secret_decoding_repadding (full secret : string) (k : nat) :
  valid_urlsafe_b64 full = true ->
  (k <= 3)%nat ->
  full = secret ++ str_mul "=" k ->
  pad_secret secret = full
  /\ (exists decoded,
         urlsafe_b64decode (pad_secret secret) = Some decoded
         /\ urlsafe_b64decode full = Some decoded)
  /\ (forall (secret' : string) (k' : nat),
         (k' <= 3)%nat -> full = secret' ++ str_mul "=" k' ->
         urlsafe_b64decode (pad_secret secret')
         = urlsafe_b64decode (pad_secret secret)).
Proof.
  intros Hv Hk Hf.
  assert (Hm : Nat.modulo (String.length full) 4 = 0%nat).
  { unfold valid_urlsafe_b64 in Hv. apply andb_true_iff in Hv as [_ Hm].
    apply Nat.eqb_eq in Hm. exact Hm. }
  assert (Hpad : pad_secret secret = full).
  { rewrite Hf. apply pad_secret_restores; [exact Hk|]. rewrite <- Hf. exact Hm. }
  split; [exact Hpad|]. split.
  - destruct (valid_decodes full Hv) as [b Hb]. exists b.
    rewrite Hpad. split; exact Hb.
  - intros secret' k' Hk' Hf'.
    rewrite Hpad. f_equal.
    rewrite Hf'. apply pad_secret_restores; [exact Hk'|].
    rewrite <- Hf'. exact Hm.
Qed.

Lemma secret_decoding_repadding_witness :
  pad_secret "SmVmZQ" = "SmVmZQ=="
  /\ (exists decoded,
         urlsafe_b64decode (pad_secret "SmVmZQ") = Some decoded
         /\ urlsafe_b64decode "SmVmZQ==" = Some decoded)
  /\ (forall (secret' : string) (k' : nat),
         (k' <= 3)%nat -> "SmVmZQ==" = secret' ++ str_mul "=" k' ->
         urlsafe_b64decode (pad_secret secret')
         = urlsafe_b64decode (pad_secret "SmVmZQ")).
Proof.
  apply (secret_decoding_repadding "SmVmZQ==" "SmVmZQ" 2);
    [reflexivity | lia | reflexivity].
Defined.

End SignerFacts.

(** ** The signature *)

Module SignatureFacts.
Import Py PyFacts Base64 Datetime Signer.

Lemma signature_of_rstrip (decoded msg : bytes) :
  (forall t, signature_of decoded msg <> t ++ "=")
  /\ exists k,
      urlsafe_b64encode (Hmac.hmac_sha256 decoded msg)
      = signature_of decoded msg ++ str_mul "=" k.
Proof.
  unfold signature_of. split.
  - intros t. apply rstrip_no_trailing.
  - eexists. apply rstrip_decomp.
Qed.

(** C1: once the secret is decoded and the payload
    [<path>\n<query>\n<METHOD>\n<timestamp>\n] is ASCII, the signing
    operation returns [Bearer 1.0:<key id>:<signature>], where the
    signature is the URL-safe base64 text of the HMAC-SHA256 of the
    payload bytes under the decoded secret, without its trailing [=];
    the debugging script computes the same value for its fixed
    timestamp. *)
Theorem signature_is_hmac_of_payload
        (w : world) (access_key_id secret_key method path query_params : string)
        (decoded_secret msg : bytes) :
  urlsafe_b64decode (pad_secret secret_key) = Some decoded_secret ->
  encode_ascii
    (path ++ nl ++ query_params ++ nl ++ method ++ nl ++ timestamp_at w ++ nl)
  = Some msg ->
  let signature :=
    rstrip "=" (urlsafe_b64encode (Hmac.hmac_sha256 decoded_secret msg)) in
  fst (create_crusoe_signature w access_key_id secret_key method path query_params)
  = Ok (timestamp_at w, "Bearer 1.0:" ++ access_key_id ++ ":" ++ signature)
  /\ (forall t, signature <> t ++ "=")
  /\ (exists k,
         urlsafe_b64encode (Hmac.hmac_sha256 decoded_secret msg)
         = signature ++ str_mul "=" k)
  /\ (Debug.decode_secret secret_key = Some decoded_secret ->
      Debug.debug_authorization access_key_id secret_key path query_params
                                method (timestamp_at w)
      = Some (Ok ("Bearer 1.0:" ++ access_key_id ++ ":" ++ signature))).
Proof.
  intros Hd Hm signature.
  split; [|split; [|split]].
  - unfold create_crusoe_signature, timestamp_at in *.
    destruct (now_utc w) as [dt w'] eqn:E. cbn [fst] in *.
    unfold signing_payload. rewrite Hd, Hm. reflexivity.
  - apply (signature_of_rstrip decoded_secret msg).
  - apply (signature_of_rstrip decoded_secret msg).
  - intros Hdd. unfold Debug.debug_authorization. rewrite Hdd, Hm. reflexivity.
Qed.

Lemma signature_is_hmac_of_payload_witness :
  fst (create_crusoe_signature Sample.w0 "KEYID" Sample.secret "GET"
                               "/v1alpha5/locations" "")
  = Ok ("2024-01-02T03:04:05+00:00",
        "Bearer 1.0:KEYID:nkYzhvq-pxtzFNVNuA2udyochUbVP9D9EFq7HYnqULI").
Proof.
  refine (eq_trans
            (proj1 (signature_is_hmac_of_payload
                      Sample.w0 "KEYID" Sample.secret "GET"
                      "/v1alpha5/locations" "" Sample.decoded Sample.payload0
                      _ _)) _).
  - reflexivity.
  - reflexivity.
  - vm_compute. reflexivity.
Defined.

End SignatureFacts.

(** ** The timestamp *)

Module TimestampFacts.
Import Py PyFacts Base64 Datetime Signer Shape.

Lemma in_Zrange (lo hi x : Z) :
  lo <= x <= hi -> In x (Zrange lo (Z.to_nat (hi - lo + 1))).
Proof.
  intros H. unfold Zrange. apply in_map_iff.
  exists (Z.to_nat (x - lo)). split; [lia|].
  apply in_seq. lia.
Qed.

(** A bounded check by enumeration. *)
Lemma forall_range (P : Z -> bool) (lo hi : Z) :
  forallb P (Zrange lo (Z.to_nat (hi - lo + 1))) = true ->
  forall x, lo <= x <= hi -> P x = true.
Proof.
  intros H x Hx. rewrite forallb_forall in H. apply H, in_Zrange, Hx.
Qed.

Lemma zfill2_shape (n : Z) : 0 <= n <= 99 -> matches "dd" (zfill 2 n) = true.
Proof.
  apply (forall_range (fun n => matches "dd" (zfill 2 n)) 0 99).
  vm_compute. reflexivity.
Qed.

Lemma zfill4_shape (n : Z) : 0 <= n <= 9999 -> matches "dddd" (zfill 4 n) = true.
Proof.
  apply (forall_range (fun n => matches "dddd" (zfill 4 n)) 0 9999).
  vm_compute. reflexivity.
Qed.

Lemma matches_append (p1 p2 s1 s2 : string) :
  matches p1 s1 = true -> matches p2 s2 = true ->
  matches (p1 ++ p2) (s1 ++ s2) = true.
Proof.
  revert s1. induction p1 as [|p pr IH]; intros s1 H1 H2.
  - destruct s1; [exact H2|discriminate].
  - destruct s1 as [|c r]; [discriminate|].
    cbn [matches append] in *. apply andb_true_iff in H1 as [Hc Hr].
    rewrite Hc. cbn [andb]. apply IH; assumption.
Qed.

Lemma replace_blank_id (pat s : string) :
  no_blank pat = true -> matches pat s = true -> replace_char " " "T" s = s.
Proof.
  revert s. induction pat as [|p pr IH]; intros s Hn Hm.
  - destruct s; [reflexivity|discriminate].
  - destruct s as [|c r]; [discriminate|].
    cbn [no_blank matches replace_char] in *.
    apply andb_true_iff in Hn as [Hp Hn]. apply andb_true_iff in Hm as [Hc Hm].
    rewrite (IH r Hn Hm). f_equal.
    destruct (Ascii.eqb_spec c " ") as [->|]; [|reflexivity].
    destruct (Ascii.eqb p "d") eqn:Ed.
    + discriminate Hc.
    + apply Ascii.eqb_eq in Hc. subst p. discriminate Hp.
Qed.

Lemma replace_char_append (a b : ascii) (s t : string) :
  replace_char a b (s ++ t) = replace_char a b s ++ replace_char a b t.
Proof. induction s; simpl; congruence. Qed.

Section Rendering.
Variable d : datetime.
Hypothesis Hvalid : valid d = true.
Hypothesis Hus : microsecond d = 0.
Hypothesis Htz : tzinfo d = Some 0.

Lemma valid_ranges :
  1 <= year d <= 9999 /\ 1 <= month d <= 12 /\ 1 <= day d <= 31
  /\ 0 <= hour d <= 23 /\ 0 <= minute d <= 59 /\ 0 <= second d <= 59.
Proof.
  unfold valid, between in Hvalid.
  repeat (apply andb_true_iff in Hvalid as [Hvalid ?]).
  assert (days_in_month (year d) (month d) <= 31).
  { unfold days_in_month.
    repeat match goal with |- context [if ?b then _ else _] => destruct b end;
      lia. }
  lia.
Qed.

Lemma date_shape :
  matches "dddd-dd-dd"
          (zfill 4 (year d) ++ "-" ++ zfill 2 (month d) ++ "-" ++ zfill 2 (day d))
  = true.
Proof.
  pose proof valid_ranges as R.
  change "dddd-dd-dd" with ("dddd" ++ "-" ++ "dd" ++ "-" ++ "dd").
  repeat apply matches_append;
    try reflexivity; try (apply zfill4_shape; lia); apply zfill2_shape; lia.
Qed.

Lemma time_shape :
  matches "dd:dd:dd+00:00" (format_time d ++ format_offset (tzinfo d)) = true.
Proof.
  pose proof valid_ranges as R.
  unfold format_time. rewrite Hus, Htz. cbn [Z.eqb].
  change (format_offset (Some 0)) with "+00:00".
  rewrite !append_assoc. change ("" ++ "+00:00") with "+00:00".
  change "dd:dd:dd+00:00" with ("dd" ++ ":" ++ "dd" ++ ":" ++ "dd" ++ "+00:00").
  repeat apply matches_append; try reflexivity; apply zfill2_shape; lia.
Qed.

Lemma isoformat_sep_split (sep : ascii) :
  isoformat_sep sep d
  = (zfill 4 (year d) ++ "-" ++ zfill 2 (month d) ++ "-" ++ zfill 2 (day d))
    ++ String sep (format_time d ++ format_offset (tzinfo d)).
Proof. unfold isoformat_sep. rewrite !append_assoc. reflexivity. Qed.

Lemma isoformat_shape : matches rfc3339_utc_seconds (isoformat d) = true.
Proof.
  unfold isoformat. rewrite isoformat_sep_split.
  change rfc3339_utc_seconds
    with ("dddd-dd-dd" ++ String "T" "dd:dd:dd+00:00").
  apply matches_append; [apply date_shape|].
  cbn [matches Ascii.eqb Bool.eqb andb]. apply time_shape.
Qed.

(** [str(dt).replace(" ", "T")] and [dt.isoformat()] are the same text. *)
Lemma str_replace_is_isoformat :
  replace_char " " "T" (Datetime.str d) = isoformat d.
Proof.
  unfold Datetime.str, isoformat. rewrite !isoformat_sep_split.
  rewrite replace_char_append. cbn [replace_char Ascii.eqb Bool.eqb].
  rewrite (replace_blank_id "dddd-dd-dd" _ eq_refl date_shape).
  rewrite (replace_blank_id "dd:dd:dd+00:00" _ eq_refl time_shape).
  reflexivity.
Qed.

End Rendering.

(** The datetime the signing scripts render: the reading, in UTC, with
    its microseconds set to zero. *)
Lemma stripped_reading (w : world) :
  valid (fst (now_utc w)) = true ->
  let d := replace_microsecond (fst (now_utc w)) 0 in
  valid d = true /\ microsecond d = 0 /\ tzinfo d = Some 0.
Proof.
  intros Hv d. split; [|split; reflexivity].
  unfold valid, between in *. subst d.
  cbn [now_utc fst replace_microsecond year month day hour minute second
       microsecond tzinfo timezone_utc] in *.
  rewrite !andb_true_iff in *.
  repeat split; try apply Hv; reflexivity.
Qed.

(** The two signing steps with the clock reading made explicit. *)
Lemma create_crusoe_signature_eq
      (w : world) (access_key secret_key method path query_params : string) :
  create_crusoe_signature w access_key secret_key method path query_params
  = (match urlsafe_b64decode (pad_secret secret_key) with
     | None => Raise ValueError
     | Some decoded =>
         match encode_ascii
                 (signing_payload path query_params method (timestamp_at w)) with
         | None => Raise UnicodeEncodeError
         | Some msg =>
             Ok (timestamp_at w,
                 "Bearer " ++ signature_version ++ ":" ++ access_key ++ ":"
                 ++ signature_of decoded msg)
         end
     end, snd (now_utc w)).
Proof.
  unfold create_crusoe_signature, timestamp_at.
  destruct (now_utc w) as [dt w']. cbn [fst snd].
  destruct (urlsafe_b64decode (pad_secret secret_key)); [|reflexivity].
  destruct (encode_ascii _); reflexivity.
Qed.

Lemma inline_signed_headers_eq
      (w : world)
      (access_key secret_key api_version request_path query_params
       request_verb : string) :
  let dt :=
    replace_char " " "T"
      (Datetime.str (replace_microsecond (fst (now_utc w)) 0)) in
  inline_signed_headers w access_key secret_key api_version request_path
                        query_params request_verb
  = (match urlsafe_b64decode (pad_secret secret_key) with
     | None => Raise ValueError
     | Some decoded =>
         match encode_ascii
                 (api_version ++ request_path ++ nl ++ query_params ++ nl
                  ++ request_verb ++ nl ++ dt ++ nl) with
         | None => Raise UnicodeEncodeError
         | Some msg =>
             Ok [ ("X-Crusoe-Timestamp", dt);
                  ("Authorization",
                   "Bearer " ++ signature_version ++ ":" ++ access_key ++ ":"
                   ++ signature_of decoded msg) ]
         end
     end, snd (now_utc w)).
Proof.
  unfold inline_signed_headers.
  destruct (now_utc w) as [now w']. cbn [fst snd].
  destruct (urlsafe_b64decode (pad_secret secret_key)); [|reflexivity].
  destruct (encode_ascii _); reflexivity.
Qed.

Lemma matches_isascii (pat s : string) :
  isascii pat = true -> matches pat s = true -> isascii s = true.
Proof.
  revert s. induction pat as [|p pr IH]; intros [|c r]; cbn [matches isascii];
    try reflexivity; try discriminate.
  intros Hp Hm. apply andb_true_iff in Hp. destruct Hp as [Hp Hpr].
  apply andb_true_iff in Hm. destruct Hm as [Hc Hr].
  rewrite (IH r Hpr Hr), andb_true_r.
  destruct (Ascii.eqb p "d").
  - unfold is_digit in Hc. unfold is_ascii_char.
    apply andb_true_iff in Hc. destruct Hc as [_ Hc].
    apply N.leb_le in Hc. apply N.ltb_lt. lia.
  - apply Ascii.eqb_eq in Hc. subst c. exact Hp.
Qed.

(** The timestamp of a valid reading is ASCII text of the shape. *)
Lemma timestamp_at_shape (w : world) :
  valid (fst (now_utc w)) = true ->
  matches rfc3339_utc_seconds (timestamp_at w) = true
  /\ isascii (timestamp_at w) = true
  /\ replace_char " " "T"
       (Datetime.str (replace_microsecond (fst (now_utc w)) 0))
     = timestamp_at w.
Proof.
  intros Hv. destruct (stripped_reading w Hv) as (Hd & Hus & Htz).
  assert (Hshape : matches rfc3339_utc_seconds (timestamp_at w) = true).
  { apply isoformat_shape; assumption. }
  split; [exact Hshape|]. split.
  - exact (matches_isascii rfc3339_utc_seconds _ eq_refl Hshape).
  - apply str_replace_is_isoformat; assumption.
Qed.

Lemma isascii_nl_payload (a b c ts : string) :
  isascii a = true -> isascii b = true -> isascii c = true ->
  isascii ts = true ->
  isascii (a ++ nl ++ b ++ nl ++ c ++ nl ++ ts ++ nl) = true.
Proof.
  intros Ha Hb Hc Hts. rewrite !isascii_append, Ha, Hb, Hc, Hts.
  reflexivity.
Qed.

(** The signing helper returns whenever the secret decodes and the
    signed fields are ASCII. *)
Lemma create_crusoe_signature_returns
      (w : world) (access_key secret_key method path query_params : string)
      (decoded : bytes) :
  valid (fst (now_utc w)) = true ->
  urlsafe_b64decode (pad_secret secret_key) = Some decoded ->
  isascii path = true -> isascii query_params = true ->
  isascii method = true ->
  exists msg,
    encode_ascii (path ++ nl ++ query_params ++ nl ++ method ++ nl
                  ++ timestamp_at w ++ nl) = Some msg
    /\ create_crusoe_signature w access_key secret_key method path query_params
       = (Ok (timestamp_at w,
              "Bearer 1.0:" ++ access_key ++ ":" ++ signature_of decoded msg),
          mkWorld (wall w) (S (reads w))).
Proof.
  intros Hv Hd Hp Hq Hm.
  destruct (timestamp_at_shape w Hv) as (_ & Hts & _).
  destruct (encode_ascii_some _ (isascii_nl_payload path query_params method
                                   (timestamp_at w) Hp Hq Hm Hts)) as [msg E].
  exists msg. split; [exact E|].
  rewrite create_crusoe_signature_eq, Hd. unfold signing_payload.
  rewrite E. reflexivity.
Qed.

(** So does the inline signing of [test_query_param_issue.py]. *)
Lemma inline_signed_headers_returns
      (w : world)
      (access_key secret_key api_version request_path query_params
       request_verb : string) (decoded : bytes) :
  valid (fst (now_utc w)) = true ->
  urlsafe_b64decode (pad_secret secret_key) = Some decoded ->
  isascii (api_version ++ request_path) = true ->
  isascii query_params = true -> isascii request_verb = true ->
  exists msg,
    encode_ascii ((api_version ++ request_path) ++ nl ++ query_params ++ nl
                  ++ request_verb ++ nl ++ timestamp_at w ++ nl) = Some msg
    /\ inline_signed_headers w access_key secret_key api_version request_path
                             query_params request_verb
       = (Ok [ ("X-Crusoe-Timestamp", timestamp_at w);
               ("Authorization",
                "Bearer 1.0:" ++ access_key ++ ":"
                ++ signature_of decoded msg) ],
          mkWorld (wall w) (S (reads w))).
Proof.
  intros Hv Hd Hp Hq Hm.
  destruct (timestamp_at_shape w Hv) as (_ & Hts & Hstr).
  destruct (encode_ascii_some _ (isascii_nl_payload _ query_params request_verb
                                   (timestamp_at w) Hp Hq Hm Hts)) as [msg E].
  exists msg. split; [exact E|].
  pose proof (inline_signed_headers_eq w access_key secret_key api_version
                request_path query_params request_verb) as Hin.
  cbv zeta in Hin. rewrite Hstr, Hd in Hin. rewrite Hin.
  rewrite append_assoc in E. rewrite E. reflexivity.
Qed.

(** C8: the timestamp is fresh for each signing operation, not for each
    request.  Each signing takes one new reading of the clock and
    returns (when the secret decodes and the signed fields are ASCII);
    the reading is rendered to the second, without microseconds, as
    [dddd-dd-ddTdd:dd:dd+00:00]; the string placed in the
    [X-Crusoe-Timestamp] header is the string that stands in the signed
    payload.  [test_crusoe_api] signs and then makes its one request
    with these headers; [test_query_param_issue] signs once and makes
    four requests that all carry that one timestamp and signature. *)
Theorem timestamp_fresh_rendered_and_shared
        (env : Env.environ) (w : world) (access_key secret_key : string)
        (decoded : bytes) :
  valid (fst (now_utc w)) = true ->
  Env.getenv_opt env "CRUSOE_ACCESS_KEY_ID" = Some access_key ->
  access_key <> "" ->
  Env.getenv_opt env "CRUSOE_SECRET_ACCESS_KEY" = Some secret_key ->
  secret_key <> "" ->
  urlsafe_b64decode (pad_secret secret_key) = Some decoded ->
  isascii (Scripts.format_env (Env.getenv_opt env "CRUSOE_ORG_ID")) = true ->
  let ts := timestamp_at w in
  let w' := mkWorld (wall w) (S (reads w)) in
  matches rfc3339_utc_seconds ts = true
  /\ (forall method path query_params,
         isascii path = true -> isascii query_params = true ->
         isascii method = true ->
         exists msg,
           encode_ascii (path ++ nl ++ query_params ++ nl ++ method ++ nl
                         ++ ts ++ nl) = Some msg
           /\ create_crusoe_signature w access_key secret_key method path
                                      query_params
              = (Ok (ts, "Bearer 1.0:" ++ access_key ++ ":"
                         ++ signature_of decoded msg), w'))
  /\ (exists msg,
         encode_ascii ("/v1alpha5/locations" ++ nl ++ "" ++ nl ++ "GET" ++ nl
                       ++ ts ++ nl) = Some msg
         /\ Scripts.test_crusoe_api env w
            = ([ Scripts.mkGet
                   "https://api.crusoecloud.com/v1alpha5/locations"
                   [ ("X-Crusoe-Timestamp", ts);
                     ("Authorization",
                      "Bearer 1.0:" ++ access_key ++ ":"
                      ++ signature_of decoded msg);
                     ("Content-Type", "application/json") ]
                   None None ], w'))
  /\ (exists msg calls,
         encode_ascii
           (("/v1alpha5/" ++ "organizations/"
             ++ Scripts.format_env (Env.getenv_opt env "CRUSOE_ORG_ID")
             ++ "/audit-logs") ++ nl ++ "" ++ nl ++ "GET" ++ nl ++ ts ++ nl)
         = Some msg
         /\ Scripts.test_query_param_issue env w = (Ok calls, w')
         /\ List.length calls = 4%nat
         /\ Forall (fun c =>
                      Scripts.get_headers c
                      = [ ("X-Crusoe-Timestamp", ts);
                          ("Authorization",
                           "Bearer 1.0:" ++ access_key ++ ":"
                           ++ signature_of decoded msg) ])
                   calls).
Proof.
  intros Hv Hak Nak Hsk Nsk Hd Horg ts w'.
  destruct (timestamp_at_shape w Hv) as (Hshape & _ & _).
  split; [exact Hshape|]. split; [|split].
  - intros method path query_params Hp Hq Hm.
    exact (create_crusoe_signature_returns w access_key secret_key method path
             query_params decoded Hv Hd Hp Hq Hm).
  - destruct (create_crusoe_signature_returns w access_key secret_key "GET"
                "/v1alpha5/locations" "" decoded Hv Hd eq_refl eq_refl eq_refl)
      as (msg & E & C).
    exists msg. split; [exact E|].
    unfold Scripts.test_crusoe_api. rewrite Hak, Hsk.
    replace (Env.is_empty access_key) with false
      by (symmetry; apply String.eqb_neq; exact Nak).
    replace (Env.is_empty secret_key) with false
      by (symmetry; apply String.eqb_neq; exact Nsk).
    cbn [orb]. rewrite C. reflexivity.
  - assert (Hp : isascii
                   ("/v1alpha5/"
                    ++ "organizations/"
                    ++ Scripts.format_env (Env.getenv_opt env "CRUSOE_ORG_ID")
                    ++ "/audit-logs") = true).
    { rewrite !isascii_append, Horg. reflexivity. }
    destruct (inline_signed_headers_returns w access_key secret_key
                "/v1alpha5/"
                ("organizations/"
                 ++ Scripts.format_env (Env.getenv_opt env "CRUSOE_ORG_ID")
                 ++ "/audit-logs") "" "GET" decoded Hv Hd Hp eq_refl eq_refl)
      as (msg & E & C).
    exists msg. eexists. split; [exact E|].
    unfold Scripts.test_query_param_issue. rewrite Hak, Hsk.
    cbn [Scripts.format_env]. rewrite C.
    split; [reflexivity|]. split; [reflexivity|].
    repeat constructor.
Qed.

Lemma timestamp_fresh_rendered_and_shared_witness :
  matches rfc3339_utc_seconds (timestamp_at Sample.w0) = true
  /\ timestamp_at Sample.w0 = "2024-01-02T03:04:05+00:00".
Proof.
  split; [|reflexivity].
  exact (proj1 (timestamp_fresh_rendered_and_shared
                  Scripts.env0 Sample.w0 "KEYID" Sample.secret Sample.decoded
                  eq_refl eq_refl ltac:(discriminate) eq_refl
                  ltac:(discriminate) eq_refl eq_refl)).
Defined.

(** The run of [test_query_param_issue.py] on a clock that advances by
    a second per reading: four requests are made, all four carry the
    timestamp of the one reading taken before the first of them, and
    the clock has been read once; a reading taken for the second
    request would have shown the next second. *)
Lemma four_requests_one_timestamp :
  let run := Scripts.test_query_param_issue Scripts.env0 Sample.w0 in
  map (fun c => dict_get (Scripts.get_headers c) "X-Crusoe-Timestamp")
      (match fst run with Ok calls => calls | Raise _ => [] end)
  = [ Some "2024-01-02T03:04:05+00:00"; Some "2024-01-02T03:04:05+00:00";
      Some "2024-01-02T03:04:05+00:00"; Some "2024-01-02T03:04:05+00:00" ]
  /\ reads (snd run) = 1%nat
  /\ timestamp_at (snd run) = "2024-01-02T03:04:06+00:00".
Proof.
  vm_compute. repeat split; reflexivity.
Qed.

End TimestampFacts.

(** ** Canonicalisation of the query parameters *)

Module CanonicalFacts.
Import Py PyFacts Signer.

Lemma str_le_trans (a b c : string) :
  str_le a b = true -> str_le b c = true -> str_le a c = true.
Proof.
  unfold str_le, String.leb.
  revert b c. induction a as [|x a IH]; intros [|y b] [|z c];
    cbn [String.compare]; try reflexivity; try discriminate.
  unfold Ascii.compare.
  destruct (N.compare_spec (N_of_ascii x) (N_of_ascii y)) as [Exy|Lxy|Gxy];
    destruct (N.compare_spec (N_of_ascii y) (N_of_ascii z)) as [Eyz|Lyz|Gyz];
    try discriminate; intros H1 H2.
  - rewrite Exy, Eyz, N.compare_refl. exact (IH b c H1 H2).
  - rewrite Exy. apply N.compare_lt_iff in Lyz. rewrite Lyz. reflexivity.
  - rewrite <- Eyz. apply N.compare_lt_iff in Lxy. rewrite Lxy. reflexivity.
  - assert (L : (N_of_ascii x < N_of_ascii z)%N) by lia.
    apply N.compare_lt_iff in L. rewrite L. reflexivity.
Qed.

Section Items.
Context {V : Type}.

Lemma insert_item_perm (x : string * V) (l : list (string * V)) :
  Permutation (insert_item x l) (x :: l).
Proof.
  induction l as [|y r IH]; cbn [insert_item]; [reflexivity|].
  destruct (str_le (fst x) (fst y)); [reflexivity|].
  rewrite IH. apply perm_swap.
Qed.

Lemma sorted_perm (l : list (string * V)) : Permutation (sorted l) l.
Proof.
  induction l as [|x r IH]; cbn [sorted]; [reflexivity|].
  rewrite insert_item_perm. apply perm_skip, IH.
Qed.

Lemma insert_item_sorted (x : string * V) (l : list (string * V)) :
  StronglySorted key_le l -> StronglySorted key_le (insert_item x l).
Proof.
  induction 1 as [|y r Hr IH Hy]; cbn [insert_item].
  - repeat constructor.
  - destruct (str_le (fst x) (fst y)) eqn:E.
    + constructor; [constructor; assumption|].
      constructor; [exact E|].
      rewrite Forall_forall in *. intros z Hz.
      exact (str_le_trans _ _ _ E (Hy z Hz)).
    + constructor; [exact IH|].
      rewrite Forall_forall in *. intros z Hz.
      apply (Permutation_in _ (insert_item_perm x r)) in Hz.
      destruct Hz as [<-|Hz]; [|exact (Hy z Hz)].
      destruct (String.leb_total (fst y) (fst x)) as [H|H]; [exact H|].
      unfold str_le in E. congruence.
Qed.

Lemma sorted_sorted (l : list (string * V)) : StronglySorted key_le (sorted l).
Proof.
  induction l as [|x r IH]; cbn [sorted]; [constructor|].
  apply insert_item_sorted, IH.
Qed.

(** Two sorted lists with the same items and pairwise different keys
    are the same list. *)
Lemma sorted_unique (l1 l2 : list (string * V)) :
  StronglySorted key_le l1 -> StronglySorted key_le l2 ->
  Permutation l1 l2 -> NoDup (map fst l1) -> l1 = l2.
Proof.
  intros S1. revert l2.
  induction S1 as [|x r1 Hr1 IH Hx]; intros l2 S2 P N.
  - apply Permutation_nil in P. congruence.
  - destruct S2 as [|y r2 Hr2 Hy].
    + apply Permutation_sym, Permutation_nil in P. discriminate.
    + cbn [map] in N. inversion N as [|? ? Hnin Nr]; subst.
      assert (Exy : x = y).
      { assert (Hin : In x (y :: r2))
          by (apply (Permutation_in _ P); left; reflexivity).
        destruct Hin as [->|Hin]; [reflexivity|].
        assert (Hin' : In y (x :: r1))
          by (apply (Permutation_in _ (Permutation_sym P)); left; reflexivity).
        destruct Hin' as [->|Hin']; [reflexivity|].
        rewrite Forall_forall in Hx, Hy.
        pose proof (String.leb_antisym _ _ (Hx y Hin') (Hy x Hin)) as Ek.
        exfalso. apply Hnin. rewrite Ek. apply in_map, Hin'. }
      subst y. f_equal.
      apply IH; [exact Hr2| |exact Nr].
      exact (Permutation_cons_inv P).
Qed.

End Items.

Lemma canonicalize_perm (p1 p2 : dict pvalue) :
  NoDup (keys p1) -> Permutation p1 p2 -> canonicalize p1 = canonicalize p2.
Proof.
  intros N P. unfold canonicalize, items. f_equal. f_equal.
  apply sorted_unique; try apply sorted_sorted.
  - rewrite (sorted_perm p1), (sorted_perm p2). exact P.
  - apply (Permutation_NoDup (l := map fst p1)); [|exact N].
    apply Permutation_map, Permutation_sym, sorted_perm.
Qed.

(** C7: the canonical query string is the [&]-join of [key=value] over
    the items sorted by key, with the values as they are (a string is
    copied, an integer is written in decimal; nothing is
    percent-encoded); two dictionaries with the same items in different
    insertion orders have the same canonical string; the empty
    dictionary gives the empty string and [{"b": 2, "a": 1}] gives
    [a=1&b=2]. *)
Theorem canonicalize_sort_and_join (params other : dict pvalue) :
  NoDup (keys params) ->
  Permutation params other ->
  (exists sorted_params,
      Permutation sorted_params params
      /\ StronglySorted key_le sorted_params
      /\ canonicalize params
         = join "&" (map (fun kv => fst kv ++ "=" ++ format_value (snd kv))
                         sorted_params))
  /\ (forall s, format_value (PStr s) = s)
  /\ canonicalize other = canonicalize params
  /\ canonicalize [] = ""
  /\ canonicalize [("b", PInt 2); ("a", PInt 1)] = "a=1&b=2".
Proof.
  intros N P. split; [|split; [|split; [|split]]].
  - exists (sorted params). split; [apply sorted_perm|].
    split; [apply sorted_sorted|reflexivity].
  - reflexivity.
  - symmetry. apply canonicalize_perm; assumption.
  - reflexivity.
  - reflexivity.
Qed.

Lemma canonicalize_sort_and_join_witness :
  canonicalize [("start_time", PStr "2025-09-03T16:07:36.778033+00:00");
                ("limit", PInt 100);
                ("end_time", PStr "2025-09-03T17:07:36.778033+00:00")]
  = canonicalize [("start_time", PStr "2025-09-03T16:07:36.778033+00:00");
                  ("end_time", PStr "2025-09-03T17:07:36.778033+00:00");
                  ("limit", PInt 100)].
Proof.
  refine (proj1 (proj2 (proj2
            (canonicalize_sort_and_join
               [("start_time", PStr "2025-09-03T16:07:36.778033+00:00");
                ("end_time", PStr "2025-09-03T17:07:36.778033+00:00");
                ("limit", PInt 100)]
               [("start_time", PStr "2025-09-03T16:07:36.778033+00:00");
                ("limit", PInt 100);
                ("end_time", PStr "2025-09-03T17:07:36.778033+00:00")]
               _ _)))).
  - repeat constructor; cbn; intuition discriminate.
  - apply perm_skip. apply perm_swap.
Defined.

End CanonicalFacts.

(** ** The client *)

Module ClientFacts.
Import Py PyFacts Json Signer Http Config Client Endpoints.

(** *** Dictionaries *)

Section DictFacts.
Context {V : Type}.
Implicit Types (d : dict V) (k : string) (v : V).

Lemma dict_get_set_same d k v : dict_get (dict_set d k v) k = Some v.
Proof.
  induction d as [|[k' v'] r IH]; cbn [dict_set dict_get].
  - rewrite String.eqb_refl. reflexivity.
  - destruct (String.eqb k' k) eqn:E; cbn [dict_get]; rewrite E; auto.
Qed.

Lemma dict_get_set_other d k k' v :
  k <> k' -> dict_get (dict_set d k v) k' = dict_get d k'.
Proof.
  intros N. induction d as [|[k0 v0] r IH]; cbn [dict_set dict_get].
  - apply String.eqb_neq in N. rewrite N. reflexivity.
  - destruct (String.eqb_spec k0 k) as [->|N0]; cbn [dict_get].
    + apply String.eqb_neq in N. rewrite N. reflexivity.
    + rewrite IH. reflexivity.
Qed.

Lemma dict_get_update_other d (other : dict V) k :
  ~ In k (keys other) -> dict_get (dict_update d other) k = dict_get d k.
Proof.
  unfold dict_update. revert d.
  induction other as [|[k' v'] r IH]; intros d N; cbn [fold_left fst snd];
    [reflexivity|].
  cbn [keys map fst] in N. rewrite IH by (intros H; apply N; right; exact H).
  apply dict_get_set_other. intros ->. apply N. left. reflexivity.
Qed.

End DictFacts.

(** *** The retry loop *)

Lemma urlopen_not_retried (k : nat) (srv : server) (r : Retry) (rq : request)
      (n : net) (resp : response) :
  srv (List.length (sent n)) rq = Answer resp ->
  is_retry r (req_method rq) (status_code resp)
           (match retry_after resp with Some _ => true | None => false end)
  = false ->
  urlopen (S k) srv r rq n = (inl resp, record_sent n rq).
Proof. intros Hs Hr. cbn [urlopen]. rewrite Hs, Hr. reflexivity. Qed.

(** Every attempt of one call puts the same request on the wire, and
    there is at least one attempt. *)
Lemma urlopen_sent (fuel : nat) (srv : server) (rq : request) :
  forall (r : Retry) (n : net),
  exists k,
    sent (snd (urlopen (S fuel) srv r rq n)) = (sent n ++ repeat rq (S k))%list.
Proof.
  assert (G : forall fuel r n, exists k,
               sent (snd (urlopen fuel srv r rq n)) = (sent n ++ repeat rq k)%list).
  { clear fuel. induction fuel as [|f IH]; intros r n; cbn [urlopen].
    - exists 0%nat. cbn. rewrite app_nil_r. reflexivity.
    - assert (Hrec : forall r' n', sent n' = (sent n ++ [rq])%list ->
                exists k, sent (snd (urlopen f srv r' rq n'))
                          = (sent n ++ repeat rq k)%list).
      { intros r' n' Hn'. destruct (IH r' n') as [k Hk].
        exists (S k). rewrite Hk, Hn', <- app_assoc. reflexivity. }
      assert (Hone : exists k, (sent n ++ [rq])%list = (sent n ++ repeat rq k)%list)
        by (exists 1%nat; reflexivity).
      assert (Hsl : forall r' o, sent (retry_sleep r' o (record_sent n rq))
                                 = (sent n ++ [rq])%list).
      { intros r' o. unfold retry_sleep, sleep_backoff.
        destruct o as [rs|]; [destruct (retry_after rs) as [secs|];
                              [destruct (secs =? 0)|]|];
          try destruct (get_backoff_time r' <=? 0); reflexivity. }
      destruct (srv (List.length (sent n)) rq) as [resp|].
      + destruct (is_retry _ _ _ _); [|exact Hone].
        destruct (is_exhausted _); [exact Hone|]. apply Hrec, Hsl.
      + destruct (is_exhausted _); [exact Hone|]. apply Hrec, Hsl. }
  intros r n. cbn [urlopen].
  assert (Hsl : forall r' o, sent (retry_sleep r' o (record_sent n rq))
                             = (sent n ++ [rq])%list).
  { intros r' o. unfold retry_sleep, sleep_backoff.
    destruct o as [rs|]; [destruct (retry_after rs) as [secs|];
                          [destruct (secs =? 0)|]|];
      try destruct (get_backoff_time r' <=? 0); reflexivity. }
  assert (Hrec : forall r' n', sent n' = (sent n ++ [rq])%list ->
            exists k, sent (snd (urlopen fuel srv r' rq n'))
                      = (sent n ++ repeat rq (S k))%list).
  { intros r' n' Hn'. destruct (G fuel r' n') as [k Hk].
    exists k. rewrite Hk, Hn', <- app_assoc. reflexivity. }
  assert (Hone : exists k, (sent n ++ [rq])%list = (sent n ++ repeat rq (S k))%list)
    by (exists 0%nat; reflexivity).
  destruct (srv (List.length (sent n)) rq) as [resp|].
  - destruct (is_retry _ _ _ _); [|exact Hone].
    destruct (is_exhausted _); [exact Hone|]. apply Hrec, Hsl.
  - destruct (is_exhausted _); [exact Hone|]. apply Hrec, Hsl.
Qed.

(** The fuel [session_get] gives the loop is never used up: any larger
    amount gives the same run. *)
Lemma urlopen_fuel (srv : server) (rq : request) :
  forall (f1 f2 : nat) (r : Retry) (n : net),
    (Z.to_nat (total r) < f1)%nat -> (Z.to_nat (total r) < f2)%nat ->
    urlopen f1 srv r rq n = urlopen f2 srv r rq n.
Proof.
  induction f1 as [|f1 IH]; intros f2 r n H1 H2; [lia|].
  destruct f2 as [|f2]; [lia|]. cbn [urlopen].
  assert (Hrec : forall n', is_exhausted (increment r) = false ->
            urlopen f1 srv (increment r) rq n'
            = urlopen f2 srv (increment r) rq n').
  { intros n' He. unfold is_exhausted, increment in He. cbn [total] in He.
    apply Z.ltb_ge in He.
    apply IH; unfold increment; cbn [total]; lia. }
  destruct (srv (List.length (sent n)) rq) as [resp|].
  - destruct (is_retry _ _ _ _); [|reflexivity].
    destruct (is_exhausted (increment r)); [reflexivity|].
    apply Hrec. reflexivity.
  - destruct (is_exhausted (increment r)); [reflexivity|].
    apply Hrec. reflexivity.
Qed.

(** *** One page fetch *)

Section Fetch.
Variable L : requests_lib.
Variable srv : server.

(** The retry policy of a client made by the constructor. *)
Lemma is_retry_policy (cfg : CrusoeConfig) (status : Z) (ra : bool) :
  is_retry (Http.max_retries (session (CrusoeClient_init L cfg))) "GET" status ra
  = mem_Z status [429; 500; 502; 503; 504]
    || (ra && mem_Z status [413; 429; 503]).
Proof.
  unfold is_retry. cbn.
  destruct (mem_Z status [429; 500; 502; 503; 504]); reflexivity.
Qed.

(** Every attempt of a page fetch is the same request. *)
Lemma get_audit_logs_sent (self : CrusoeClient)
      (start_time end_time : option Datetime.datetime)
      (limit offset : option Z) (kwargs : dict pvalue) (n : net) :
  exists k,
    sent (snd (get_audit_logs L srv self start_time end_time limit offset
                              kwargs n))
    = (sent n ++ repeat (fetch_request self start_time end_time limit offset
                                       kwargs) (S k))%list.
Proof.
  unfold get_audit_logs, session_get.
  destruct (urlopen_sent (Z.to_nat (total (Http.max_retries (session self)))) srv
              (fetch_request self start_time end_time limit offset kwargs)
              (Http.max_retries (session self)) n) as [k Hk].
  exists k. unfold fetch_request in *.
  destruct (urlopen _ _ _ _ _) as [[resp|e] n']; cbn [snd] in *; [|exact Hk].
  destruct (raise_for_status resp); [exact Hk|].
  destruct (body resp) as [[| | | | |d]|]; try exact Hk.
  - destruct (py_len _); exact Hk.
  - destruct (json_error_is_request_exception L); exact Hk.
Qed.

(** A response the policy does not retry ends the fetch at once. *)
Lemma get_audit_logs_answer (cfg : CrusoeConfig)
      (start_time end_time : option Datetime.datetime)
      (limit offset : option Z) (kwargs : dict pvalue) (n : net)
      (resp : response) :
  let self := CrusoeClient_init L cfg in
  let rq := fetch_request self start_time end_time limit offset kwargs in
  srv (List.length (sent n)) rq = Answer resp ->
  mem_Z (status_code resp) [429; 500; 502; 503; 504] = false ->
  mem_Z (status_code resp) [413; 429; 503] = false ->
  get_audit_logs L srv self start_time end_time limit offset kwargs n
  = (response_result L resp, record_sent n rq).
Proof.
  intros self rq Hs H1 H2.
  unfold get_audit_logs, session_get.
  change (mkRequest "GET" (audit_logs_url (config self))
            (build_params start_time end_time limit offset kwargs)
            (headers (session self)) 30) with rq.
  change (S (Z.to_nat (total (Http.max_retries (session self))))) with 4%nat.
  rewrite (urlopen_not_retried 3 srv _ rq n resp Hs).
  - unfold response_result.
    destruct (raise_for_status resp); [reflexivity|].
    destruct (body resp) as [[| | | | |d]|]; try reflexivity.
    + destruct (py_len _); reflexivity.
    + destruct (json_error_is_request_exception L); reflexivity.
  - change (req_method rq) with "GET". subst self.
    rewrite is_retry_policy, H1, H2. apply andb_false_r.
Qed.

End Fetch.

(** *** The query parameters *)

Lemma build_params_get
      (start_time end_time : option Datetime.datetime) (limit offset : option Z)
      (kwargs : dict pvalue) :
  (forall k, In k ["start_time"; "end_time"; "limit"; "offset"] ->
             ~ In k (keys kwargs)) ->
  let params := build_params start_time end_time limit offset kwargs in
  dict_get params "start_time"
  = option_map (fun t => PStr (Datetime.isoformat t)) start_time
  /\ dict_get params "end_time"
     = option_map (fun t => PStr (Datetime.isoformat t)) end_time
  /\ dict_get params "limit"
     = (if truthy_int limit then option_map PInt limit else None)
  /\ dict_get params "offset"
     = (if truthy_int offset then option_map PInt offset else None).
Proof.
  intros Hk params. subst params. unfold build_params.
  rewrite !dict_get_update_other by (apply Hk; cbn; tauto).
  destruct start_time as [s|], end_time as [e|];
    destruct limit as [l|]; try destruct (truthy_int (Some l));
    destruct offset as [o|]; try destruct (truthy_int (Some o));
    cbn; repeat split; reflexivity.
Qed.

(** *** The pagination loop *)

Section Pagination.
Variable L : requests_lib.
Variable srv : server.
Variable cfg : CrusoeConfig.
Variables start_time end_time : option Datetime.datetime.
Variable page_size : Z.
Variable max_pages : option Z.

Notation self := (CrusoeClient_init L cfg).
Notation fetch offset n :=
  (get_audit_logs L srv self start_time end_time (Some page_size)
                  (Some offset) [] n).
Notation loop fuel all_logs offset page_count n :=
  (paginate L fuel srv self start_time end_time page_size max_pages all_logs
            offset page_count n).
Notation request_at offset :=
  (page_request self start_time end_time page_size offset).

Lemma response_result_page (items : list json) :
  response_result L (page_response items) = Ok (JArr items).
Proof. reflexivity. Qed.

(** The fetch of a page the endpoint answers with [200]. *)
Lemma fetch_page (offset : Z) (n : net) (items : list json) :
  srv (List.length (sent n)) (request_at offset)
  = Answer (page_response items) ->
  fetch offset n = (Ok (JArr items), record_sent n (request_at offset)).
Proof.
  intros Hs.
  rewrite (get_audit_logs_answer L srv cfg start_time end_time
             (Some page_size) (Some offset) [] n (page_response items) Hs);
    reflexivity.
Qed.

Lemma sent_after_pages (offs : list Z) (n : net) :
  sent (after_pages self start_time end_time page_size offs n)
  = (sent n ++ map (fun off => request_at off) offs)%list.
Proof.
  unfold after_pages. revert n.
  induction offs as [|o r IH]; intros n; cbn [fold_left map].
  - rewrite app_nil_r. reflexivity.
  - rewrite IH. cbn [sleep_ms record_sent sent]. rewrite <- app_assoc.
    reflexivity.
Qed.

Lemma slept_after_pages (offs : list Z) (n : net) :
  slept (after_pages self start_time end_time page_size offs n)
  = (slept n ++ repeat 100 (List.length offs))%list.
Proof.
  unfold after_pages. revert n.
  induction offs as [|o r IH]; intros n; cbn [fold_left List.length repeat].
  - rewrite app_nil_r. reflexivity.
  - rewrite IH. cbn [sleep_ms record_sent slept]. rewrite <- app_assoc.
    reflexivity.
Qed.

(** Full pages are appended in order and the loop goes on, at the offset
    advanced by the number of items received. *)
Lemma loop_full_pages (pages : list (list json)) :
  forall (fuel : nat) (all_logs : list json) (offset page_count : Z) (n : net),
    Forall (full_page page_size) pages ->
    (forall j, (j < List.length pages)%nat ->
               max_pages_reached max_pages (page_count + Z.of_nat j) = false) ->
    (forall j rq, (j < List.length pages)%nat ->
                  srv (List.length (sent n) + j)%nat rq
                  = Answer (page_response (nth j pages []))) ->
    loop (List.length pages + fuel) all_logs offset page_count n
    = loop fuel (all_logs ++ List.concat pages)%list
           (offset + Z.of_nat (List.length (List.concat pages)))
           (page_count + Z.of_nat (List.length pages))
           (after_pages self start_time end_time page_size
                        (offsets_from offset pages) n).
Proof.
  induction pages as [|p r IH];
    intros fuel all_logs offset page_count n Hfull Hmax Hsrv.
  - cbn. rewrite app_nil_r, !Z.add_0_r. reflexivity.
  - inversion Hfull as [|? ? [Hne Hsz] Hr]; subst.
    cbn [List.length Nat.add paginate].
    specialize (Hmax 0%nat) as Hm0. rewrite Z.add_0_r in Hm0.
    rewrite Hm0 by (cbn; lia).
    assert (Hs0 : srv (List.length (sent n)) (request_at offset)
                  = Answer (page_response p)).
    { pose proof (Hsrv 0%nat (request_at offset)) as H0.
      rewrite Nat.add_0_r in H0. apply H0. cbn. lia. }
    rewrite (fetch_page offset n p Hs0).
    assert (Ht : truthy (JArr p) = true) by (destruct p; [congruence|reflexivity]).
    rewrite Ht. cbn [negb py_iter py_len].
    assert (Hlt : (Z.of_nat (List.length p) <? page_size) = false)
      by (apply Z.ltb_ge; exact Hsz).
    rewrite Hlt.
    rewrite IH.
    + cbn [List.concat offsets_from after_pages fold_left].
      rewrite length_app, app_assoc.
      f_equal; lia.
    + exact Hr.
    + intros j Hj. rewrite <- (Hmax (S j)) by (cbn; lia). f_equal. lia.
    + intros j rq Hj. cbn [sleep_ms record_sent sent].
      rewrite length_app. cbn [List.length].
      pose proof (Hsrv (S j) rq) as Hj'. cbn [nth List.length] in Hj'.
      rewrite <- Hj' by lia. f_equal. lia.
Qed.

(** The page that ends the loop: it is empty, or shorter than the page
    size; its items are appended and the result is returned. *)
Lemma loop_last_page (fuel : nat) (all_logs : list json)
      (offset page_count : Z) (n : net) (items : list json) :
  last_page page_size items ->
  max_pages_reached max_pages page_count = false ->
  srv (List.length (sent n)) (request_at offset)
  = Answer (page_response items) ->
  loop (S fuel) all_logs offset page_count n
  = Some (Ok (all_logs ++ items)%list, record_sent n (request_at offset)).
Proof.
  intros Hlast Hmax Hsrv. cbn [paginate].
  rewrite Hmax, (fetch_page offset n items Hsrv).
  destruct items as [|x r].
  - cbn. rewrite app_nil_r. reflexivity.
  - destruct Hlast as [E|Hlt]; [discriminate E|].
    cbn [truthy negb py_iter py_len]. apply Z.ltb_lt in Hlt. rewrite Hlt.
    reflexivity.
Qed.

(** The two handlers of the loop: a [CrusoeAPIError] of the page fetch
    is raised again, any other exception ends the loop with what was
    accumulated. *)
Lemma loop_fetch_raises (fuel : nat) (all_logs : list json)
      (offset page_count : Z) (n n' : net) (e : exn) :
  max_pages_reached max_pages page_count = false ->
  fetch offset n = (Raise e, n') ->
  loop (S fuel) all_logs offset page_count n
  = Some (match e with
          | CrusoeAPIError msg => Raise (CrusoeAPIError msg)
          | _ => Ok all_logs
          end, n').
Proof.
  intros Hmax Hf. cbn [paginate]. rewrite Hmax, Hf. destruct e; reflexivity.
Qed.

End Pagination.

End ClientFacts.

(** ** Failures of a page fetch *)

Module FailureFacts.
Import Py PyFacts Json Signer Http Config Client Endpoints ClientFacts.

Lemma urlopen_retry_step (k : nat) (srv : server) (r : Retry) (rq : request)
      (n : net) (resp : response) :
  srv (List.length (sent n)) rq = Answer resp ->
  is_retry r (req_method rq) (status_code resp)
           (match retry_after resp with Some _ => true | None => false end)
  = true ->
  urlopen (S k) srv r rq n
  = if is_exhausted (increment r) then (inr RetryError, record_sent n rq)
    else urlopen k srv (increment r) rq
                 (retry_sleep (increment r) (Some resp) (record_sent n rq)).
Proof. intros Hs Hr. cbn [urlopen]. rewrite Hs, Hr. reflexivity. Qed.

Lemma mem_Z_In (x : Z) (l : list Z) : In x l -> mem_Z x l = true.
Proof.
  intros H. unfold mem_Z. apply existsb_exists. exists x.
  split; [exact H|apply Z.eqb_refl].
Qed.

Lemma sent_retry_sleep (r : Retry) (o : option response) (n : net) :
  sent (retry_sleep r o n) = sent n.
Proof.
  unfold retry_sleep, sleep_backoff.
  destruct o as [rs|]; [destruct (retry_after rs) as [secs|];
                        [destruct (secs =? 0)|]|];
    try destruct (get_backoff_time r <=? 0); reflexivity.
Qed.

(** C4 (as the code has it): an answer [401] or [403] is not retried;
    the one request is followed at once by a [CrusoeAPIError], the
    exception of every failed request, whose message ends with the
    decoded JSON body of the answer, or with the status code when the
    body is not JSON. *)
Theorem auth_failure_single_request
        (L : requests_lib) (srv : server) (cfg : CrusoeConfig)
        (start_time end_time : option Datetime.datetime)
        (limit offset : option Z) (kwargs : dict pvalue) (n : net)
        (resp : response) :
  let self := CrusoeClient_init L cfg in
  let rq := fetch_request self start_time end_time limit offset kwargs in
  srv (List.length (sent n)) rq = Answer resp ->
  status_code resp = 401 \/ status_code resp = 403 ->
  get_audit_logs L srv self start_time end_time limit offset kwargs n
  = (Raise (CrusoeAPIError
              ("Failed to fetch audit logs: " ++ str_exc L (HTTPError resp)
               ++ match body resp with
                  | Some error_detail => " - " ++ str_json L error_detail
                  | None => " - Status: " ++ str_int (status_code resp)
                  end)),
     record_sent n rq)
  /\ sent (record_sent n rq) = (sent n ++ [rq])%list
  /\ (forall e, exists msg, api_error L e = CrusoeAPIError msg).
Proof.
  intros self rq Hs Hst. subst self rq. split; [|split].
  - rewrite (get_audit_logs_answer L srv cfg start_time end_time limit offset
               kwargs n resp Hs)
      by (destruct Hst as [-> | ->]; reflexivity).
    f_equal. unfold response_result, raise_for_status.
    replace ((400 <=? status_code resp) && (status_code resp <? 600)) with true
      by (destruct Hst as [-> | ->]; reflexivity).
    unfold api_error. cbn [exc_response].
    destruct (body resp); rewrite ?append_assoc; reflexivity.
  - reflexivity.
  - intros e. unfold api_error. eexists. reflexivity.
Qed.

(** C5 (as the code has it): against an endpoint that answers every
    request with one of the statuses 429, 500, 502, 503, 504, a page
    fetch of a client made from any application configuration puts the
    request on the wire exactly four times, the first attempt and the
    three retries fixed in the session's policy, and then raises
    [CrusoeAPIError]; without a [Retry-After] header the pauses before
    the third and the fourth attempt are 2 and 4 seconds. *)
Theorem transient_status_four_attempts
        (L : requests_lib) (srv : server) (app : AppConfig)
        (start_time end_time : option Datetime.datetime)
        (limit offset : option Z) (kwargs : dict pvalue) (n : net) :
  let self := LogForwarder_crusoe_client L app in
  let rq := fetch_request self start_time end_time limit offset kwargs in
  (forall i q, exists resp,
        srv i q = Answer resp
        /\ In (status_code resp) [429; 500; 502; 503; 504]) ->
  exists n',
    get_audit_logs L srv self start_time end_time limit offset kwargs n
    = (Raise (CrusoeAPIError
                ("Failed to fetch audit logs: " ++ str_exc L RetryError)), n')
    /\ sent n' = (sent n ++ [rq; rq; rq; rq])%list
    /\ ((forall i q resp, srv i q = Answer resp -> retry_after resp = None) ->
        slept n' = (slept n ++ [2000; 4000])%list).
Proof.
  intros self rq Hsrv.
  assert (Hretry : forall r resp,
             status_forcelist r = [429; 500; 502; 503; 504] ->
             method_whitelist r = ["HEAD"; "GET"; "OPTIONS"] ->
             In (status_code resp) [429; 500; 502; 503; 504] ->
             is_retry r (req_method rq) (status_code resp)
                      (match retry_after resp with
                       | Some _ => true | None => false end) = true).
  { intros r resp Hf Hw Hin. unfold is_retry. rewrite Hf, Hw.
    rewrite (mem_Z_In _ _ Hin). reflexivity. }
  unfold get_audit_logs, session_get.
  change (mkRequest "GET" (audit_logs_url (config self))
            (build_params start_time end_time limit offset kwargs)
            (headers (session self)) 30) with rq.
  change (S (Z.to_nat (total (Http.max_retries (session self))))) with 4%nat.
  set (r0 := Http.max_retries (session self)).
  destruct (Hsrv (List.length (sent n)) rq) as (resp1 & Hs1 & Hin1).
  rewrite (urlopen_retry_step 3 srv r0 rq n resp1 Hs1)
    by (apply Hretry; [reflexivity|reflexivity|exact Hin1]).
  change (is_exhausted (increment r0)) with false. cbv iota.
  set (n1 := retry_sleep (increment r0) (Some resp1) (record_sent n rq)).
  destruct (Hsrv (List.length (sent n1)) rq) as (resp2 & Hs2 & Hin2).
  rewrite (urlopen_retry_step 2 srv _ rq n1 resp2 Hs2)
    by (apply Hretry; [reflexivity|reflexivity|exact Hin2]).
  change (is_exhausted (increment (increment r0))) with false. cbv iota.
  set (n2 := retry_sleep (increment (increment r0)) (Some resp2)
                         (record_sent n1 rq)).
  destruct (Hsrv (List.length (sent n2)) rq) as (resp3 & Hs3 & Hin3).
  rewrite (urlopen_retry_step 1 srv _ rq n2 resp3 Hs3)
    by (apply Hretry; [reflexivity|reflexivity|exact Hin3]).
  change (is_exhausted (increment (increment (increment r0)))) with false.
  cbv iota.
  set (n3 := retry_sleep (increment (increment (increment r0))) (Some resp3)
                         (record_sent n2 rq)).
  destruct (Hsrv (List.length (sent n3)) rq) as (resp4 & Hs4 & Hin4).
  rewrite (urlopen_retry_step 0 srv _ rq n3 resp4 Hs4)
    by (apply Hretry; [reflexivity|reflexivity|exact Hin4]).
  change (is_exhausted (increment (increment (increment (increment r0)))))
    with true. cbv iota.
  exists (record_sent n3 rq). split; [reflexivity|]. split.
  - subst n3 n2 n1. cbn [record_sent sent].
    rewrite !sent_retry_sleep. cbn [record_sent sent].
    rewrite !sent_retry_sleep. cbn [record_sent sent].
    rewrite !sent_retry_sleep. cbn [record_sent sent].
    rewrite <- !app_assoc. reflexivity.
  - intros Hra.
    pose proof (Hra _ _ _ Hs1) as R1. pose proof (Hra _ _ _ Hs2) as R2.
    pose proof (Hra _ _ _ Hs3) as R3. clear Hs1 Hs2 Hs3 Hs4.
    subst n3 n2 n1. unfold retry_sleep. rewrite R1, R2, R3.
    cbn. rewrite <- app_assoc. reflexivity.
Qed.

Lemma auth_failure_single_request_witness :
  fst (get_audit_logs Sample.L0
         (always (Sample.error_response 401 "Unauthorized" "bad credentials"))
         (CrusoeClient_init Sample.L0 Sample.cfg0) None None None None []
         net0)
  = Raise (CrusoeAPIError
             "Failed to fetch audit logs: 401 Error: Unauthorized - {...}").
Proof.
  exact (f_equal fst
           (proj1 (auth_failure_single_request
                     Sample.L0
                     (always (Sample.error_response 401 "Unauthorized"
                                                    "bad credentials"))
                     Sample.cfg0 None None None None [] net0
                     (Sample.error_response 401 "Unauthorized"
                                            "bad credentials")
                     eq_refl (or_introl eq_refl)))).
Defined.

(** The exception of an answer [401] has the class of the exception of
    an answer [404]: the client has one error class. *)
Lemma auth_failure_same_error_class :
  raised_class
    (fst (get_audit_logs Sample.L0
            (always (Sample.error_response 401 "Unauthorized" "bad credentials"))
            Sample.client0 None None None None [] net0))
  = Some "CrusoeAPIError"
  /\ raised_class
       (fst (get_audit_logs Sample.L0
               (always (Sample.error_response 404 "Not Found" "no such org"))
               Sample.client0 None None None None [] net0))
     = Some "CrusoeAPIError".
Proof. split; vm_compute; reflexivity. Qed.

Lemma transient_status_four_attempts_witness :
  exists n',
    get_audit_logs Sample.L0
      (always (Sample.error_response 503 "Service Unavailable" "busy"))
      (LogForwarder_crusoe_client Sample.L0 Sample.app0)
      None None None None [] net0
    = (Raise (CrusoeAPIError
                "Failed to fetch audit logs: Max retries exceeded (too many error responses)"),
       n')
    /\ List.length (sent n') = 4%nat.
Proof.
  destruct (transient_status_four_attempts
              Sample.L0
              (always (Sample.error_response 503 "Service Unavailable" "busy"))
              Sample.app0 None None None None [] net0) as (n' & H1 & H2 & _).
  - intros i q. eexists. split; [reflexivity|]. cbn. tauto.
  - exists n'. split; [exact H1|]. rewrite H2. reflexivity.
Defined.

(** With the default configuration, whose [max_retries] is 3, an
    endpoint that always answers [503] receives four requests; so it
    does when [max_retries] is set to 7. *)
Lemma always_503_four_requests_not_max_retries :
  List.length
    (sent (snd (get_audit_logs Sample.L0
                  (always (Sample.error_response 503 "Service Unavailable"
                                                 "busy"))
                  (LogForwarder_crusoe_client Sample.L0 Sample.app0)
                  None None None None [] net0)))
  = 4%nat
  /\ Config.max_retries Sample.app0 = 3
  /\ List.length
       (sent (snd (get_audit_logs Sample.L0
                     (always (Sample.error_response 503 "Service Unavailable"
                                                    "busy"))
                     (LogForwarder_crusoe_client Sample.L0
                        (mkAppConfig Sample.cfg0 Sample.splunk0 100 30 7))
                     None None None None [] net0)))
     = 4%nat.
Proof. repeat split; vm_compute; reflexivity. Qed.

End FailureFacts.

(** ** The paginated fetch *)

Module PaginationFacts.
Import Py PyFacts Json Signer Http Config Client Endpoints ClientFacts.

Lemma offsets_from_app (pages : list (list json)) (last : list json) :
  forall offset,
    offsets_from offset (pages ++ [last])
    = (offsets_from offset pages
       ++ [offset + Z.of_nat (List.length (List.concat pages))])%list.
Proof.
  induction pages as [|p r IH]; intros offset; cbn [app offsets_from List.concat].
  - cbn. rewrite Z.add_0_r. reflexivity.
  - rewrite IH, length_app. cbn [app]. do 3 f_equal. lia.
Qed.

Lemma length_offsets_from (pages : list (list json)) :
  forall offset, List.length (offsets_from offset pages) = List.length pages.
Proof.
  induction pages as [|p r IH]; intros offset; cbn; [reflexivity|].
  rewrite IH. reflexivity.
Qed.

(** The offset a page request asks for is the offset of the call. *)
Lemma offset_of_page_request (self : CrusoeClient)
      (start_time end_time : option Datetime.datetime) (page_size offset : Z) :
  offset_of (page_request self start_time end_time page_size offset) = offset
  /\ (dict_get (req_params (page_request self start_time end_time page_size
                                         offset)) "offset"
      = if offset =? 0 then None else Some (PInt offset)).
Proof.
  unfold offset_of, page_request, fetch_request. cbn [req_params].
  destruct (build_params_get start_time end_time (Some page_size) (Some offset)
              []) as (_ & _ & _ & Ho); [intros k _ []|].
  rewrite Ho. cbn [truthy_int option_map].
  destruct (Z.eqb_spec offset 0) as [->|]; split; reflexivity.
Qed.

(** The run over full pages followed by a last page. *)
Lemma paginated_pages
      (L : requests_lib) (cfg : CrusoeConfig)
      (start_time end_time : option Datetime.datetime) (page_size : Z)
      (pages : list (list json)) (last : list json) (fuel : nat) :
  Forall (full_page page_size) pages ->
  last_page page_size last ->
  let self := CrusoeClient_init L cfg in
  exists n',
    get_audit_logs_paginated L (S (List.length pages) + fuel)
                             (serve_pages (pages ++ [last])) self start_time
                             end_time page_size None net0
    = Some (Ok (List.concat (pages ++ [last])), n')
    /\ sent n'
       = map (page_request self start_time end_time page_size)
             (offsets_from 0 (pages ++ [last]))
    /\ slept n' = repeat 100 (List.length pages).
Proof.
  intros Hfull Hlast self. subst self. unfold get_audit_logs_paginated.
  replace (S (List.length pages) + fuel)%nat
    with (List.length pages + S fuel)%nat by lia.
  rewrite (loop_full_pages L (serve_pages (pages ++ [last])) cfg start_time
             end_time page_size None pages (S fuel) [] 0 0 net0 Hfull).
  - set (n1 := after_pages _ _ _ _ _ _).
    assert (Hlen : List.length (sent n1) = List.length pages).
    { subst n1. rewrite sent_after_pages. cbn [net0 sent app].
      rewrite length_map. apply length_offsets_from. }
    rewrite (loop_last_page L (serve_pages (pages ++ [last])) cfg start_time
               end_time page_size None fuel _ _ _ n1 last Hlast eq_refl).
    + eexists. split; [|split].
      * rewrite concat_app. cbn [List.concat app]. rewrite app_nil_r.
        reflexivity.
      * cbn [record_sent sent]. subst n1. rewrite sent_after_pages.
        cbn [net0 sent app]. rewrite offsets_from_app, map_app. reflexivity.
      * cbn [record_sent slept]. subst n1. rewrite slept_after_pages.
        rewrite length_offsets_from. reflexivity.
    + unfold serve_pages. rewrite Hlen, nth_middle. reflexivity.
  - intros j _. reflexivity.
  - intros j rq Hj. unfold serve_pages. cbn [net0 sent List.length Nat.add].
    rewrite app_nth1 by exact Hj. reflexivity.
Qed.

Lemma map_offset_of_requests (self : CrusoeClient)
      (start_time end_time : option Datetime.datetime) (page_size : Z)
      (offs : list Z) :
  map offset_of (map (page_request self start_time end_time page_size) offs)
  = offs.
Proof.
  induction offs as [|o r IH]; cbn [map]; [reflexivity|].
  rewrite IH.
  rewrite (proj1 (offset_of_page_request self start_time end_time page_size o)).
  reflexivity.
Qed.

(** C3: with no page limit, against an endpoint that serves full pages
    and then a page that is empty or shorter than the page size, the
    paginated fetch asks for the pages at the offsets [0], then the
    number of items received so far, stops at that last page, and
    returns the items of all pages in order; for pages of 100, 100 and
    37 items and a page size of 100 that is three requests, at the
    offsets 0, 100 and 200, and 237 items; for an empty first page it is
    one request and the empty list. *)
Theorem paginated_fetch_concatenates
        (L : requests_lib) (cfg : CrusoeConfig)
        (start_time end_time : option Datetime.datetime) (page_size : Z)
        (pages : list (list json)) (last : list json) (fuel : nat) :
  Forall (full_page page_size) pages ->
  last_page page_size last ->
  let self := CrusoeClient_init L cfg in
  (exists n',
      get_audit_logs_paginated L (S (List.length pages) + fuel)
                               (serve_pages (pages ++ [last])) self start_time
                               end_time page_size None net0
      = Some (Ok (List.concat (pages ++ [last])), n')
      /\ map offset_of (sent n') = offsets_from 0 (pages ++ [last])
      /\ List.length (sent n') = S (List.length pages))
  /\ (exists n',
         get_audit_logs_paginated
           L (3 + fuel)
           (serve_pages [Sample.page 100; Sample.page 100; Sample.page 37])
           self start_time end_time 100 None net0
         = Some (Ok (Sample.page 100 ++ Sample.page 100 ++ Sample.page 37)%list,
                 n')
         /\ List.length (Sample.page 100 ++ Sample.page 100 ++ Sample.page 37)
            = 237%nat
         /\ map offset_of (sent n') = [0; 100; 200])
  /\ (exists n',
         get_audit_logs_paginated L (1 + fuel) (serve_pages [[]]) self
                                  start_time end_time page_size None net0
         = Some (Ok [], n')
         /\ List.length (sent n') = 1%nat).
Proof.
  intros Hfull Hlast self. subst self. split; [|split].
  - destruct (paginated_pages L cfg start_time end_time page_size pages last
                fuel Hfull Hlast) as (n' & Hrun & Hsent & _).
    exists n'. split; [exact Hrun|]. rewrite Hsent. split.
    + apply map_offset_of_requests.
    + rewrite length_map, length_offsets_from, length_app. cbn. lia.
  - destruct (paginated_pages L cfg start_time end_time 100
                [Sample.page 100; Sample.page 100] (Sample.page 37) fuel)
      as (n' & Hrun & Hsent & _).
    + repeat constructor; try discriminate; vm_compute; discriminate.
    + right. vm_compute. reflexivity.
    + exists n'. split; [|split].
      * cbn [List.length app List.concat] in Hrun.
        rewrite app_nil_r in Hrun. exact Hrun.
      * vm_compute. reflexivity.
      * rewrite Hsent, map_offset_of_requests. vm_compute. reflexivity.
  - destruct (paginated_pages L cfg start_time end_time page_size [] [] fuel)
      as (n' & Hrun & Hsent & _).
    + constructor.
    + left. reflexivity.
    + exists n'. split; [exact Hrun|]. rewrite Hsent. reflexivity.
Qed.

Lemma paginated_fetch_concatenates_witness :
  exists n',
    get_audit_logs_paginated
      Sample.L0 3
      (serve_pages [Sample.page 2; Sample.page 2; Sample.page 1])
      (CrusoeClient_init Sample.L0 Sample.cfg0) None None 2 None net0
    = Some (Ok (Sample.page 2 ++ Sample.page 2 ++ Sample.page 1)%list, n')
    /\ map offset_of (sent n') = [0; 2; 4].
Proof.
  destruct (proj1 (paginated_fetch_concatenates
                     Sample.L0 Sample.cfg0 None None 2
                     [Sample.page 2; Sample.page 2] (Sample.page 1) 0
                     ltac:(repeat constructor; try discriminate;
                           vm_compute; discriminate)
                     ltac:(right; vm_compute; reflexivity)))
    as (n' & Hrun & Hoff & _).
  exists n'. split; [exact Hrun|exact Hoff].
Defined.

(** *** What a run puts on the wire *)

Section Trace.
Variable L : requests_lib.
Variable srv : server.
Variable cfg : CrusoeConfig.
Variables start_time end_time : option Datetime.datetime.
Variable page_size : Z.
Variable max_pages : option Z.

Notation self := (CrusoeClient_init L cfg).
Notation request_at offset :=
  (page_request self start_time end_time page_size offset).

(** The requests of the loop are page requests of this client, and the
    first of them asks for the current offset. *)
Lemma loop_sent (fuel : nat) :
  forall (all_logs : list json) (offset page_count : Z) (n : net)
         (r : result (list json)) (n' : net),
    paginate L fuel srv self start_time end_time page_size max_pages all_logs
             offset page_count n = Some (r, n') ->
    exists extra,
      sent n' = (sent n ++ extra)%list
      /\ Forall (fun rq => exists o, rq = request_at o) extra
      /\ (max_pages_reached max_pages page_count = false ->
          exists rest, extra = request_at offset :: rest).
Proof.
  induction fuel as [|fuel IH]; intros all_logs offset page_count n r n' H;
    [discriminate H|].
  cbn [paginate] in H.
  destruct (max_pages_reached max_pages page_count) eqn:Hmax.
  { injection H as _ <-. exists []. rewrite app_nil_r.
    repeat split; [constructor|discriminate]. }
  destruct (get_audit_logs_sent L srv self start_time end_time
              (Some page_size) (Some offset) [] n) as [k Hk].
  fold (request_at offset) in Hk.
  assert (Hrep : Forall (fun rq => exists o, rq = request_at o)
                        (repeat (request_at offset) (S k))).
  { apply Forall_forall. intros x Hx. apply repeat_spec in Hx. eauto. }
  assert (Hdone : forall res,
             Some (res, snd (get_audit_logs L srv self start_time end_time
                               (Some page_size) (Some offset) [] n))
             = Some (r, n') ->
             exists extra,
               sent n' = (sent n ++ extra)%list
               /\ Forall (fun rq => exists o, rq = request_at o) extra
               /\ (false = false -> exists rest, extra = request_at offset :: rest)).
  { intros res E. injection E as _ <-. exists (repeat (request_at offset) (S k)).
    repeat split; [exact Hk|exact Hrep|]. intros _. eexists. reflexivity. }
  destruct (get_audit_logs L srv self start_time end_time (Some page_size)
              (Some offset) [] n) as [[logs|e] n1]; cbn [snd] in *.
  - destruct (negb (truthy logs)); [exact (Hdone _ H)|].
    destruct (py_iter logs) as [items|]; [|exact (Hdone _ H)].
    destruct (py_len logs) as [count|]; [|exact (Hdone _ H)].
    destruct (count <? page_size); [exact (Hdone _ H)|].
    destruct (IH _ _ _ _ _ _ H) as (extra & Hs & Hall & _).
    exists (repeat (request_at offset) (S k) ++ extra)%list.
    repeat split.
    + rewrite Hs. cbn [sleep_ms sent]. rewrite Hk, app_assoc. reflexivity.
    + apply Forall_app. split; assumption.
    + intros _. eexists. reflexivity.
  - destruct e; exact (Hdone _ H).
Qed.

End Trace.

(** The [Authorization] header of the session. *)
Lemma session_authorization (L : requests_lib) (cfg : CrusoeConfig) :
  dict_get (headers (session (CrusoeClient_init L cfg))) "Authorization"
  = Some ("Bearer " ++ api_token cfg).
Proof.
  cbn [CrusoeClient_init session _create_session headers dict_update fold_left
       fst snd].
  rewrite !dict_get_set_other by discriminate.
  apply dict_get_set_same.
Qed.

(** C2 (as the code has it): every request of a paginated fetch
    carries the headers of the session, and so the one [Authorization]
    value [Bearer <api_token>] set when the client was made; nothing is
    signed per request. *)
Theorem paginated_requests_share_session_credential
        (L : requests_lib) (srv : server) (cfg : CrusoeConfig)
        (start_time end_time : option Datetime.datetime) (page_size : Z)
        (max_pages : option Z) (fuel : nat)
        (r : result (list json)) (n' : net) :
  get_audit_logs_paginated L fuel srv (CrusoeClient_init L cfg) start_time
                           end_time page_size max_pages net0 = Some (r, n') ->
  Forall (fun rq =>
            req_headers rq = headers (session (CrusoeClient_init L cfg))
            /\ dict_get (req_headers rq) "Authorization"
               = Some ("Bearer " ++ api_token cfg))
         (sent n').
Proof.
  intros H. unfold get_audit_logs_paginated in H.
  destruct (loop_sent L srv cfg start_time end_time page_size max_pages fuel
              _ _ _ _ _ _ H) as (extra & Hs & Hall & _).
  rewrite Hs. cbn [net0 sent app].
  apply (Forall_impl _ (P := fun rq =>
           exists o, rq = page_request (CrusoeClient_init L cfg) start_time
                                       end_time page_size o));
    [|exact Hall].
  intros rq [o ->]. split; [reflexivity|].
  apply session_authorization.
Qed.

Lemma paginated_requests_share_session_credential_witness :
  Forall (fun rq =>
            req_headers rq
            = headers (session (CrusoeClient_init Sample.L0 Sample.cfg0))
            /\ dict_get (req_headers rq) "Authorization"
               = Some ("Bearer " ++ api_token Sample.cfg0))
         (sent (snd (finished
                       (get_audit_logs_paginated
                          Sample.L0 3 Sample.two_pages
                          (CrusoeClient_init Sample.L0 Sample.cfg0)
                          None None 2 None net0)))).
Proof.
  apply (paginated_requests_share_session_credential
           Sample.L0 Sample.two_pages Sample.cfg0 None None 2 None 3
           (fst (finished
                   (get_audit_logs_paginated
                      Sample.L0 3 Sample.two_pages
                      (CrusoeClient_init Sample.L0 Sample.cfg0)
                      None None 2 None net0)))).
  vm_compute. reflexivity.
Defined.

(** The two requests of a two-page fetch, at the offsets 0 and 2, carry
    the same credential, and it is not made of a signature. *)
Lemma two_pages_one_credential :
  map offset_of
      (trace (get_audit_logs_paginated Sample.L0 3 Sample.two_pages
                                       Sample.client0 None None 2 None net0))
  = [0; 2]
  /\ map (fun rq => dict_get (req_headers rq) "Authorization")
         (trace (get_audit_logs_paginated Sample.L0 3 Sample.two_pages
                                          Sample.client0 None None 2 None net0))
     = [Some "Bearer tok"; Some "Bearer tok"].
Proof. split; vm_compute; reflexivity. Qed.

(** *** Errors during a run *)

Lemma loop_raises_api_error
      (L : requests_lib) (srv : server) (self : CrusoeClient)
      (start_time end_time : option Datetime.datetime) (page_size : Z)
      (max_pages : option Z) (fuel : nat) :
  forall (all_logs : list json) (offset page_count : Z) (n : net)
         (e : exn) (n' : net),
    paginate L fuel srv self start_time end_time page_size max_pages all_logs
             offset page_count n = Some (Raise e, n') ->
    exists msg, e = CrusoeAPIError msg.
Proof.
  induction fuel as [|fuel IH]; intros all_logs offset page_count n e n' H;
    [discriminate H|].
  cbn [paginate] in H.
  destruct (max_pages_reached max_pages page_count); [discriminate H|].
  destruct (get_audit_logs L srv self start_time end_time (Some page_size)
              (Some offset) [] n) as [[logs|e0] n1].
  - destruct (negb (truthy logs)); [discriminate H|].
    destruct (py_iter logs); [|discriminate H].
    destruct (py_len logs) as [count|]; [|discriminate H].
    destruct (count <? page_size); [discriminate H|].
    exact (IH _ _ _ _ _ _ H).
  - destruct e0; try discriminate H. injection H as <- _. eauto.
Qed.

(** C6 (as the code has it): an exception that leaves a paginated fetch
    is a [CrusoeAPIError]; after any number of full pages, a
    [CrusoeAPIError] of the next page fetch is raised to the caller,
    and any other exception of that page fetch ends the loop, the
    items of the pages received so far being returned. *)
Theorem paginated_fetch_errors
        (L : requests_lib) (srv : server) (cfg : CrusoeConfig)
        (start_time end_time : option Datetime.datetime) (page_size : Z)
        (pages : list (list json)) (fuel : nat) (e : exn) (n1 : net) :
  let self := CrusoeClient_init L cfg in
  Forall (full_page page_size) pages ->
  (forall j rq, (j < List.length pages)%nat ->
                srv j rq = Answer (page_response (nth j pages []))) ->
  get_audit_logs L srv self start_time end_time (Some page_size)
                 (Some (Z.of_nat (List.length (List.concat pages)))) []
                 (after_pages self start_time end_time page_size
                              (offsets_from 0 pages) net0)
  = (Raise e, n1) ->
  get_audit_logs_paginated L (S (List.length pages) + fuel) srv self
                           start_time end_time page_size None net0
  = Some (match e with
          | CrusoeAPIError msg => Raise (CrusoeAPIError msg)
          | _ => Ok (List.concat pages)
          end, n1)
  /\ (forall max_pages fuel' e' n',
         get_audit_logs_paginated L fuel' srv self start_time end_time
                                  page_size max_pages net0
         = Some (Raise e', n') ->
         exists msg, e' = CrusoeAPIError msg).
Proof.
  intros self Hfull Hsrv Hf. subst self. split.
  - unfold get_audit_logs_paginated.
    replace (S (List.length pages) + fuel)%nat
      with (List.length pages + S fuel)%nat by lia.
    rewrite (loop_full_pages L srv cfg start_time end_time page_size None pages
               (S fuel) [] 0 0 net0 Hfull).
    + cbn [app]. rewrite !Z.add_0_l.
      apply loop_fetch_raises; [reflexivity|exact Hf].
    + intros j _. reflexivity.
    + intros j rq Hj. cbn [net0 sent List.length Nat.add]. apply Hsrv, Hj.
  - intros max_pages fuel' e' n' H. unfold get_audit_logs_paginated in H.
    exact (loop_raises_api_error _ _ _ _ _ _ _ _ _ _ _ _ _ _ H).
Qed.

Lemma paginated_fetch_errors_witness :
  fst (finished
         (get_audit_logs_paginated
            Sample.L0 2 Sample.then_unauthorized
            (CrusoeClient_init Sample.L0 Sample.cfg0) None None 2 None net0))
  = Raise (CrusoeAPIError
             "Failed to fetch audit logs: 401 Error: Unauthorized - {...}").
Proof.
  exact (f_equal (fun o => fst (finished o))
           (proj1 (paginated_fetch_errors
                    Sample.L0 Sample.then_unauthorized Sample.cfg0 None None 2
                    [Sample.page 2] 0
                    (CrusoeAPIError
                       "Failed to fetch audit logs: 401 Error: Unauthorized - {...}")
                    (snd (get_audit_logs
                            Sample.L0 Sample.then_unauthorized
                            (CrusoeClient_init Sample.L0 Sample.cfg0)
                            None None (Some 2) (Some 2) []
                            (after_pages
                               (CrusoeClient_init Sample.L0 Sample.cfg0)
                               None None 2 [0] net0)))
                    ltac:(repeat constructor; try discriminate;
                          vm_compute; discriminate)
                    ltac:(intros [|j] rq Hj; [reflexivity|cbn in Hj; lia])
                    ltac:(vm_compute; reflexivity)))).
Defined.

(** After one full page, the endpoint answers with a JSON list: the
    page fetch raises [AttributeError], and the paginated fetch returns
    the first page as its result. *)
Lemma unexpected_error_returns_partial_result :
  fst (get_audit_logs Sample.L0 Sample.list_body Sample.client0 None None
                      (Some 2) (Some 2) []
                      (after_pages Sample.client0 None None 2 [0] net0))
  = Raise AttributeError
  /\ fst (finished
            (get_audit_logs_paginated Sample.L0 3 Sample.list_body
                                      Sample.client0 None None 2 None net0))
     = Ok (Sample.page 2).
Proof. split; vm_compute; reflexivity. Qed.

(** C10: a parameter of the page fetch is in the query parameters
    exactly when its value is true (a time that is not [None], an
    integer that is neither [None] nor [0]), with the ISO text of the
    time or the integer as its value; a limit or an offset of [0] is
    left out, and so the first request of a paginated fetch has no
    [offset] parameter. *)
Theorem query_params_iff_truthy
        (L : requests_lib) (srv : server) (cfg : CrusoeConfig)
        (start_time end_time : option Datetime.datetime)
        (limit offset : option Z) (kwargs : dict pvalue)
        (page_size : Z) (max_pages : option Z) (fuel : nat) :
  (forall k, In k ["start_time"; "end_time"; "limit"; "offset"] ->
             ~ In k (keys kwargs)) ->
  let params := build_params start_time end_time limit offset kwargs in
  (dict_get params "start_time" <> None <-> start_time <> None)
  /\ (dict_get params "end_time" <> None <-> end_time <> None)
  /\ (dict_get params "limit" <> None <-> truthy_int limit = true)
  /\ (dict_get params "offset" <> None <-> truthy_int offset = true)
  /\ (forall t, start_time = Some t ->
                dict_get params "start_time" = Some (PStr (Datetime.isoformat t)))
  /\ (forall t, end_time = Some t ->
                dict_get params "end_time" = Some (PStr (Datetime.isoformat t)))
  /\ (forall v, truthy_int limit = true -> limit = Some v ->
                dict_get params "limit" = Some (PInt v))
  /\ (forall v, truthy_int offset = true -> offset = Some v ->
                dict_get params "offset" = Some (PInt v))
  /\ dict_get (build_params start_time end_time (Some 0) (Some 0) kwargs)
              "limit" = None
  /\ dict_get (build_params start_time end_time (Some 0) (Some 0) kwargs)
              "offset" = None
  /\ (forall r n',
         max_pages_reached max_pages 0 = false ->
         get_audit_logs_paginated L fuel srv (CrusoeClient_init L cfg)
                                  start_time end_time page_size max_pages net0
         = Some (r, n') ->
         exists rq rest,
           sent n' = rq :: rest
           /\ dict_get (req_params rq) "offset" = None).
Proof.
  intros Hk params.
  destruct (build_params_get start_time end_time limit offset kwargs Hk)
    as (Hs & He & Hl & Ho).
  destruct (build_params_get start_time end_time (Some 0) (Some 0) kwargs Hk)
    as (_ & _ & Hl0 & Ho0).
  fold params in Hs, He, Hl, Ho.
  repeat split.
  - rewrite Hs. destruct start_time; cbn; congruence.
  - rewrite Hs. destruct start_time; cbn; congruence.
  - rewrite He. destruct end_time; cbn; congruence.
  - rewrite He. destruct end_time; cbn; congruence.
  - rewrite Hl. destruct (truthy_int limit); intros F; congruence.
  - rewrite Hl. intros Ht. rewrite Ht.
    destruct limit; [discriminate|discriminate Ht].
  - rewrite Ho. destruct (truthy_int offset); intros F; congruence.
  - rewrite Ho. intros Ht. rewrite Ht.
    destruct offset; [discriminate|discriminate Ht].
  - intros t ->. exact Hs.
  - intros t ->. exact He.
  - intros v Ht ->. rewrite Hl, Ht. reflexivity.
  - intros v Ht ->. rewrite Ho, Ht. reflexivity.
  - exact Hl0.
  - exact Ho0.
  - intros r n' Hmax H. unfold get_audit_logs_paginated in H.
    destruct (loop_sent L srv cfg start_time end_time page_size max_pages fuel
                _ _ _ _ _ _ H) as (extra & Hsent & _ & Hfirst).
    destruct (Hfirst Hmax) as [rest ->].
    eexists. exists rest. split; [exact Hsent|].
    rewrite (proj2 (offset_of_page_request _ _ _ _ _)). reflexivity.
Qed.

Lemma query_params_iff_truthy_witness :
  dict_get (build_params None None (Some 100) (Some 0) []) "offset" = None
  /\ dict_get (build_params None None (Some 100) (Some 0) []) "limit"
     = Some (PInt 100).
Proof.
  destruct (query_params_iff_truthy
              Sample.L0 Sample.two_pages Sample.cfg0 None None (Some 100)
              (Some 0) [] 100 None 3 ltac:(intros k _ []))
    as (_ & _ & _ & Ho & _ & _ & Hl & _).
  split.
  - destruct (dict_get (build_params None None (Some 100) (Some 0) []) "offset")
      eqn:E; [|reflexivity].
    assert (F : truthy_int (Some 0) = true) by (apply Ho; discriminate).
    discriminate F.
  - apply Hl; reflexivity.
Defined.

End PaginationFacts.

(** ** Test vectors of the library models *)

Module Vectors.
Import Py Base64.

(** FIPS 180-4, the one-block message [abc]. *)
Example sha256_abc :
  match encode_ascii "abc" with
  | Some m =>
      urlsafe_b64encode (SHA256.digest m)
      = "ungWv48Bz-pBQUDeXa4iI7ADYaOWF3qctBD_YfIAFa0="
      /\ map Z_of_byte (firstn 4 (SHA256.digest m)) = [0xba; 0x78; 0x16; 0xbf]
  | None => False
  end.
Proof. vm_compute. split; reflexivity. Qed.

(** RFC 4231, test case 2: key [Jefe]. *)
Example hmac_sha256_rfc4231_case2 :
  match encode_ascii "what do ya want for nothing?" with
  | Some m =>
      urlsafe_b64encode (Hmac.hmac_sha256 Sample.decoded m)
      = "W9zBRr9gdU5qBCQmCJV1x1oAPwidJzmDnexYuWTsOEM="
  | None => False
  end.
Proof. vm_compute. reflexivity. Qed.

(** The decoder on padded, unpadded and malformed text. *)
Example urlsafe_b64decode_vectors :
  urlsafe_b64decode "SmVmZQ==" = Some Sample.decoded
  /\ urlsafe_b64decode "SmVmZQ" = None
  /\ urlsafe_b64decode "SmVmZ" = None
  /\ urlsafe_b64decode "a-_b" = urlsafe_b64decode "a+/b".
Proof. repeat split. Qed.

End Vectors.

(** ** More on the page fetch and the paginated fetch *)

Module FetchFacts.
Import Py PyFacts Json Signer Http Config Client Endpoints ClientFacts.
Import FailureFacts PaginationFacts Health.

(** One call of the retry loop makes at most [fuel] attempts. *)
Lemma urlopen_sent_bound (srv : server) (rq : request) (fuel : nat) :
  forall (r : Retry) (n : net),
  exists k,
    (k <= fuel)%nat
    /\ sent (snd (urlopen fuel srv r rq n)) = (sent n ++ repeat rq k)%list.
Proof.
  induction fuel as [|f IH]; intros r n; cbn [urlopen].
  - exists 0%nat. split; [lia|]. cbn. rewrite app_nil_r. reflexivity.
  - assert (Hrec : forall r' o,
              exists k, (k <= S f)%nat
                /\ sent (snd (urlopen f srv r' rq
                                (retry_sleep r' o (record_sent n rq))))
                   = (sent n ++ repeat rq k)%list).
    { intros r' o. destruct (IH r' (retry_sleep r' o (record_sent n rq)))
        as (k & Hk & Hs).
      exists (S k). split; [lia|].
      rewrite Hs, sent_retry_sleep. cbn [record_sent sent repeat].
      rewrite <- app_assoc. reflexivity. }
    assert (Hone : exists k, (k <= S f)%nat
                /\ (sent n ++ [rq])%list = (sent n ++ repeat rq k)%list)
      by (exists 1%nat; split; [lia|reflexivity]).
    destruct (srv (List.length (sent n)) rq) as [resp|].
    + destruct (is_retry _ _ _ _); [|exact Hone].
      destruct (is_exhausted _); [exact Hone|]. apply Hrec.
    + destruct (is_exhausted _); [exact Hone|]. apply Hrec.
Qed.

(** The attempts of one page fetch. *)
Lemma fetch_attempts_bound
        (L : requests_lib) (srv : server) (cfg : CrusoeConfig)
        (start_time end_time : option Datetime.datetime)
        (limit offset : option Z) (kwargs : dict pvalue) (n : net) :
  let self := CrusoeClient_init L cfg in
  exists k,
    (1 <= k <= 4)%nat
    /\ sent (snd (get_audit_logs L srv self start_time end_time limit offset
                                 kwargs n))
       = (sent n
          ++ repeat (fetch_request self start_time end_time limit offset kwargs)
                    k)%list.
Proof.
  intros self.
  destruct (get_audit_logs_sent L srv self start_time end_time limit offset
              kwargs n) as [k1 H1].
  assert (H4 : exists k,
             (k <= 4)%nat
             /\ sent (snd (get_audit_logs L srv self start_time end_time limit
                                          offset kwargs n))
                = (sent n ++ repeat (fetch_request self start_time end_time
                                                   limit offset kwargs) k)%list).
  { unfold get_audit_logs, session_get.
    destruct (urlopen_sent_bound srv
                (fetch_request self start_time end_time limit offset kwargs)
                4 (Http.max_retries (session self)) n) as (k & Hk & Hs).
    exists k. split; [exact Hk|]. unfold fetch_request in *.
    change (S (Z.to_nat (total (Http.max_retries (session self))))) with 4%nat.
    destruct (urlopen _ _ _ _ _) as [[resp|e] n']; cbn [snd] in *; [|exact Hs].
    destruct (raise_for_status resp); [exact Hs|].
    destruct (body resp) as [[| | | | |d]|]; try exact Hs.
    - destruct (py_len _); exact Hs.
    - destruct (json_error_is_request_exception L); exact Hs. }
  destruct H4 as (k & Hk & Hs).
  exists k. split; [|exact Hs].
  rewrite H1 in Hs. apply app_inv_head in Hs.
  apply (f_equal (@List.length request)) in Hs.
  rewrite !repeat_length in Hs. lia.
Qed.

(** X1: whatever the endpoint does, one page fetch of a client made by
    the constructor puts its request on the wire at least once and at
    most four times, and every attempt is the same request. *)
Theorem page_fetch_one_to_four_attempts
        (L : requests_lib) (srv : server) (cfg : CrusoeConfig)
        (start_time end_time : option Datetime.datetime)
        (limit offset : option Z) (kwargs : dict pvalue) (n : net) :
  let self := CrusoeClient_init L cfg in
  exists k,
    (1 <= k <= 4)%nat
    /\ sent (snd (get_audit_logs L srv self start_time end_time limit offset
                                 kwargs n))
       = (sent n
          ++ repeat (fetch_request self start_time end_time limit offset kwargs)
                    k)%list.
Proof. exact (fetch_attempts_bound L srv cfg start_time end_time limit offset
                                   kwargs n). Qed.

(** One attempt the policy repeats. *)
Lemma urlopen_transient_step (k : nat) (srv : server) (r : Retry)
      (rq : request) (n : net) :
  client_lists r -> req_method rq = "GET" ->
  transient (srv (List.length (sent n)) rq) ->
  urlopen (S k) srv r rq n
  = if is_exhausted (increment r)
    then (inr (exhausted_exception (srv (List.length (sent n)) rq)),
          record_sent n rq)
    else urlopen k srv (increment r) rq
                 (retry_sleep (increment r)
                              (retried_response (srv (List.length (sent n)) rq))
                              (record_sent n rq)).
Proof.
  intros [Hf Hw] Hm Ht. cbn [urlopen].
  destruct (srv (List.length (sent n)) rq) as [resp|]; [|reflexivity].
  cbn [transient] in Ht.
  assert (Hr : is_retry r (req_method rq) (status_code resp)
                 (match retry_after resp with Some _ => true | None => false end)
               = true).
  { unfold is_retry. rewrite Hf, Hw, Hm, (mem_Z_In _ _ Ht). reflexivity. }
  rewrite Hr. reflexivity.
Qed.

(** [k] attempts the policy repeats, while the policy allows them. *)
Lemma urlopen_after_retries (srv : server) (rq : request) (fuel : nat) :
  req_method rq = "GET" ->
  forall (k : nat) (r : Retry) (n : net),
    client_lists r ->
    Z.of_nat k <= total r ->
    (forall j, (j < k)%nat -> transient (srv (List.length (sent n) + j)%nat rq)) ->
    exists r' n1,
      urlopen (k + fuel) srv r rq n = urlopen fuel srv r' rq n1
      /\ sent n1 = (sent n ++ repeat rq k)%list
      /\ total r' = total r - Z.of_nat k
      /\ client_lists r'.
Proof.
  intros Hm. induction k as [|k IH]; intros r n Hl Ht Hs.
  - exists r, n. cbn. rewrite app_nil_r, Z.sub_0_r. auto.
  - cbn [Nat.add].
    rewrite (urlopen_transient_step (k + fuel) srv r rq n Hl Hm)
      by (specialize (Hs 0%nat); rewrite Nat.add_0_r in Hs; apply Hs; lia).
    assert (He : is_exhausted (increment r) = false).
    { unfold is_exhausted, increment. cbn [total]. apply Z.ltb_ge. lia. }
    rewrite He.
    set (n0 := retry_sleep _ _ _).
    assert (Hn0 : sent n0 = (sent n ++ [rq])%list)
      by (subst n0; rewrite sent_retry_sleep; reflexivity).
    destruct (IH (increment r) n0) as (r' & n1 & E & Hs1 & Ht1 & Hl1).
    + exact Hl.
    + unfold increment. cbn [total]. lia.
    + intros j Hj. rewrite Hn0, length_app. cbn [List.length].
      replace (List.length (sent n) + 1 + j)%nat
        with (List.length (sent n) + S j)%nat by lia.
      apply Hs. lia.
    + exists r', n1. split; [exact E|]. split; [|split; [|exact Hl1]].
      * rewrite Hs1, Hn0, <- app_assoc. reflexivity.
      * rewrite Ht1. unfold increment. cbn [total]. lia.
Qed.

Lemma client_policy_lists (L : requests_lib) (cfg : CrusoeConfig) :
  client_lists (Http.max_retries (session (CrusoeClient_init L cfg))).
Proof. split; reflexivity. Qed.

(** X2: up to three attempts that fail or get a status of the retry
    list are hidden from the caller: when the next attempt gets an
    answer the policy does not retry, the page fetch gives the result of
    that answer, for a page its items, after exactly that many requests
    more. *)
Theorem retries_then_answer
        (L : requests_lib) (srv : server) (cfg : CrusoeConfig)
        (start_time end_time : option Datetime.datetime)
        (limit offset : option Z) (kwargs : dict pvalue) (n : net)
        (k : nat) (resp : response) :
  let self := CrusoeClient_init L cfg in
  let rq := fetch_request self start_time end_time limit offset kwargs in
  (k <= 3)%nat ->
  (forall j, (j < k)%nat -> transient (srv (List.length (sent n) + j)%nat rq)) ->
  srv (List.length (sent n) + k)%nat rq = Answer resp ->
  mem_Z (status_code resp) [429; 500; 502; 503; 504] = false ->
  mem_Z (status_code resp) [413; 429; 503] = false ->
  exists n',
    get_audit_logs L srv self start_time end_time limit offset kwargs n
    = (response_result L resp, n')
    /\ sent n' = (sent n ++ repeat rq (S k))%list
    /\ (forall items, resp = page_response items ->
                      response_result L resp = Ok (JArr items)).
Proof.
  intros self rq Hk Ht Hs H1 H2.
  destruct (urlopen_after_retries srv rq (4 - k) eq_refl k
              (Http.max_retries (session self)) n (client_policy_lists L cfg))
    as (r' & n1 & E & Hs1 & Ht1 & Hl1 & Hw1).
  { change (total (Http.max_retries (session self))) with 3. lia. }
  { exact Ht. }
  replace (k + (4 - k))%nat with 4%nat in E by lia.
  assert (Hn1 : srv (List.length (sent n1)) rq = Answer resp).
  { rewrite Hs1, length_app, repeat_length. exact Hs. }
  destruct (4 - k)%nat as [|f] eqn:Ef; [lia|].
  rewrite (urlopen_not_retried f srv r' rq n1 resp Hn1) in E.
  - exists (record_sent n1 rq). split; [|split].
    + unfold get_audit_logs, session_get.
      change (mkRequest "GET" (audit_logs_url (config self))
                (build_params start_time end_time limit offset kwargs)
                (headers (session self)) 30) with rq.
      change (S (Z.to_nat (total (Http.max_retries (session self))))) with 4%nat.
      rewrite E. unfold response_result.
      destruct (raise_for_status resp); [reflexivity|].
      destruct (body resp) as [[| | | | |d]|]; try reflexivity.
      * destruct (py_len _); reflexivity.
      * destruct (json_error_is_request_exception L); reflexivity.
    + cbn [record_sent sent]. rewrite Hs1, <- app_assoc.
      f_equal. change [rq] with (repeat rq 1).
      rewrite <- repeat_app. f_equal. lia.
    + intros items ->. reflexivity.
  - unfold is_retry, RETRY_AFTER_STATUS_CODES. rewrite Hl1, Hw1.
    change (req_method rq) with "GET".
    change (mem_str "GET" ["HEAD"; "GET"; "OPTIONS"]) with true.
    cbn [negb]. rewrite H1, H2. apply andb_false_r.
Qed.

Lemma retries_then_answer_witness :
  exists n',
    get_audit_logs Sample.L0
      (fun i _ =>
         match i with
         | O => Failure
         | 1%nat => Answer (Sample.error_response 503 "Service Unavailable"
                                                     "busy")
         | _ => Answer (page_response (Sample.page 2))
         end)
      (CrusoeClient_init Sample.L0 Sample.cfg0) None None None None [] net0
    = (Ok (JArr (Sample.page 2)), n')
    /\ List.length (sent n') = 3%nat.
Proof.
  destruct (retries_then_answer
              Sample.L0
              (fun i _ =>
                 match i with
                 | O => Failure
                 | 1%nat => Answer (Sample.error_response
                                      503 "Service Unavailable" "busy")
                 | _ => Answer (page_response (Sample.page 2))
                 end)
              Sample.cfg0 None None None None [] net0 2
              (page_response (Sample.page 2)))
    as (n' & H1 & H2 & _).
  - lia.
  - intros [|[|j]] Hj; cbn; [exact I|tauto|lia].
  - reflexivity.
  - reflexivity.
  - reflexivity.
  - exists n'. split; [exact H1|]. rewrite H2. reflexivity.
Defined.

(** Four attempts the policy repeats. *)
Lemma transient_attempts_fetch
        (L : requests_lib) (srv : server) (cfg : CrusoeConfig)
        (start_time end_time : option Datetime.datetime)
        (limit offset : option Z) (kwargs : dict pvalue) (n : net) :
  let self := CrusoeClient_init L cfg in
  let rq := fetch_request self start_time end_time limit offset kwargs in
  (forall j, (j < 4)%nat -> transient (srv (List.length (sent n) + j)%nat rq)) ->
  exists n',
    get_audit_logs L srv self start_time end_time limit offset kwargs n
    = (Raise (CrusoeAPIError
                ("Failed to fetch audit logs: "
                 ++ str_exc L (exhausted_exception
                                 (srv (List.length (sent n) + 3)%nat rq)))),
       n')
    /\ sent n' = (sent n ++ [rq; rq; rq; rq])%list.
Proof.
  intros self rq Ht.
  destruct (urlopen_after_retries srv rq 1 eq_refl 3
              (Http.max_retries (session self)) n (client_policy_lists L cfg))
    as (r' & n1 & E & Hs1 & Ht1 & Hl1).
  { change (total (Http.max_retries (session self))) with 3. lia. }
  { intros j Hj. apply Ht. lia. }
  change (3 + 1)%nat with 4%nat in E.
  assert (Hlen : List.length (sent n1) = (List.length (sent n) + 3)%nat)
    by (rewrite Hs1, length_app, repeat_length; reflexivity).
  rewrite (urlopen_transient_step 0 srv r' rq n1 Hl1 eq_refl) in E
    by (rewrite Hlen; apply Ht; lia).
  assert (He : is_exhausted (increment r') = true).
  { unfold is_exhausted, increment. cbn [total]. rewrite Ht1.
    change (total (Http.max_retries (session self))) with 3. reflexivity. }
  rewrite He, Hlen in E.
  exists (record_sent n1 rq). split.
  - unfold get_audit_logs, session_get.
    change (mkRequest "GET" (audit_logs_url (config self))
              (build_params start_time end_time limit offset kwargs)
              (headers (session self)) 30) with rq.
    change (S (Z.to_nat (total (Http.max_retries (session self))))) with 4%nat.
    rewrite E. unfold api_error.
    destruct (srv (List.length (sent n) + 3)%nat rq); reflexivity.
  - cbn [record_sent sent]. rewrite Hs1, <- app_assoc. reflexivity.
Qed.

(** X3: when four attempts in a row fail or get a status of the retry
    list, the page fetch ends after exactly four requests with a
    [CrusoeAPIError] whose message has no detail of an answer; this
    holds for an endpoint that cannot be reached at all. *)
Theorem four_transient_attempts_raise
        (L : requests_lib) (srv : server) (cfg : CrusoeConfig)
        (start_time end_time : option Datetime.datetime)
        (limit offset : option Z) (kwargs : dict pvalue) (n : net) :
  let self := CrusoeClient_init L cfg in
  let rq := fetch_request self start_time end_time limit offset kwargs in
  (forall j, (j < 4)%nat -> transient (srv (List.length (sent n) + j)%nat rq)) ->
  exists n',
    get_audit_logs L srv self start_time end_time limit offset kwargs n
    = (Raise (CrusoeAPIError
                ("Failed to fetch audit logs: "
                 ++ str_exc L (exhausted_exception
                                 (srv (List.length (sent n) + 3)%nat rq)))),
       n')
    /\ sent n' = (sent n ++ [rq; rq; rq; rq])%list.
Proof. exact (transient_attempts_fetch L srv cfg start_time end_time limit
                                       offset kwargs n). Qed.

Lemma four_transient_attempts_raise_witness :
  exists n',
    get_audit_logs Sample.L0 (fun _ _ => Failure)
                   (CrusoeClient_init Sample.L0 Sample.cfg0)
                   None None None None [] net0
    = (Raise (CrusoeAPIError
                "Failed to fetch audit logs: Max retries exceeded (connection failed)"),
       n')
    /\ List.length (sent n') = 4%nat.
Proof.
  destruct (four_transient_attempts_raise
              Sample.L0 (fun _ _ => Failure) Sample.cfg0 None None None None []
              net0 ltac:(intros j _; exact I)) as (n' & H1 & H2).
  exists n'. split; [exact H1|]. rewrite H2. reflexivity.
Defined.

End FetchFacts.

(** ** Error statuses, page limits and the health check *)

Module LimitFacts.
Import Py PyFacts Json Signer Http Config Client Endpoints ClientFacts.
Import FailureFacts PaginationFacts Health FetchFacts.

(** An error status the policy does not retry. *)
Lemma error_status_fetch
        (L : requests_lib) (srv : server) (cfg : CrusoeConfig)
        (start_time end_time : option Datetime.datetime)
        (limit offset : option Z) (kwargs : dict pvalue) (n : net)
        (resp : response) :
  let self := CrusoeClient_init L cfg in
  let rq := fetch_request self start_time end_time limit offset kwargs in
  srv (List.length (sent n)) rq = Answer resp ->
  400 <= status_code resp < 600 ->
  ~ In (status_code resp) [429; 500; 502; 503; 504] ->
  (status_code resp = 413 -> retry_after resp = None) ->
  get_audit_logs L srv self start_time end_time limit offset kwargs n
  = (Raise (CrusoeAPIError
              ("Failed to fetch audit logs: " ++ str_exc L (HTTPError resp)
               ++ match body resp with
                  | Some error_detail => " - " ++ str_json L error_detail
                  | None => " - Status: " ++ str_int (status_code resp)
                  end)),
     record_sent n rq).
Proof.
  intros self rq Hs Hst Hnot H413.
  unfold get_audit_logs, session_get.
  change (mkRequest "GET" (audit_logs_url (config self))
            (build_params start_time end_time limit offset kwargs)
            (headers (session self)) 30) with rq.
  change (S (Z.to_nat (total (Http.max_retries (session self))))) with 4%nat.
  rewrite (urlopen_not_retried 3 srv _ rq n resp Hs).
  - unfold raise_for_status.
    replace ((400 <=? status_code resp) && (status_code resp <? 600)) with true
      by (symmetry; apply andb_true_iff; split;
          [apply Z.leb_le|apply Z.ltb_lt]; lia).
    unfold api_error. cbn [exc_response].
    destruct (body resp); rewrite ?append_assoc; reflexivity.
  - change (req_method rq) with "GET". subst self.
    rewrite is_retry_policy.
    assert (Hf : mem_Z (status_code resp) [429; 500; 502; 503; 504] = false).
    { unfold mem_Z. cbn [existsb]. cbn [In] in Hnot.
      repeat (apply orb_false_iff; split); try reflexivity;
        apply Z.eqb_neq; intros E; apply Hnot; rewrite E; tauto. }
    rewrite Hf. cbn [orb].
    destruct (retry_after resp) as [secs|] eqn:Era; [|reflexivity].
    cbn [andb]. unfold mem_Z. cbn [existsb].
    repeat (apply orb_false_iff; split); try reflexivity;
      apply Z.eqb_neq; intros E.
    + specialize (H413 E). discriminate H413.
    + apply Hnot. rewrite E. cbn. tauto.
    + apply Hnot. rewrite E. cbn. tauto.
Qed.

(** X4: an answer with an error status outside the retry list (404, 400,
    501, 505, a 413 without [Retry-After], ...) is not retried: after
    the one request the page fetch raises [CrusoeAPIError] with the
    decoded body, or the status code, in its message. *)
Theorem error_status_outside_retry_list
        (L : requests_lib) (srv : server) (cfg : CrusoeConfig)
        (start_time end_time : option Datetime.datetime)
        (limit offset : option Z) (kwargs : dict pvalue) (n : net)
        (resp : response) :
  let self := CrusoeClient_init L cfg in
  let rq := fetch_request self start_time end_time limit offset kwargs in
  srv (List.length (sent n)) rq = Answer resp ->
  400 <= status_code resp < 600 ->
  ~ In (status_code resp) [429; 500; 502; 503; 504] ->
  (status_code resp = 413 -> retry_after resp = None) ->
  get_audit_logs L srv self start_time end_time limit offset kwargs n
  = (Raise (CrusoeAPIError
              ("Failed to fetch audit logs: " ++ str_exc L (HTTPError resp)
               ++ match body resp with
                  | Some error_detail => " - " ++ str_json L error_detail
                  | None => " - Status: " ++ str_int (status_code resp)
                  end)),
     record_sent n rq).
Proof. exact (error_status_fetch L srv cfg start_time end_time limit offset
                                 kwargs n resp). Qed.

Lemma error_status_outside_retry_list_witness :
  get_audit_logs Sample.L0
    (always (Sample.error_response 501 "Not Implemented" "no"))
    (CrusoeClient_init Sample.L0 Sample.cfg0) None None None None [] net0
  = (Raise (CrusoeAPIError
              "Failed to fetch audit logs: 501 Error: Not Implemented - {...}"),
     record_sent net0
       (fetch_request (CrusoeClient_init Sample.L0 Sample.cfg0)
                      None None None None [])).
Proof.
  apply (error_status_outside_retry_list
           Sample.L0 (always (Sample.error_response 501 "Not Implemented" "no"))
           Sample.cfg0 None None None None [] net0
           (Sample.error_response 501 "Not Implemented" "no")).
  - reflexivity.
  - cbn. lia.
  - cbn. intuition discriminate.
  - discriminate.
Defined.

(** *** The page limit *)

Section MaxPages.
Variable L : requests_lib.
Variable srv : server.
Variable cfg : CrusoeConfig.
Variables start_time end_time : option Datetime.datetime.
Variable page_size : Z.

Notation self := (CrusoeClient_init L cfg).

(** A page limit of [0] is no limit. *)
Lemma loop_max_pages_zero (fuel : nat) :
  forall (all_logs : list json) (offset page_count : Z) (n : net),
    paginate L fuel srv self start_time end_time page_size (Some 0) all_logs
             offset page_count n
    = paginate L fuel srv self start_time end_time page_size None all_logs
               offset page_count n.
Proof.
  induction fuel as [|fuel IH]; intros all_logs offset page_count n;
    [reflexivity|].
  cbn [paginate max_pages_reached Z.eqb negb andb].
  destruct (get_audit_logs _ _ _ _ _ _ _ _ _) as [[logs|e] n1]; [|reflexivity].
  destruct (negb (truthy logs)); [reflexivity|].
  destruct (py_iter logs); [|reflexivity].
  destruct (py_len logs) as [count|]; [|reflexivity].
  destruct (count <? page_size); [reflexivity|]. apply IH.
Qed.

(** With a positive page limit the loop ends within that many page
    fetches, whatever the endpoint answers. *)
Lemma loop_bounded (max_pages : Z) (left : nat) :
  forall (fuel : nat) (all_logs : list json) (offset page_count : Z) (n : net),
    max_pages <> 0 ->
    max_pages - page_count <= Z.of_nat left ->
    (left < fuel)%nat ->
    exists r n',
      paginate L fuel srv self start_time end_time page_size (Some max_pages)
               all_logs offset page_count n = Some (r, n')
      /\ (List.length (sent n') <= List.length (sent n) + 4 * left)%nat.
Proof.
  induction left as [|left IH];
    intros fuel all_logs offset page_count n Hm Hleft Hfuel;
    (destruct fuel as [|fuel]; [lia|]); cbn [paginate].
  - assert (Hr : max_pages_reached (Some max_pages) page_count = true).
    { unfold max_pages_reached. apply andb_true_iff. split.
      - apply negb_true_iff, Z.eqb_neq, Hm.
      - apply Z.leb_le. lia. }
    rewrite Hr. eexists. eexists. split; [reflexivity|lia].
  - destruct (max_pages_reached (Some max_pages) page_count).
    { eexists. eexists. split; [reflexivity|lia]. }
    destruct (fetch_attempts_bound L srv cfg start_time end_time
                (Some page_size) (Some offset) [] n) as (k & Hk & Hs).
    assert (Hlen : forall n1,
               sent n1 = (sent n ++ repeat
                            (fetch_request self start_time end_time
                               (Some page_size) (Some offset) []) k)%list ->
               (List.length (sent n1) <= List.length (sent n) + 4 * S left)%nat).
    { intros n1 E. rewrite E, length_app, repeat_length. lia. }
    destruct (get_audit_logs _ _ _ _ _ _ _ _ _) as [[logs|e] n1];
      cbn [snd] in Hs.
    + destruct (negb (truthy logs));
        [eexists; eexists; split; [reflexivity|apply Hlen, Hs]|].
      destruct (py_iter logs) as [items|];
        [|eexists; eexists; split; [reflexivity|apply Hlen, Hs]].
      destruct (py_len logs) as [count|];
        [|eexists; eexists; split; [reflexivity|apply Hlen, Hs]].
      destruct (count <? page_size);
        [eexists; eexists; split; [reflexivity|apply Hlen, Hs]|].
      destruct (IH fuel (all_logs ++ items)%list (offset + count)
                   (page_count + 1) (sleep_ms n1 100) Hm)
        as (r & n' & E & Hb); [lia|lia|].
      exists r, n'. split; [exact E|].
      cbn [sleep_ms sent] in Hb. rewrite Hs, length_app, repeat_length in Hb.
      lia.
    + destruct e; eexists; eexists; (split; [reflexivity|apply Hlen, Hs]).
Qed.

End MaxPages.

(** X5: the page limit at its edges.  A limit of [0] is no limit at all:
    the run is the run without a limit.  A negative limit ends the run
    before the first request, with the empty list. *)
Theorem max_pages_zero_and_negative
        (L : requests_lib) (srv : server) (cfg : CrusoeConfig)
        (start_time end_time : option Datetime.datetime) (page_size : Z)
        (fuel : nat) (max_pages : Z) :
  max_pages < 0 ->
  get_audit_logs_paginated L fuel srv (CrusoeClient_init L cfg) start_time
                           end_time page_size (Some 0) net0
  = get_audit_logs_paginated L fuel srv (CrusoeClient_init L cfg) start_time
                             end_time page_size None net0
  /\ get_audit_logs_paginated L (S fuel) srv (CrusoeClient_init L cfg)
                              start_time end_time page_size (Some max_pages)
                              net0
     = Some (Ok [], net0).
Proof.
  intros Hneg. split.
  - apply loop_max_pages_zero.
  - unfold get_audit_logs_paginated. cbn [paginate].
    assert (Hr : max_pages_reached (Some max_pages) 0 = true).
    { unfold max_pages_reached. apply andb_true_iff. split.
      - apply negb_true_iff, Z.eqb_neq. lia.
      - apply Z.leb_le. lia. }
    rewrite Hr. reflexivity.
Qed.

Lemma max_pages_zero_and_negative_witness :
  get_audit_logs_paginated Sample.L0 1 Sample.two_pages
                           (CrusoeClient_init Sample.L0 Sample.cfg0)
                           None None 2 (Some (-1)) net0
  = Some (Ok [], net0).
Proof.
  exact (proj2 (max_pages_zero_and_negative
                  Sample.L0 Sample.two_pages Sample.cfg0 None None 2 0 (-1)
                  ltac:(lia))).
Defined.

(** X6: with a positive page limit [m] the paginated fetch always
    returns, after at most [m] page fetches and so at most [4 * m]
    requests, whatever the endpoint answers. *)
Theorem max_pages_bounds_the_run
        (L : requests_lib) (srv : server) (cfg : CrusoeConfig)
        (start_time end_time : option Datetime.datetime) (page_size : Z)
        (m fuel : nat) :
  (0 < m)%nat -> (m < fuel)%nat ->
  exists r n',
    get_audit_logs_paginated L fuel srv (CrusoeClient_init L cfg) start_time
                             end_time page_size (Some (Z.of_nat m)) net0
    = Some (r, n')
    /\ (List.length (sent n') <= 4 * m)%nat.
Proof.
  intros Hm Hfuel. unfold get_audit_logs_paginated.
  destruct (loop_bounded L srv cfg start_time end_time page_size (Z.of_nat m) m
              fuel [] 0 0 net0) as (r & n' & E & Hb); try lia.
  exists r, n'. split; [exact E|exact Hb].
Qed.

Lemma max_pages_bounds_the_run_witness :
  exists r n',
    get_audit_logs_paginated
      Sample.L0 2 (always (page_response (Sample.page 2)))
      (CrusoeClient_init Sample.L0 Sample.cfg0) None None 2 (Some 1) net0
    = Some (r, n')
    /\ (List.length (sent n') <= 4)%nat.
Proof.
  exact (max_pages_bounds_the_run
           Sample.L0 (always (page_response (Sample.page 2))) Sample.cfg0
           None None 2 1 2 ltac:(lia) ltac:(lia)).
Defined.

End LimitFacts.

(** ** The requests of a run, empty answers and the health check *)

Module RequestFacts.
Import Py PyFacts Json Signer Http Config Client Endpoints ClientFacts.
Import FailureFacts PaginationFacts Health FetchFacts LimitFacts.

(** X7: every request of a paginated fetch is a [GET] of
    [<base_url>/organizations/<organization_id>/audit-logs] with a
    timeout of 30 seconds; it carries the page size as [limit] unless
    the page size is [0], and the ISO text of the start and end times
    that were given. *)
Theorem paginated_requests_target
        (L : requests_lib) (srv : server) (cfg : CrusoeConfig)
        (start_time end_time : option Datetime.datetime) (page_size : Z)
        (max_pages : option Z) (fuel : nat)
        (r : result (list json)) (n' : net) :
  get_audit_logs_paginated L fuel srv (CrusoeClient_init L cfg) start_time
                           end_time page_size max_pages net0 = Some (r, n') ->
  Forall (fun rq =>
            req_method rq = "GET"
            /\ req_url rq
               = base_url cfg ++ "/organizations/" ++ organization_id cfg
                 ++ "/audit-logs"
            /\ req_timeout rq = 30
            /\ dict_get (req_params rq) "limit"
               = (if page_size =? 0 then None else Some (PInt page_size))
            /\ dict_get (req_params rq) "start_time"
               = option_map (fun t => PStr (Datetime.isoformat t)) start_time
            /\ dict_get (req_params rq) "end_time"
               = option_map (fun t => PStr (Datetime.isoformat t)) end_time)
         (sent n').
Proof.
  intros H. unfold get_audit_logs_paginated in H.
  destruct (loop_sent L srv cfg start_time end_time page_size max_pages fuel
              _ _ _ _ _ _ H) as (extra & Hs & Hall & _).
  rewrite Hs. cbn [net0 sent app].
  apply (Forall_impl _ (P := fun rq =>
           exists o, rq = page_request (CrusoeClient_init L cfg) start_time
                                       end_time page_size o));
    [|exact Hall].
  intros rq [o ->].
  unfold page_request, fetch_request. cbn [req_method req_url req_timeout
                                           req_params].
  destruct (build_params_get start_time end_time (Some page_size) (Some o) [])
    as (Hst & Hen & Hli & _); [intros k _ []|].
  repeat split; try assumption.
  rewrite Hli. cbn [truthy_int option_map].
  destruct (page_size =? 0); reflexivity.
Qed.

Lemma paginated_requests_target_witness :
  Forall (fun rq =>
            req_url rq
            = "https://api.crusoecloud.com/v1alpha5/organizations/org-1/audit-logs"
            /\ dict_get (req_params rq) "limit" = Some (PInt 2))
         (sent (snd (finished
                       (get_audit_logs_paginated
                          Sample.L0 3 Sample.two_pages
                          (CrusoeClient_init Sample.L0 Sample.cfg0)
                          None None 2 None net0)))).
Proof.
  refine (Forall_impl _ _
            (paginated_requests_target
               Sample.L0 Sample.two_pages Sample.cfg0 None None 2 None 3
               (fst (finished
                       (get_audit_logs_paginated
                          Sample.L0 3 Sample.two_pages
                          (CrusoeClient_init Sample.L0 Sample.cfg0)
                          None None 2 None net0)))
               _ _)).
  - intros rq (_ & Hu & _ & Hl & _). split; [exact Hu|exact Hl].
  - vm_compute. reflexivity.
Defined.

(** X8: an answer [200] whose JSON object has no [items] key counts as
    an empty page: the page fetch returns the empty list, and a
    paginated fetch that gets it after some full pages returns the items
    of those pages. *)
Theorem missing_items_is_an_empty_page
        (L : requests_lib) (srv : server) (cfg : CrusoeConfig)
        (start_time end_time : option Datetime.datetime) (page_size : Z)
        (pages : list (list json)) (fuel : nat)
        (d : list (string * json)) (reason : string) :
  let self := CrusoeClient_init L cfg in
  let resp := mkResponse 200 reason None (Some (JObj d)) in
  dict_get d "items" = None ->
  Forall (full_page page_size) pages ->
  (forall j rq, (j < List.length pages)%nat ->
                srv j rq = Answer (page_response (nth j pages []))) ->
  (forall rq, srv (List.length pages) rq = Answer resp) ->
  response_result L resp = Ok (JArr [])
  /\ exists n',
      get_audit_logs_paginated L (S (List.length pages) + fuel) srv self
                               start_time end_time page_size None net0
      = Some (Ok (List.concat pages), n')
      /\ List.length (sent n') = S (List.length pages).
Proof.
  intros self resp Hd Hfull Hsrv Hlast. subst self.
  assert (Hres : response_result L resp = Ok (JArr [])).
  { unfold response_result, resp. cbn. rewrite Hd. reflexivity. }
  split; [exact Hres|].
  unfold get_audit_logs_paginated.
  replace (S (List.length pages) + fuel)%nat
    with (List.length pages + S fuel)%nat by lia.
  rewrite (loop_full_pages L srv cfg start_time end_time page_size None pages
             (S fuel) [] 0 0 net0 Hfull).
  - set (n1 := after_pages _ _ _ _ _ _).
    assert (Hlen : List.length (sent n1) = List.length pages).
    { subst n1. rewrite sent_after_pages. cbn [net0 sent app].
      rewrite length_map. apply length_offsets_from. }
    cbn [paginate max_pages_reached].
    rewrite (get_audit_logs_answer L srv cfg start_time end_time
               (Some page_size) _ [] n1 resp)
      by (try reflexivity; rewrite Hlen; apply Hlast).
    rewrite Hres. cbn [truthy negb].
    eexists. split; [reflexivity|].
    cbn [record_sent sent]. rewrite length_app, Hlen. cbn. lia.
  - intros j _. reflexivity.
  - intros j rq Hj. cbn [net0 sent List.length Nat.add]. apply Hsrv, Hj.
Qed.

Lemma missing_items_is_an_empty_page_witness :
  exists n',
    get_audit_logs_paginated
      Sample.L0 2
      (fun i _ =>
         match i with
         | O => Answer (page_response (Sample.page 2))
         | _ => Answer (mkResponse 200 "OK" None (Some (JObj [("total", JNum 2)])))
         end)
      (CrusoeClient_init Sample.L0 Sample.cfg0) None None 2 None net0
    = Some (Ok (Sample.page 2), n')
    /\ List.length (sent n') = 2%nat.
Proof.
  exact (proj2 (missing_items_is_an_empty_page
                  Sample.L0
                  (fun i _ =>
                     match i with
                     | O => Answer (page_response (Sample.page 2))
                     | _ => Answer (mkResponse 200 "OK" None
                                      (Some (JObj [("total", JNum 2)])))
                     end)
                  Sample.cfg0 None None 2 [Sample.page 2] 0
                  [("total", JNum 2)] "OK" eq_refl
                  ltac:(repeat constructor; try discriminate;
                        vm_compute; discriminate)
                  ltac:(intros [|j] rq Hj; [reflexivity|cbn in Hj; lia])
                  ltac:(intros rq; reflexivity))).
Defined.

(** X9: the health check asks for one item ([limit=1] and no other
    parameter) and never raises: it is true when the answer is a page,
    and false, after one request, when the answer is an error status
    outside the retry list, and false after four requests when every
    attempt fails or gets a status of the retry list. *)
Theorem health_check_outcomes
        (L : requests_lib) (srv : server) (cfg : CrusoeConfig) (n : net)
        (resp : response) :
  let self := CrusoeClient_init L cfg in
  let rq := fetch_request self None None (Some 1) None [] in
  req_params rq = [("limit", PInt 1)]
  /\ (forall items,
         srv (List.length (sent n)) rq = Answer (page_response items) ->
         health_check L srv self n = (true, record_sent n rq))
  /\ (srv (List.length (sent n)) rq = Answer resp ->
      400 <= status_code resp < 600 ->
      ~ In (status_code resp) [429; 500; 502; 503; 504] ->
      (status_code resp = 413 -> retry_after resp = None) ->
      health_check L srv self n = (false, record_sent n rq))
  /\ ((forall j, (j < 4)%nat ->
                 transient (srv (List.length (sent n) + j)%nat rq)) ->
      exists n', health_check L srv self n = (false, n')
                 /\ sent n' = (sent n ++ [rq; rq; rq; rq])%list).
Proof.
  intros self rq. subst self rq. split; [reflexivity|]. split; [|split].
  - intros items Hs. unfold health_check.
    rewrite (get_audit_logs_answer L srv cfg None None (Some 1) None [] n
               (page_response items) Hs) by reflexivity.
    reflexivity.
  - intros Hs Hst Hnot H413. unfold health_check.
    rewrite (error_status_fetch
               L srv cfg None None (Some 1) None [] n resp Hs Hst Hnot H413).
    reflexivity.
  - intros Ht. unfold health_check.
    destruct (transient_attempts_fetch L srv cfg None None (Some 1) None
                [] n Ht) as (n' & E & Hs).
    rewrite E. exists n'. split; [reflexivity|exact Hs].
Qed.

Lemma health_check_outcomes_witness :
  health_check Sample.L0
    (always (Sample.error_response 401 "Unauthorized" "bad credentials"))
    (CrusoeClient_init Sample.L0 Sample.cfg0) net0
  = (false,
     record_sent net0
       (fetch_request (CrusoeClient_init Sample.L0 Sample.cfg0)
                      None None (Some 1) None [])).
Proof.
  apply (proj1 (proj2 (proj2
           (health_check_outcomes
              Sample.L0
              (always (Sample.error_response 401 "Unauthorized"
                                             "bad credentials"))
              Sample.cfg0 net0
              (Sample.error_response 401 "Unauthorized" "bad credentials"))))).
  - reflexivity.
  - cbn. lia.
  - cbn. intuition discriminate.
  - discriminate.
Defined.

End RequestFacts.

(** ** The configuration *)

Module ConfigFacts.
Import Py PyFacts Config Env ClientFacts.

Lemma is_empty_spec (s : string) : is_empty s = true <-> s = "".
Proof. unfold is_empty. apply String.eqb_eq. Qed.

Lemma is_empty_false (s : string) : is_empty s = false <-> s <> "".
Proof. unfold is_empty. apply String.eqb_neq. Qed.

(** X10: the validation passes exactly when the Crusoe token, the
    organization id, the HEC token and the HEC URL are all non-empty;
    when it fails, its message names the first of the four, in that
    order, that is empty. *)
Theorem validate_config_first_missing (self : AppConfig) :
  (validate_config self = None
   <-> api_token (crusoe self) <> ""
       /\ organization_id (crusoe self) <> ""
       /\ hec_token (splunk self) <> ""
       /\ hec_url (splunk self) <> "")
  /\ (api_token (crusoe self) = "" ->
      validate_config self
      = Some "CRUSOE_API_TOKEN environment variable is required")
  /\ (api_token (crusoe self) <> "" -> organization_id (crusoe self) = "" ->
      validate_config self
      = Some "CRUSOE_ORG_ID environment variable is required")
  /\ (api_token (crusoe self) <> "" -> organization_id (crusoe self) <> "" ->
      hec_token (splunk self) = "" ->
      validate_config self
      = Some "SPLUNK_HEC_TOKEN environment variable is required")
  /\ (api_token (crusoe self) <> "" -> organization_id (crusoe self) <> "" ->
      hec_token (splunk self) <> "" -> hec_url (splunk self) = "" ->
      validate_config self
      = Some "SPLUNK_HEC_URL environment variable is required").
Proof.
  unfold validate_config.
  destruct (is_empty (api_token (crusoe self))) eqn:E1;
    destruct (is_empty (organization_id (crusoe self))) eqn:E2;
    destruct (is_empty (hec_token (splunk self))) eqn:E3;
    destruct (is_empty (hec_url (splunk self))) eqn:E4;
    rewrite ?is_empty_spec, ?is_empty_false in *;
    repeat split; intros; try reflexivity; try discriminate;
      try tauto; try congruence.
Qed.

Lemma validate_config_first_missing_witness :
  validate_config
    (mkAppConfig (mkCrusoeConfig "tok" default_base_url "")
                 Sample.splunk0 100 30 3)
  = Some "CRUSOE_ORG_ID environment variable is required".
Proof.
  apply (proj1 (proj2 (proj2
           (validate_config_first_missing
              (mkAppConfig (mkCrusoeConfig "tok" default_base_url "")
                           Sample.splunk0 100 30 3)))));
    [discriminate|reflexivity].
Defined.

Lemma getenv_unset (env : environ) (key default : string) :
  dict_get env key = None -> getenv env key default = default.
Proof. unfold getenv. intros ->. reflexivity. Qed.

Lemma getenv_set (env : environ) (key default v : string) :
  dict_get env key = Some v -> getenv env key default = v.
Proof. unfold getenv. intros ->. reflexivity. Qed.

(** X11: when [BATCH_SIZE], [REQUEST_TIMEOUT] and [MAX_RETRIES] are not
    set, the configuration is read without error with the values 100,
    30 and 3; the base URL is the v1alpha5 endpoint unless it is set;
    and a Crusoe token that is not set, or set to the empty string,
    makes the validation fail with the message that names it. *)
Theorem from_env_defaults (env : environ) :
  dict_get env "BATCH_SIZE" = None ->
  dict_get env "REQUEST_TIMEOUT" = None ->
  dict_get env "MAX_RETRIES" = None ->
  exists cfg,
    AppConfig_from_env env = Ok cfg
    /\ batch_size cfg = 100 /\ timeout cfg = 30 /\ Config.max_retries cfg = 3
    /\ (dict_get env "CRUSOE_BASE_URL" = None ->
        base_url (crusoe cfg) = "https://api.crusoecloud.com/v1alpha5")
    /\ (forall v, dict_get env "CRUSOE_BASE_URL" = Some v ->
                  base_url (crusoe cfg) = v)
    /\ (dict_get env "CRUSOE_API_TOKEN" = None
        \/ dict_get env "CRUSOE_API_TOKEN" = Some "" ->
        validate_config cfg
        = Some "CRUSOE_API_TOKEN environment variable is required").
Proof.
  intros Hb Ht Hm. unfold AppConfig_from_env.
  rewrite (getenv_unset env "BATCH_SIZE" _ Hb),
          (getenv_unset env "REQUEST_TIMEOUT" _ Ht),
          (getenv_unset env "MAX_RETRIES" _ Hm).
  change (py_int "100") with (Some 100).
  change (py_int "30") with (Some 30).
  change (py_int "3") with (Some 3).
  eexists. split; [reflexivity|]. cbn [batch_size timeout Config.max_retries
                                        crusoe CrusoeConfig_from_env base_url].
  repeat split.
  - apply getenv_unset.
  - intros v. apply getenv_set.
  - intros H. unfold validate_config.
    cbn [crusoe CrusoeConfig_from_env api_token].
    replace (getenv env "CRUSOE_API_TOKEN" "") with ""
      by (destruct H as [H|H];
          [rewrite (getenv_unset _ _ _ H)|rewrite (getenv_set _ _ _ _ H)];
          reflexivity).
    reflexivity.
Qed.

Lemma from_env_defaults_witness :
  exists cfg,
    AppConfig_from_env [("CRUSOE_ORG_ID", "org-1")] = Ok cfg
    /\ batch_size cfg = 100
    /\ validate_config cfg
       = Some "CRUSOE_API_TOKEN environment variable is required".
Proof.
  destruct (from_env_defaults [("CRUSOE_ORG_ID", "org-1")]
                              eq_refl eq_refl eq_refl)
    as (cfg & H1 & H2 & _ & _ & _ & _ & H3).
  exists cfg. split; [exact H1|]. split; [exact H2|].
  apply H3. left. reflexivity.
Defined.

(** X12: a [BATCH_SIZE], [REQUEST_TIMEOUT] or [MAX_RETRIES] that is set
    to a text [int()] refuses makes the reading of the configuration
    raise [ValueError]; the empty string and [10.5] are such texts, so a
    variable that is set but empty does not fall back to its default. *)
Theorem from_env_rejects_bad_number (env : environ) (key v : string) :
  In key ["BATCH_SIZE"; "REQUEST_TIMEOUT"; "MAX_RETRIES"] ->
  dict_get env key = Some v ->
  py_int v = None ->
  AppConfig_from_env env = Raise ValueError
  /\ py_int "" = None /\ py_int "10.5" = None /\ py_int "abc" = None.
Proof.
  intros Hk Hv Hi. split; [|repeat split; reflexivity].
  unfold AppConfig_from_env.
  destruct Hk as [<-|[<-|[<-|[]]]].
  - rewrite (getenv_set _ _ _ _ Hv), Hi. reflexivity.
  - destruct (py_int (getenv env "BATCH_SIZE" "100")); [|reflexivity].
    rewrite (getenv_set _ "REQUEST_TIMEOUT" _ _ Hv), Hi. reflexivity.
  - destruct (py_int (getenv env "BATCH_SIZE" "100")); [|reflexivity].
    destruct (py_int (getenv env "REQUEST_TIMEOUT" "30")); [|reflexivity].
    rewrite (getenv_set _ "MAX_RETRIES" _ _ Hv), Hi. reflexivity.
Qed.

Lemma from_env_rejects_bad_number_witness :
  AppConfig_from_env [("CRUSOE_API_TOKEN", "tok"); ("REQUEST_TIMEOUT", "")]
  = Raise ValueError.
Proof.
  exact (proj1 (from_env_rejects_bad_number
                  [("CRUSOE_API_TOKEN", "tok"); ("REQUEST_TIMEOUT", "")]
                  "REQUEST_TIMEOUT" ""
                  ltac:(cbn; tauto) eq_refl eq_refl)).
Defined.

(** The characters whose lower case is a given lower-case letter. *)
Lemma lower_char_letter (c l u : ascii) :
  In (l, u) [("t", "T"); ("r", "R"); ("u", "U"); ("e", "E")]%char ->
  lower_char c = l <-> c = l \/ c = u.
Proof.
  intros Hin. cbn [In] in Hin.
  destruct Hin as [E|[E|[E|[E|[]]]]]; injection E as <- <-;
    (split; [|intros [->| ->]; reflexivity]);
    destruct c as [[] [] [] [] [] [] [] []]; intros H;
    vm_compute in H; try discriminate H; auto.
Qed.

(** X13: certificate verification for Splunk is on exactly when
    [SPLUNK_VERIFY_SSL] is not set or is the word [true] in any mix of
    upper and lower case; every other value, [1] and [yes] included,
    turns it off. *)
Theorem verify_ssl_only_for_true (env : environ) :
  (verify_ssl (SplunkConfig_from_env env) = true
   <-> dict_get env "SPLUNK_VERIFY_SSL" = None
       \/ exists a b c d,
           dict_get env "SPLUNK_VERIFY_SSL"
           = Some (String a (String b (String c (String d ""))))
           /\ (a = "t" \/ a = "T")%char /\ (b = "r" \/ b = "R")%char
           /\ (c = "u" \/ c = "U")%char /\ (d = "e" \/ d = "E")%char)
  /\ (dict_get env "SPLUNK_VERIFY_SSL" = Some "1" ->
      verify_ssl (SplunkConfig_from_env env) = false)
  /\ (dict_get env "SPLUNK_VERIFY_SSL" = Some "yes" ->
      verify_ssl (SplunkConfig_from_env env) = false).
Proof.
  cbn [verify_ssl SplunkConfig_from_env]. unfold getenv.
  destruct (dict_get env "SPLUNK_VERIFY_SSL") as [v|].
  2:{ repeat split; intros; try discriminate; auto. }
  split; [|split; intros E; injection E as ->; reflexivity].
  rewrite String.eqb_eq. split.
  - intros H. right.
    destruct v as [|a [|b [|c [|d [|x v]]]]]; try discriminate H.
    cbn [str_lower] in H. injection H as Ha Hb Hc Hd.
    exists a, b, c, d. split; [reflexivity|].
    repeat split.
    + apply (lower_char_letter a "t" "T"); [cbn; tauto|exact Ha].
    + apply (lower_char_letter b "r" "R"); [cbn; tauto|exact Hb].
    + apply (lower_char_letter c "u" "U"); [cbn; tauto|exact Hc].
    + apply (lower_char_letter d "e" "E"); [cbn; tauto|exact Hd].
  - intros [H|(a & b & c & d & E & Ha & Hb & Hc & Hd)]; [discriminate H|].
    injection E as ->. cbn [str_lower].
    rewrite (proj2 (lower_char_letter a "t" "T" ltac:(cbn; tauto)) Ha),
            (proj2 (lower_char_letter b "r" "R" ltac:(cbn; tauto)) Hb),
            (proj2 (lower_char_letter c "u" "U" ltac:(cbn; tauto)) Hc),
            (proj2 (lower_char_letter d "e" "E" ltac:(cbn; tauto)) Hd).
    reflexivity.
Qed.

Lemma verify_ssl_only_for_true_witness :
  verify_ssl (SplunkConfig_from_env [("SPLUNK_VERIFY_SSL", "1")]) = false.
Proof.
  exact (proj1 (proj2 (verify_ssl_only_for_true [("SPLUNK_VERIFY_SSL", "1")]))
               eq_refl).
Defined.

End ConfigFacts.

(** ** Forwarding *)

Module ForwarderFacts.
Import Py PyFacts Json Signer Http Config Client Endpoints ClientFacts.
Import PaginationFacts Forwarder.

Section Delivery.
Variables splunk_state splunk_error : Type.
Variable send_events_batch :
  list json -> Z -> splunk_state -> (Z + splunk_error) * splunk_state.

(** What [forward_logs] makes of the result of its fetch. *)
Lemma forward_logs_of_fetch
      (L : requests_lib) (cfg : AppConfig)
      (start_time end_time : option Datetime.datetime) (dry_run : bool)
      (sp : splunk_state) (fuel : nat) (srv : server)
      (fetched : result (list json)) (n' : net) :
  get_audit_logs_paginated L fuel srv (CrusoeClient_init L (crusoe cfg))
                           start_time end_time (batch_size cfg) None net0
  = Some (fetched, n') ->
  forward_logs splunk_state splunk_error send_events_batch L fuel srv cfg
               start_time end_time dry_run net0 sp
  = Some (match fetched with
          | Raise e => (inr (FromCrusoe e), n', sp)
          | Ok [] => (inl 0, n', sp)
          | Ok logs =>
              if dry_run then (inl (Z.of_nat (List.length logs)), n', sp)
              else match send_events_batch logs (batch_size cfg) sp with
                   | (inl sent_count, sp1) => (inl sent_count, n', sp1)
                   | (inr e, sp1) => (inr (FromSplunk e), n', sp1)
                   end
          end).
Proof.
  intros Hf. unfold forward_logs, LogForwarder_crusoe_client. rewrite Hf.
  destruct fetched as [[|x logs]|e]; try reflexivity.
  destruct dry_run; [reflexivity|].
  destruct (send_events_batch _ _ _) as [[c|e] sp1]; reflexivity.
Qed.

Lemma fetch_uses_batch_size
      (L : requests_lib) (cfg : AppConfig)
      (start_time end_time : option Datetime.datetime)
      (fuel : nat) (srv : server)
      (fetched : result (list json)) (n' : net) :
  get_audit_logs_paginated L fuel srv (CrusoeClient_init L (crusoe cfg))
                           start_time end_time (batch_size cfg) None net0
  = Some (fetched, n') ->
  Forall (fun rq =>
            dict_get (req_params rq) "limit"
            = (if batch_size cfg =? 0 then None
               else Some (PInt (batch_size cfg))))
         (sent n').
Proof.
  intros Hf. unfold get_audit_logs_paginated in Hf.
  destruct (loop_sent L srv (crusoe cfg) start_time end_time (batch_size cfg)
              None fuel _ _ _ _ _ _ Hf) as (extra & Hs & Hall & _).
  rewrite Hs. cbn [net0 sent app].
  apply (Forall_impl _ (P := fun rq =>
           exists o, rq = page_request (CrusoeClient_init L (crusoe cfg))
                                       start_time end_time (batch_size cfg) o));
    [|exact Hall].
  intros rq [o ->]. unfold page_request, fetch_request. cbn [req_params].
  destruct (build_params_get start_time end_time (Some (batch_size cfg))
              (Some o) []) as (_ & _ & Hli & _); [intros k _ []|].
  rewrite Hli. cbn [truthy_int option_map].
  destruct (batch_size cfg =? 0); reflexivity.
Qed.

End Delivery.

(** X14: [forward_logs] returns whenever its fetch returns, and the
    fetch is made with the batch size as page size and without a page
    limit.  In a dry run, when nothing was fetched, and when the fetch
    failed, nothing is handed to the Splunk client; a dry run returns
    the number of items fetched; a failure of the fetch reaches the
    caller, and it is a [CrusoeAPIError]; otherwise all fetched items
    go to the Splunk client in one call, with the batch size, and its
    count or its exception is the outcome.  Against an endpoint that
    serves full pages and then a last page, [forward_logs] returns
    after one request per page, with the items of all the pages as
    what was fetched. *)
Theorem forward_logs_delivery
        (splunk_state splunk_error : Type)
        (send_events_batch :
           list json -> Z -> splunk_state -> (Z + splunk_error) * splunk_state)
        (L : requests_lib) (cfg : AppConfig)
        (start_time end_time : option Datetime.datetime) (dry_run : bool)
        (sp : splunk_state) :
  let deliver (logs : list json) (n : net)
      : (Z + forward_exn splunk_error) * net * splunk_state :=
    match logs with
    | [] => (inl 0, n, sp)
    | _ =>
        if dry_run then (inl (Z.of_nat (List.length logs)), n, sp)
        else match send_events_batch logs (batch_size cfg) sp with
             | (inl sent_count, sp1) => (inl sent_count, n, sp1)
             | (inr e, sp1) => (inr (FromSplunk e), n, sp1)
             end
    end in
  (forall fuel srv fetched n',
      get_audit_logs_paginated L fuel srv (CrusoeClient_init L (crusoe cfg))
                               start_time end_time (batch_size cfg) None net0
      = Some (fetched, n') ->
      forward_logs splunk_state splunk_error send_events_batch L fuel srv cfg
                   start_time end_time dry_run net0 sp
      = Some (match fetched with
              | Raise e => (inr (FromCrusoe e), n', sp)
              | Ok logs => deliver logs n'
              end)
      /\ (forall e, fetched = Raise e -> exists msg, e = CrusoeAPIError msg)
      /\ Forall (fun rq =>
                   dict_get (req_params rq) "limit"
                   = (if batch_size cfg =? 0 then None
                      else Some (PInt (batch_size cfg))))
                (sent n'))
  /\ (forall (pages : list (list json)) (last : list json) (fuel : nat),
         Forall (full_page (batch_size cfg)) pages ->
         last_page (batch_size cfg) last ->
         exists n',
           forward_logs splunk_state splunk_error send_events_batch L
                        (S (List.length pages) + fuel)
                        (serve_pages (pages ++ [last])) cfg start_time
                        end_time dry_run net0 sp
           = Some (deliver (List.concat (pages ++ [last])) n')
           /\ List.length (sent n') = S (List.length pages)).
Proof.
  intros deliver. split.
  - intros fuel srv fetched n' Hf. split; [|split].
    + rewrite (forward_logs_of_fetch splunk_state splunk_error
                 send_events_batch L cfg start_time end_time dry_run sp fuel
                 srv fetched n' Hf).
      subst deliver. destruct fetched as [[|x logs]|e]; reflexivity.
    + intros e ->. unfold get_audit_logs_paginated in Hf.
      exact (loop_raises_api_error _ _ _ _ _ _ _ _ _ _ _ _ _ _ Hf).
    + exact (fetch_uses_batch_size L cfg start_time end_time fuel srv fetched
               n' Hf).
  - intros pages last fuel Hfull Hlast.
    destruct (paginated_pages L (crusoe cfg) start_time end_time
                (batch_size cfg) pages last fuel Hfull Hlast)
      as (n' & Hf & Hsent & _).
    exists n'. split.
    + rewrite (forward_logs_of_fetch splunk_state splunk_error
                 send_events_batch L cfg start_time end_time dry_run sp _ _ _
                 n' Hf).
      subst deliver. destruct (List.concat (pages ++ [last])); reflexivity.
    + rewrite Hsent, length_map, length_offsets_from, length_app.
      cbn [List.length]. lia.
Qed.

Lemma forward_logs_delivery_witness :
  exists n',
    forward_logs (list (list json)) unit
                 (fun logs _ sp => (inl (Z.of_nat (List.length logs)),
                                    (sp ++ [logs])%list))
                 Sample.L0 2 Sample.two_pages
                 (mkAppConfig Sample.cfg0 Sample.splunk0 2 30 3)
                 None None false net0 []
    = Some (inl 3, n', [(Sample.page 2 ++ Sample.page 1)%list])
    /\ List.length (sent n') = 2%nat.
Proof.
  exact (proj2 (forward_logs_delivery
                  (list (list json)) unit
                  (fun logs _ sp => (inl (Z.of_nat (List.length logs)),
                                     (sp ++ [logs])%list))
                  Sample.L0 (mkAppConfig Sample.cfg0 Sample.splunk0 2 30 3)
                  None None false [])
               [Sample.page 2] (Sample.page 1) 0%nat
               ltac:(repeat constructor; [discriminate|cbn; lia])
               ltac:(right; cbn; lia)).
Defined.

End ForwarderFacts.

(** ** Base64: encoding and decoding *)

Module RoundTripFacts.
Import Py PyFacts Base64 Rfc4648 Base64Facts Shape TimestampFacts Sextets.

Lemma forall_grid (P : Z -> Z -> bool) (m k : Z) :
  0 < k -> 0 <= m ->
  forallb (fun n => P (n / k) (n mod k)) (Zrange 0 (Z.to_nat (m * k))) = true ->
  forall p q, 0 <= p < m -> 0 <= q < k -> P p q = true.
Proof.
  intros Hk Hm H p q Hp Hq.
  assert (Hn : 0 <= k * p + q <= m * k - 1) by nia.
  replace (m * k) with (m * k - 1 - 0 + 1) in H by lia.
  pose proof (forall_range (fun n => P (n / k) (n mod k)) 0 (m * k - 1) H
                           (k * p + q) Hn) as E.
  cbv beta in E.
  replace ((k * p + q) / k) with p in E
    by (apply (Z.div_unique _ _ p q); lia).
  replace ((k * p + q) mod k) with q in E
    by (apply (Z.mod_unique _ _ p q); lia).
  exact E.
Qed.

Lemma Z_of_byte_range (b : byte) : 0 <= Z_of_byte b <= 255.
Proof. destruct b; vm_compute; split; discriminate. Qed.

Lemma byte_of_Z_of_byte (b : byte) : byte_of_Z (Z_of_byte b) = b.
Proof. destruct b; reflexivity. Qed.

(** The characters of the sextets. *)
Lemma sextet_char (v : Z) :
  0 <= v <= 63 ->
  is_urlsafe_char (urlsafe_encode_char (b2a v)) = true
  /\ Ascii.eqb (wire v) pad_char = false
  /\ a2b (wire v) = Some v.
Proof.
  intros Hv.
  assert (H : forallb
                (fun v => is_urlsafe_char (urlsafe_encode_char (b2a v))
                          && negb (Ascii.eqb (wire v) pad_char)
                          && match a2b (wire v) with
                             | Some w => w =? v
                             | None => false
                             end)
                (Zrange 0 (Z.to_nat (63 - 0 + 1))) = true)
    by (vm_compute; reflexivity).
  pose proof (forall_range _ 0 63 H v Hv) as E.
  cbv beta in E. apply andb_true_iff in E as [E E3].
  apply andb_true_iff in E as [E1 E2].
  split; [exact E1|]. split; [apply negb_true_iff, E2|].
  destruct (a2b (wire v)) as [w|]; [|discriminate E3].
  apply Z.eqb_eq in E3. congruence.
Qed.

(** A byte split at bit [w] and put together again. *)
Lemma split_byte (x : Z) :
  0 <= x <= 255 ->
  (0 <= Z.shiftr x 2 <= 63 /\ 0 <= Z.land x 3 < 4
   /\ glue 2 (Z.shiftr x 2) (Z.land x 3) = x)
  /\ (0 <= Z.shiftr x 4 < 16 /\ 0 <= Z.land x 15 < 16
      /\ glue 4 (Z.shiftr x 4) (Z.land x 15) = x)
  /\ (0 <= Z.shiftr x 6 < 4 /\ 0 <= Z.land x 63 <= 63
      /\ glue 6 (Z.shiftr x 6) (Z.land x 63) = x).
Proof.
  intros Hx.
  assert (H : forallb
                (fun x =>
                   (0 <=? Z.shiftr x 2) && (Z.shiftr x 2 <=? 63)
                   && (0 <=? Z.land x 3) && (Z.land x 3 <? 4)
                   && (glue 2 (Z.shiftr x 2) (Z.land x 3) =? x)
                   && (0 <=? Z.shiftr x 4) && (Z.shiftr x 4 <? 16)
                   && (0 <=? Z.land x 15) && (Z.land x 15 <? 16)
                   && (glue 4 (Z.shiftr x 4) (Z.land x 15) =? x)
                   && (0 <=? Z.shiftr x 6) && (Z.shiftr x 6 <? 4)
                   && (0 <=? Z.land x 63) && (Z.land x 63 <=? 63)
                   && (glue 6 (Z.shiftr x 6) (Z.land x 63) =? x))
                (Zrange 0 (Z.to_nat (255 - 0 + 1))) = true)
    by (vm_compute; reflexivity).
  pose proof (forall_range _ 0 255 H x Hx) as E. cbv beta in E.
  rewrite !andb_true_iff, !Z.leb_le, !Z.ltb_lt, !Z.eqb_eq in E.
  intuition.
Qed.

(** A sextet glued from [p] and [q], taken apart again. *)
Lemma glue4 (p q : Z) :
  0 <= p < 4 -> 0 <= q < 16 ->
  0 <= glue 4 p q <= 63 /\ Z.shiftr (glue 4 p q) 4 = p
  /\ Z.land (glue 4 p q) 15 = q.
Proof.
  intros Hp Hq.
  assert (H : forallb
                (fun n =>
                   (fun p q =>
                      (0 <=? glue 4 p q) && (glue 4 p q <=? 63)
                      && (Z.shiftr (glue 4 p q) 4 =? p)
                      && (Z.land (glue 4 p q) 15 =? q)) (n / 16) (n mod 16))
                (Zrange 0 (Z.to_nat (4 * 16))) = true)
    by (vm_compute; reflexivity).
  pose proof (forall_grid _ 4 16 ltac:(lia) ltac:(lia) H p q Hp Hq) as E.
  cbv beta in E.
  rewrite !andb_true_iff, !Z.leb_le, !Z.eqb_eq in E. intuition.
Qed.

Lemma glue2 (p q : Z) :
  0 <= p < 16 -> 0 <= q < 4 ->
  0 <= glue 2 p q <= 63 /\ Z.shiftr (glue 2 p q) 2 = p
  /\ Z.land (glue 2 p q) 3 = q.
Proof.
  intros Hp Hq.
  assert (H : forallb
                (fun n =>
                   (fun p q =>
                      (0 <=? glue 2 p q) && (glue 2 p q <=? 63)
                      && (Z.shiftr (glue 2 p q) 2 =? p)
                      && (Z.land (glue 2 p q) 3 =? q)) (n / 4) (n mod 4))
                (Zrange 0 (Z.to_nat (16 * 4))) = true)
    by (vm_compute; reflexivity).
  pose proof (forall_grid _ 16 4 ltac:(lia) ltac:(lia) H p q Hp Hq) as E.
  cbv beta in E.
  rewrite !andb_true_iff, !Z.leb_le, !Z.eqb_eq in E. intuition.
Qed.

(** One data character in the decoder. *)
Lemma loop_data_step (v : Z) (rest : string) (q : nat) (lc : Z) (pads : nat)
      (out : bytes) :
  0 <= v <= 63 ->
  a2b_loop (String (wire v) rest) q lc pads out
  = match q with
    | 0%nat => a2b_loop rest 1 v 0 out
    | 1%nat =>
        a2b_loop rest 2 (Z.land v 15) 0
                 (byte_of_Z (Z.lor (Z.shiftl lc 2) (Z.shiftr v 4)) :: out)
    | 2%nat =>
        a2b_loop rest 3 (Z.land v 3) 0
                 (byte_of_Z (Z.lor (Z.shiftl lc 4) (Z.shiftr v 2)) :: out)
    | _ => a2b_loop rest 0 0 0 (byte_of_Z (Z.lor (Z.shiftl lc 6) v) :: out)
    end.
Proof.
  intros Hv. destruct (sextet_char v Hv) as (_ & Hp & Ha).
  cbn [a2b_loop]. rewrite Hp, Ha. reflexivity.
Qed.

Lemma wired_group (x y z : byte) (r : bytes) :
  wired (x :: y :: z :: r)
  = String (wire (Z.shiftr (Z_of_byte x) 2))
      (String (wire (glue 4 (Z.land (Z_of_byte x) 3) (Z.shiftr (Z_of_byte y) 4)))
         (String (wire (glue 2 (Z.land (Z_of_byte y) 15)
                             (Z.shiftr (Z_of_byte z) 6)))
            (String (wire (Z.land (Z_of_byte z) 63)) (wired r)))).
Proof. reflexivity. Qed.

Lemma wired_one (x : byte) :
  wired [x]
  = String (wire (Z.shiftr (Z_of_byte x) 2))
      (String (wire (glue 4 (Z.land (Z_of_byte x) 3) 0)) "==").
Proof.
  unfold wired, glue. cbn [b2a_base64 translate]. rewrite Z.lor_0_r.
  reflexivity.
Qed.

Lemma wired_two (x y : byte) :
  wired [x; y]
  = String (wire (Z.shiftr (Z_of_byte x) 2))
      (String (wire (glue 4 (Z.land (Z_of_byte x) 3) (Z.shiftr (Z_of_byte y) 4)))
         (String (wire (glue 2 (Z.land (Z_of_byte y) 15) 0)) "=")).
Proof.
  unfold wired, glue. cbn [b2a_base64 translate]. rewrite Z.lor_0_r.
  reflexivity.
Qed.

(** The bytes the decoder gets out of the sextets of [x], [y], [z]. *)
Lemma first_byte (x : byte) (q : Z) :
  0 <= q < 16 ->
  byte_of_Z (Z.lor (Z.shiftl (Z.shiftr (Z_of_byte x) 2) 2)
                   (Z.shiftr (glue 4 (Z.land (Z_of_byte x) 3) q) 4)) = x.
Proof.
  intros Hq. destruct (split_byte _ (Z_of_byte_range x)) as ((_ & Hp & E) & _).
  destruct (glue4 _ q Hp Hq) as (_ & -> & _).
  unfold glue in E. rewrite E. apply byte_of_Z_of_byte.
Qed.

Lemma second_byte (y : byte) (p q : Z) :
  0 <= p < 4 -> 0 <= q < 4 ->
  byte_of_Z (Z.lor (Z.shiftl (Z.land (glue 4 p (Z.shiftr (Z_of_byte y) 4)) 15) 4)
                   (Z.shiftr (glue 2 (Z.land (Z_of_byte y) 15) q) 2)) = y.
Proof.
  intros Hp Hq.
  destruct (split_byte _ (Z_of_byte_range y)) as (_ & (Hh & Hl & E) & _).
  destruct (glue4 p _ Hp Hh) as (_ & _ & ->).
  destruct (glue2 _ q Hl Hq) as (_ & -> & _).
  unfold glue in E. rewrite E. apply byte_of_Z_of_byte.
Qed.

Lemma third_byte (z : byte) (p : Z) :
  0 <= p < 16 ->
  byte_of_Z (Z.lor (Z.shiftl (Z.land (glue 2 p (Z.shiftr (Z_of_byte z) 6)) 3) 6)
                   (Z.land (Z_of_byte z) 63)) = z.
Proof.
  intros Hp.
  destruct (split_byte _ (Z_of_byte_range z)) as (_ & _ & (Hh & _ & E)).
  destruct (glue2 p _ Hp Hh) as (_ & _ & ->).
  unfold glue in E. rewrite E. apply byte_of_Z_of_byte.
Qed.

Ltac sextet_ranges :=
  repeat match goal with
         | x : byte |- _ =>
             lazymatch goal with
             | H : 0 <= Z.shiftr (Z_of_byte x) 2 <= 63 |- _ => fail
             | _ =>
                 destruct (split_byte _ (Z_of_byte_range x))
                   as ((? & ? & _) & (? & ? & _) & (? & ? & _))
             end
         end.

(** Induction over a list three elements at a time. *)
Lemma list_ind3 {A : Type} (P : list A -> Prop) :
  P [] -> (forall x, P [x]) -> (forall x y, P [x; y]) ->
  (forall x y z r, P r -> P (x :: y :: z :: r)) ->
  forall l, P l.
Proof.
  intros H0 H1 H2 H3 l.
  assert (G : forall n l, (List.length l <= n)%nat -> P l).
  { clear l. induction n as [|n IH]; intros l Hl.
    - destruct l; [exact H0|cbn in Hl; lia].
    - destruct l as [|x [|y [|z r]]]; auto.
      apply H3, IH. cbn in Hl. lia. }
  exact (G (List.length l) l (le_n _)).
Qed.

(** The decoder gives back the bytes of the text the encoder made. *)
Lemma decode_wired (data : bytes) :
  forall out, a2b_loop (wired data) 0 0 0 out = Some (rev out ++ data)%list.
Proof.
  induction data as [|x|x y|x y z r IH] using list_ind3; intros out.
  - cbn. rewrite app_nil_r. reflexivity.
  - rewrite wired_one. sextet_ranges.
    destruct (glue4 (Z.land (Z_of_byte x) 3) 0) as (? & _ & _); [lia|lia|].
    rewrite !loop_data_step by lia.
    cbn [a2b_loop Ascii.eqb Bool.eqb pad_char Nat.leb Nat.add].
    rewrite first_byte by lia. cbn [rev]. reflexivity.
  - rewrite wired_two. sextet_ranges.
    destruct (glue4 (Z.land (Z_of_byte x) 3) (Z.shiftr (Z_of_byte y) 4))
      as (? & _ & _); [lia|lia|].
    destruct (glue2 (Z.land (Z_of_byte y) 15) 0) as (? & _ & _); [lia|lia|].
    rewrite !loop_data_step by lia.
    cbn [a2b_loop Ascii.eqb Bool.eqb pad_char Nat.leb Nat.add].
    rewrite first_byte, second_byte by lia.
    cbn [rev]. rewrite <- !app_assoc. reflexivity.
  - rewrite wired_group. sextet_ranges.
    destruct (glue4 (Z.land (Z_of_byte x) 3) (Z.shiftr (Z_of_byte y) 4))
      as (? & _ & _); [lia|lia|].
    destruct (glue2 (Z.land (Z_of_byte y) 15) (Z.shiftr (Z_of_byte z) 6))
      as (? & _ & _); [lia|lia|].
    rewrite !loop_data_step by lia.
    rewrite first_byte, second_byte, third_byte by lia.
    rewrite IH. cbn [rev]. rewrite <- !app_assoc. reflexivity.
Qed.

Lemma three_more (n : nat) :
  body_length (S (S (S n))) = (4 + body_length n)%nat
  /\ pad_length (S (S (S n))) = pad_length n.
Proof.
  unfold body_length, pad_length.
  replace (S (S (S n))) with (n + 1 * 3)%nat by lia.
  rewrite Nat.div_add, Nat.Div0.mod_add by lia. split; lia.
Qed.

(** The text of the encoder: characters of the URL-safe alphabet, then
    the padding. *)
Lemma encode_structure (data : bytes) :
  exists body,
    urlsafe_b64encode data
    = body ++ str_mul "=" (pad_length (List.length data))
    /\ all_chars is_urlsafe_char body = true
    /\ String.length body = body_length (List.length data).
Proof.
  unfold urlsafe_b64encode.
  induction data as [|x|x y|x y z r IH] using list_ind3.
  - exists "". repeat split.
  - sextet_ranges.
    destruct (glue4 (Z.land (Z_of_byte x) 3) 0) as (Hg & _ & _); [lia|lia|].
    unfold glue in Hg. rewrite Z.lor_0_r in Hg.
    destruct (sextet_char (Z.shiftr (Z_of_byte x) 2)) as (C1 & _); [lia|].
    destruct (sextet_char (Z.shiftl (Z.land (Z_of_byte x) 3) 4)) as (C2 & _);
      [lia|].
    eexists (String _ (String _ "")). split; [reflexivity|]. split.
    + cbn [all_chars]. rewrite C1, C2. reflexivity.
    + reflexivity.
  - sextet_ranges.
    destruct (glue4 (Z.land (Z_of_byte x) 3) (Z.shiftr (Z_of_byte y) 4))
      as (Hg & _ & _); [lia|lia|].
    destruct (glue2 (Z.land (Z_of_byte y) 15) 0) as (Hg' & _ & _); [lia|lia|].
    unfold glue in Hg, Hg'. rewrite Z.lor_0_r in Hg'.
    destruct (sextet_char (Z.shiftr (Z_of_byte x) 2)) as (C1 & _); [lia|].
    destruct (sextet_char _ Hg) as (C2 & _).
    destruct (sextet_char _ Hg') as (C3 & _).
    eexists (String _ (String _ (String _ ""))). split; [reflexivity|]. split.
    + cbn [all_chars]. rewrite C1, C2, C3. reflexivity.
    + reflexivity.
  - destruct IH as (body & E & Hall & Hlen). sextet_ranges.
    destruct (glue4 (Z.land (Z_of_byte x) 3) (Z.shiftr (Z_of_byte y) 4))
      as (Hg & _ & _); [lia|lia|].
    destruct (glue2 (Z.land (Z_of_byte y) 15) (Z.shiftr (Z_of_byte z) 6))
      as (Hg' & _ & _); [lia|lia|].
    unfold glue in Hg, Hg'.
    destruct (sextet_char (Z.shiftr (Z_of_byte x) 2)) as (C1 & _); [lia|].
    destruct (sextet_char _ Hg) as (C2 & _).
    destruct (sextet_char _ Hg') as (C3 & _).
    destruct (sextet_char (Z.land (Z_of_byte z) 63)) as (C4 & _); [lia|].
    cbn [b2a_base64 translate List.length].
    destruct (three_more (List.length r)) as [-> ->].
    rewrite E.
    eexists (String _ (String _ (String _ (String _ body)))).
    split; [reflexivity|]. split.
    + cbn [all_chars]. rewrite C1, C2, C3, C4, Hall. reflexivity.
    + cbn [String.length]. rewrite Hlen. reflexivity.
Qed.

Lemma rstrip_body_pads (body : string) (p : nat) :
  all_chars is_urlsafe_char body = true ->
  rstrip "=" (body ++ str_mul "=" p) = body.
Proof.
  induction body as [|c r IH]; intros H.
  - apply rstrip_str_mul.
  - cbn [all_chars] in H. apply andb_true_iff in H as [Hc Hr].
    cbn [append rstrip]. rewrite (IH Hr).
    destruct r; [|reflexivity].
    destruct (Ascii.eqb_spec c "=") as [->|]; [discriminate Hc|reflexivity].
Qed.

(** The lengths of body and padding add up to a multiple of four. *)
Lemma body_pad_lengths (n : nat) :
  (pad_length n <= 2)%nat
  /\ Nat.modulo (body_length n + pad_length n) 4 = 0%nat
  /\ (Nat.modulo (body_length n) 4 = 0%nat <-> Nat.modulo n 3 = 0%nat).
Proof.
  assert (M : forall a q, (a < 4)%nat -> Nat.modulo (4 * q + a) 4 = a).
  { intros a q Ha. replace (4 * q + a)%nat with (a + q * 4)%nat by lia.
    rewrite Nat.Div0.mod_add. apply Nat.mod_small, Ha. }
  unfold body_length, pad_length.
  pose proof (Nat.mod_upper_bound n 3 ltac:(lia)) as Hm.
  destruct (n mod 3)%nat as [|[|[|k]]]; [| | |lia].
  - assert (Z0 : Nat.modulo (4 * (n / 3)) 4 = 0%nat).
    { pose proof (M 0%nat (n / 3)%nat ltac:(lia)) as H0.
      rewrite Nat.add_0_r in H0. exact H0. }
    split; [lia|]. rewrite !Nat.add_0_r, Z0. tauto.
  - split; [lia|]. split.
    + replace (4 * (n / 3) + 2 + 2)%nat with (4 * (S (n / 3)) + 0)%nat by lia.
      apply M. lia.
    + rewrite M by lia. split; discriminate.
  - split; [lia|]. split.
    + replace (4 * (n / 3) + 3 + 1)%nat with (4 * (S (n / 3)) + 0)%nat by lia.
      apply M. lia.
    + rewrite M by lia. split; discriminate.
Qed.

Lemma encode_then_decode (data : bytes) :
  urlsafe_b64decode (urlsafe_b64encode data) = Some data
  /\ valid_urlsafe_b64 (urlsafe_b64encode data) = true
  /\ urlsafe_b64decode
       (Signer.pad_secret (rstrip "=" (urlsafe_b64encode data)))
     = Some data
  /\ (Nat.modulo (List.length data) 3 <> 0%nat ->
      urlsafe_b64decode (rstrip "=" (urlsafe_b64encode data)) = None).
Proof.
  destruct (encode_structure data) as (body & E & Hall & Hlen).
  destruct (body_pad_lengths (List.length data)) as (Hp & Hm & Hiff).
  assert (Hasc : isascii (urlsafe_b64encode data) = true).
  { rewrite E, isascii_append, (isascii_urlsafe body Hall), isascii_pads.
    reflexivity. }
  assert (Hdec : urlsafe_b64decode (urlsafe_b64encode data) = Some data).
  { unfold urlsafe_b64decode. rewrite Hasc. unfold a2b_base64.
    exact (decode_wired data []). }
  assert (Hstrip : rstrip "=" (urlsafe_b64encode data) = body).
  { rewrite E. apply rstrip_body_pads, Hall. }
  split; [exact Hdec|]. split; [|split].
  - unfold valid_urlsafe_b64. rewrite Hstrip, Hall.
    rewrite E at 1 2. rewrite length_append, length_str_mul, Hlen.
    apply andb_true_iff. split; [apply andb_true_iff; split|].
    + reflexivity.
    + apply Nat.leb_le. lia.
    + apply Nat.eqb_eq. exact Hm.
  - rewrite Hstrip.
    rewrite (SignerFacts.pad_secret_restores body
               (pad_length (List.length data))); [|lia|].
    + rewrite <- E. exact Hdec.
    + rewrite length_append, length_str_mul, Hlen. exact Hm.
  - intros Hn. rewrite Hstrip. unfold urlsafe_b64decode.
    rewrite (isascii_urlsafe body Hall). unfold a2b_base64.
    rewrite <- (append_nil_r (translate urlsafe_decode_char body)).
    destruct (a2b_loop_data body "" Hall 0 0 0 []) as (lc & out & Eq); [lia|].
    rewrite Eq. cbn [Nat.add a2b_loop]. rewrite Hlen.
    destruct (Nat.modulo (body_length (List.length data)) 4) eqn:E4;
      [|reflexivity].
    exfalso. apply Hn, Hiff. reflexivity.
Qed.

(** X15: decoding undoes encoding.  For every byte string, the
    URL-safe base64 text the encoder makes is well formed and decodes
    to the bytes; so does that text with its padding stripped, once the
    scripts' padding expression has been applied; but the stripped text
    alone is refused by the decoder whenever the number of bytes is not
    a multiple of three. *)
Theorem base64_round_trip (data : bytes) :
  urlsafe_b64decode (urlsafe_b64encode data) = Some data
  /\ valid_urlsafe_b64 (urlsafe_b64encode data) = true
  /\ urlsafe_b64decode
       (Signer.pad_secret (rstrip "=" (urlsafe_b64encode data)))
     = Some data
  /\ (Nat.modulo (List.length data) 3 <> 0%nat ->
      urlsafe_b64decode (rstrip "=" (urlsafe_b64encode data)) = None).
Proof.
  exact (encode_then_decode data).
Qed.

Lemma base64_round_trip_witness :
  urlsafe_b64decode (rstrip "=" (urlsafe_b64encode Sample.decoded)) = None.
Proof.
  apply (proj2 (proj2 (proj2 (base64_round_trip Sample.decoded)))).
  discriminate.
Defined.


Lemma round_length (st : list Z) (kw : Z * Z) :
  List.length st = 8%nat -> List.length (SHA256.round st kw) = 8%nat.
Proof.
  intros H.
  destruct st as [|a [|b [|c [|d [|e [|f [|g [|h [|i r]]]]]]]]];
    try discriminate H.
  reflexivity.
Qed.

Lemma rounds_length (kws : list (Z * Z)) (st : list Z) :
  List.length st = 8%nat ->
  List.length (fold_left SHA256.round kws st) = 8%nat.
Proof.
  revert st. induction kws as [|kw r IH]; intros st H; [exact H|].
  cbn [fold_left]. apply IH, round_length, H.
Qed.

Lemma compress_length (h block : list Z) :
  List.length h = 8%nat -> List.length (SHA256.compress h block) = 8%nat.
Proof.
  intros H. unfold SHA256.compress.
  rewrite length_map, length_combine, rounds_length, H; [reflexivity|exact H].
Qed.

Lemma blocks_length (fuel : nat) (h bs : list Z) :
  List.length h = 8%nat -> List.length (SHA256.blocks fuel h bs) = 8%nat.
Proof.
  revert h bs. induction fuel as [|k IH]; intros h bs H; [exact H|].
  cbn [SHA256.blocks]. destruct bs as [|b r]; [exact H|].
  apply IH, compress_length, H.
Qed.

Lemma digest_length (msg : bytes) : List.length (SHA256.digest msg) = 32%nat.
Proof.
  unfold SHA256.digest. rewrite length_map.
  pose proof (blocks_length
                (List.length (SHA256.pad (map Z_of_byte msg))) SHA256.H0
                (SHA256.pad (map Z_of_byte msg)) eq_refl) as H.
  destruct (SHA256.blocks _ SHA256.H0 _)
    as [|a [|b [|c [|d [|e [|f [|g [|h [|i r]]]]]]]]];
    try discriminate H.
  reflexivity.
Qed.

(** X16: the signature of the signing scripts always has the same shape,
    whatever the secret and the payload: 43 characters of the URL-safe
    alphabet, with no padding, and it is the text of the 32-byte
    HMAC-SHA256 value, which the decoder gives back once the scripts'
    padding expression has been applied to it. *)
Theorem signature_shape (decoded_secret payload : bytes) :
  let signature := Signer.signature_of decoded_secret payload in
  String.length signature = 43%nat
  /\ all_chars is_urlsafe_char signature = true
  /\ List.length (Hmac.hmac_sha256 decoded_secret payload) = 32%nat
  /\ urlsafe_b64decode (Signer.pad_secret signature)
     = Some (Hmac.hmac_sha256 decoded_secret payload).
Proof.
  intros signature. subst signature. unfold Signer.signature_of.
  assert (L : List.length (Hmac.hmac_sha256 decoded_secret payload) = 32%nat)
    by apply digest_length.
  destruct (encode_structure (Hmac.hmac_sha256 decoded_secret payload))
    as (body & E & Hall & Hlen).
  rewrite L in E, Hlen.
  assert (Hstrip : rstrip "="
                     (urlsafe_b64encode
                        (Hmac.hmac_sha256 decoded_secret payload)) = body).
  { rewrite E. apply rstrip_body_pads, Hall. }
  destruct (encode_then_decode (Hmac.hmac_sha256 decoded_secret payload))
    as (_ & _ & D & _).
  rewrite Hstrip in *.
  repeat split; [exact Hlen|exact Hall|exact L|exact D].
Qed.

End RoundTripFacts.

(* ================================================================== *)
(** ** The encoded query strings *)
(* ================================================================== *)

Module UrlEncodingFacts.
Import Py PyFacts Signer Rfc4648 Urllib UrlEncoding.

Lemma always_safe_byte_below (b : Z) :
  always_safe_byte b = true -> 0 <= b < 127 /\ b <> 32.
Proof.
  unfold always_safe_byte.
  rewrite !orb_true_iff, !andb_true_iff, !Z.leb_le, !Z.eqb_eq. lia.
Qed.

Lemma chr_code (c : ascii) : chr (code c) = c.
Proof.
  unfold chr, code. rewrite N2Z.id. apply ascii_N_embedding.
Qed.

Lemma code_range (c : ascii) : 0 <= code c < 256.
Proof.
  unfold code. pose proof (N_ascii_bounded c). lia.
Qed.

Lemma safe_is_not_space (c : ascii) :
  always_safe c = true -> Ascii.eqb c " " = false.
Proof.
  intros H. destruct (Ascii.eqb_spec c " ") as [->|]; [discriminate H|].
  reflexivity.
Qed.

Lemma safe_has_no_space (s : string) :
  all_chars always_safe s = true -> contains " " s = false.
Proof.
  induction s as [|c r IH]; cbn [all_chars contains]; [reflexivity|].
  intros H. apply andb_true_iff in H. destruct H as [Hc Hr].
  rewrite (safe_is_not_space c Hc), (IH Hr). reflexivity.
Qed.

Lemma encode_safe (extra : list Z) (s : string) :
  all_chars always_safe s = true ->
  forallb (in_safe extra) (encode_utf8 s) = true
  /\ decode (encode_utf8 s) = s.
Proof.
  induction s as [|c r IH]; cbn [all_chars encode_utf8];
    [split; reflexivity|].
  intros H. apply andb_true_iff in H. destruct H as [Hc Hr].
  destruct (IH Hr) as [IH1 IH2].
  destruct (always_safe_byte_below _ Hc) as [B _].
  replace (code c <? 128) with true by (symmetry; apply Z.ltb_lt; lia).
  cbn [forallb decode]. rewrite IH1, IH2, chr_code. unfold in_safe.
  unfold always_safe in Hc. rewrite Hc. split; reflexivity.
Qed.

Lemma quote_safe (s safe : string) :
  all_chars always_safe s = true -> quote s safe = s.
Proof.
  intros H. destruct s as [|c r]; [reflexivity|].
  destruct (encode_safe (safe_bytes safe) _ H) as [F D].
  unfold quote, quote_from_bytes. rewrite F, D.
  destruct (encode_utf8 (String c r)) eqn:E; [|reflexivity].
  cbn [decode] in D. exact D.
Qed.

Lemma quote_plus_safe (s : string) :
  all_chars always_safe s = true -> quote_plus s = s.
Proof.
  intros H. unfold quote_plus. rewrite (safe_has_no_space s H).
  apply quote_safe, H.
Qed.

Lemma length_encode (s : string) :
  (String.length s <= List.length (encode_utf8 s))%nat.
Proof.
  induction s as [|c r IH]; cbn [String.length encode_utf8]; [lia|].
  destruct (code c <? 128); cbn [List.length]; lia.
Qed.

Lemma join_empty_cons (p : string) (r : list string) :
  join "" (p :: r) = p ++ join "" r.
Proof.
  destruct r as [|q r]; cbn [join]; [symmetry; apply append_nil_r|].
  reflexivity.
Qed.

Lemma length_quoter (extra : list Z) (b : Z) :
  String.length (quoter extra b) = if in_safe extra b then 1%nat else 3%nat.
Proof.
  unfold quoter. destruct (in_safe extra b); reflexivity.
Qed.

Lemma length_quoted (extra : list Z) (bs : list Z) :
  (List.length bs <= String.length (join "" (map (quoter extra) bs)))%nat
  /\ (forallb (in_safe extra) bs = false ->
      (List.length bs < String.length (join "" (map (quoter extra) bs)))%nat).
Proof.
  induction bs as [|b r [IH1 IH2]].
  - split; [cbn; lia|discriminate].
  - cbn [map]. rewrite join_empty_cons, length_append, length_quoter.
    cbn [List.length forallb].
    destruct (in_safe extra b); cbn [andb]; split; try lia.
    intros H. specialize (IH2 H). lia.
Qed.

(** Bytes that are all safe come from characters that are all safe:
    the two bytes of a character above 127 are never safe. *)
Lemma safe_bytes_chars (extra : list Z) (s : string) :
  forallb (fun b => b <? 128) extra = true ->
  forallb (in_safe extra) (encode_utf8 s) = true ->
  all_chars (fun c => in_safe extra (code c)) s = true.
Proof.
  intros X. induction s as [|c r IH]; cbn [encode_utf8 all_chars];
    [reflexivity|].
  destruct (code c <? 128) eqn:E; cbn [forallb]; intros H;
    apply andb_true_iff in H; destruct H as [Hc Hr].
  - rewrite Hc, (IH Hr). reflexivity.
  - exfalso. apply Z.ltb_ge in E. pose proof (code_range c) as R.
    unfold in_safe in Hc. apply orb_true_iff in Hc. destruct Hc as [Hc|Hc].
    + apply always_safe_byte_below in Hc.
      assert (0 <= code c / 64) by (apply Z.div_pos; lia). lia.
    + apply existsb_exists in Hc. destruct Hc as (x & Hx & Ex).
      apply Z.eqb_eq in Ex. rewrite forallb_forall in X.
      specialize (X x Hx). apply Z.ltb_lt in X.
      assert (0 <= code c / 64) by (apply Z.div_pos; lia). lia.
Qed.

Lemma quote_fixed (s safe : string) :
  quote s safe = s ->
  all_chars (fun c => in_safe (safe_bytes safe) (code c)) s = true.
Proof.
  intros H. destruct s as [|c r]; [reflexivity|].
  unfold quote, quote_from_bytes in H.
  assert (X : forallb (fun b => b <? 128) (safe_bytes safe) = true).
  { apply forallb_forall. intros x Hx. unfold safe_bytes in Hx.
    apply filter_In in Hx. apply Hx. }
  destruct (forallb (in_safe (safe_bytes safe)) (encode_utf8 (String c r)))
    eqn:F.
  - apply safe_bytes_chars; assumption.
  - exfalso.
    destruct (length_quoted (safe_bytes safe) (encode_utf8 (String c r)))
      as [_ L].
    specialize (L F). pose proof (length_encode (String c r)) as L'.
    destruct (encode_utf8 (String c r)) as [|b bs] eqn:E.
    + cbn [List.length String.length] in L'. lia.
    + apply (f_equal String.length) in H. lia.
Qed.

Lemma replaced_has_no_space (t : string) :
  contains " " (replace_char " " "+" t) = false.
Proof.
  induction t as [|c r IH]; cbn [replace_char contains]; [reflexivity|].
  rewrite IH. destruct (Ascii.eqb_spec c " ") as [->|N]; [reflexivity|].
  apply orb_false_iff. split; [|reflexivity].
  destruct (Ascii.eqb_spec c " "); [contradiction|reflexivity].
Qed.

Lemma all_chars_ext (f g : ascii -> bool) (s : string) :
  (forall c, f c = g c) -> all_chars f s = all_chars g s.
Proof.
  intros E. induction s as [|c r IH]; cbn [all_chars]; [reflexivity|].
  rewrite E, IH. reflexivity.
Qed.

Lemma quote_plus_fixed (s : string) :
  quote_plus s = s -> all_chars always_safe s = true.
Proof.
  unfold quote_plus. destruct (contains " " s) eqn:C; cbn [negb]; intros H.
  - rewrite <- H, replaced_has_no_space in C. discriminate C.
  - apply quote_fixed in H.
    rewrite (all_chars_ext always_safe
               (fun c => in_safe (safe_bytes "") (code c))); [exact H|].
    intros c. unfold in_safe, always_safe. cbn [safe_bytes
      list_ascii_of_string map filter existsb]. rewrite orb_false_r.
    reflexivity.
Qed.

(** X17: [quote_plus] leaves a text as it is exactly when the text
    is made of letters, digits and [_.-~] only.  Any other character,
    the [:] and the [+] of a timestamp among them, changes the text,
    and with it the payload that is signed. *)
Theorem quote_plus_unchanged_iff_unreserved (s : string) :
  quote_plus s = s <-> all_chars always_safe s = true.
Proof.
  split; [apply quote_plus_fixed|apply quote_plus_safe].
Qed.

(** X18: when the keys of the parameters are made of letters, digits
    and [_.-~] only, as the three keys of the script are,
    [urlencode(sorted_params)] and the query string joined by hand
    with [quote_plus] are the same text: tests 2 and 3 of the script
    sign the same payload.  When the values are made of such
    characters too, both are the unencoded query string of test 1. *)
Theorem encoded_queries_agree (params : dict pvalue) :
  (forall kv, In kv params -> all_chars always_safe (fst kv) = true) ->
  encoded_query params = manual_encoded_query params
  /\ ((forall kv, In kv params ->
       all_chars always_safe (format_value (snd kv)) = true) ->
      encoded_query params = unencoded_query params).
Proof.
  intros K.
  assert (S : forall kv, In kv (sorted (items params)) -> In kv params).
  { intros kv H.
    exact (Permutation_in kv (CanonicalFacts.sorted_perm params) H). }
  split.
  - unfold encoded_query, manual_encoded_query, urlencode. f_equal.
    apply map_ext_in. intros kv H.
    rewrite (quote_plus_safe (fst kv) (K kv (S kv H))). reflexivity.
  - intros V. unfold encoded_query, unencoded_query, canonicalize, urlencode.
    f_equal. apply map_ext_in. intros kv H.
    rewrite (quote_plus_safe (fst kv) (K kv (S kv H))).
    rewrite (quote_plus_safe _ (V kv (S kv H))). reflexivity.
Qed.

Lemma encoded_queries_agree_witness :
  encoded_query script_params = manual_encoded_query script_params.
Proof.
  apply (proj1 (encoded_queries_agree script_params
    ltac:(intros kv [<-|[<-|[<-|[]]]]; reflexivity))).
Defined.

End UrlEncodingFacts.

(* ================================================================== *)
(** ** The query parameters of a signed request *)
(* ================================================================== *)

Module QueryParamsFacts.
Import Py PyFacts Urllib QueryParams.

Lemma split_plain (sep : ascii) (s : string) :
  contains sep s = false -> split sep s = [s].
Proof.
  induction s as [|c r IH]; cbn [contains split]; [reflexivity|].
  intros H. apply orb_false_iff in H. destruct H as [Hc Hr].
  rewrite Hc, (IH Hr). reflexivity.
Qed.

Lemma split_app (sep : ascii) (p r : string) :
  contains sep p = false ->
  split sep (p ++ String sep r) = p :: split sep r.
Proof.
  induction p as [|c p IH]; cbn [contains append split]; intros H.
  - rewrite Ascii.eqb_refl. reflexivity.
  - apply orb_false_iff in H. destruct H as [Hc Hp].
    rewrite Hc, (IH Hp). reflexivity.
Qed.

Lemma split_join (sep : ascii) (parts : list string) :
  parts <> [] ->
  Forall (fun p => contains sep p = false) parts ->
  split sep (join (String sep EmptyString) parts) = parts.
Proof.
  induction parts as [|p r IH]; [congruence|]. intros _ F.
  inversion F as [|? ? Hp Hr]; subst.
  destruct r as [|q r]; cbn [join]; [apply split_plain, Hp|].
  cbn [append]. rewrite (split_app sep p _ Hp). f_equal.
  apply IH; [discriminate|exact Hr].
Qed.

Lemma split_pair (k v : string) :
  contains "=" k = false -> contains "=" v = false ->
  split "=" (k ++ "=" ++ v) = [k; v].
Proof.
  intros Hk Hv. cbn [append]. rewrite (split_app "=" k v Hk).
  rewrite (split_plain "=" v Hv). reflexivity.
Qed.

Lemma length_split (sep : ascii) (s : string) :
  List.length (split sep s) = S (count_char sep s).
Proof.
  induction s as [|c r IH]; cbn [split count_char]; [reflexivity|].
  destruct (Ascii.eqb c sep); cbn [List.length Nat.add]; [lia|].
  destruct (split sep r) as [|p ps]; cbn [List.length] in *; lia.
Qed.

Lemma dict_set_fresh (d : dict string) (k v : string) :
  ~ In k (map fst d) -> dict_set d k v = (d ++ [(k, v)])%list.
Proof.
  induction d as [|[k' v'] r IH]; cbn [dict_set map fst In app];
    [reflexivity|].
  intros N. destruct (String.eqb_spec k' k) as [->|_]; [tauto|].
  rewrite IH; [reflexivity|tauto].
Qed.

Lemma dict_from_fresh (ps : list (string * string)) :
  forall d : dict string,
  NoDup (map fst (d ++ ps)%list) ->
  dict_from d (map (fun kv => [fst kv; snd kv]) ps) = Ok (d ++ ps)%list.
Proof.
  induction ps as [|[k v] r IH]; intros d N; cbn [map dict_from fst snd].
  - rewrite app_nil_r. reflexivity.
  - assert (E : (d ++ (k, v) :: r)%list = ((d ++ [(k, v)]) ++ r)%list)
      by (rewrite <- app_assoc; reflexivity).
    rewrite dict_set_fresh.
    + rewrite E. apply IH. rewrite <- E. exact N.
    + rewrite map_app in N. cbn [map fst] in N.
      apply NoDup_remove_2 in N. intros H. apply N, in_or_app. left. exact H.
Qed.

Lemma dict_from_raises (pairs : list (list string)) :
  forall d : dict string,
  Exists (fun x => List.length x <> 2%nat) pairs ->
  dict_from d pairs = Raise ValueError.
Proof.
  induction pairs as [|x r IH]; intros d H; [inversion H|].
  destruct x as [|k [|v [|z x]]]; cbn [dict_from]; try reflexivity.
  apply IH. inversion H as [? ? Hx|? ? Hr]; subst; [|exact Hr].
  cbn [List.length] in Hx. congruence.
Qed.

Lemma dict_from_returns (pairs : list (list string)) :
  forall d : dict string,
  Forall (fun x => List.length x = 2%nat) pairs ->
  exists d', dict_from d pairs = Ok d'.
Proof.
  induction pairs as [|x r IH]; intros d H; [exists d; reflexivity|].
  inversion H as [|? ? Hx Hr]; subst.
  destruct x as [|k [|v [|z x]]]; try discriminate Hx.
  cbn [dict_from]. apply IH, Hr.
Qed.

(** X19: the parameters [make_signed_request] sends are the ones it
    signed.  For a query string written as [k=v] pairs joined by [&],
    with at least one pair, keys that differ from one another, and no
    [=] or [&] inside a key or a value, the dictionary given to
    [requests.get] holds exactly these pairs, in their order. *)
Theorem signed_query_is_sent_query (pairs : list (string * string)) :
  pairs <> [] ->
  NoDup (map fst pairs) ->
  (forall kv, In kv pairs ->
     contains "=" (fst kv) = false /\ contains "&" (fst kv) = false
     /\ contains "=" (snd kv) = false /\ contains "&" (snd kv) = false) ->
  request_params (query_of pairs) = Ok (Some pairs).
Proof.
  intros NE ND F.
  assert (Q : query_to_params (query_of pairs) = Ok pairs).
  { unfold query_to_params, query_of.
    rewrite split_join.
    - rewrite map_map.
      rewrite (map_ext_in _ (fun kv : string * string => [fst kv; snd kv])).
      + apply (dict_from_fresh pairs []). exact ND.
      + intros kv H. destruct (F kv H) as (A & _ & B & _).
        apply split_pair; assumption.
    - destruct pairs; [congruence|discriminate].
    - apply Forall_forall. intros p H. apply in_map_iff in H.
      destruct H as (kv & <- & H). destruct (F kv H) as (_ & A & _ & B).
      clear - A B. revert A B. generalize (fst kv) (snd kv). intros k v A B.
      induction k as [|c k IH]; cbn [append contains] in *.
      + exact B.
      + apply orb_false_iff in A. destruct A as [Ac Ak].
        rewrite Ac. apply IH, Ak. }
  unfold request_params. revert Q.
  destruct (query_of pairs); intros Q; [discriminate Q|].
  rewrite Q. reflexivity.
Qed.

Lemma signed_query_is_sent_query_witness :
  request_params "limit=5&offset=10"
  = Ok (Some [("limit", "5"); ("offset", "10")]).
Proof.
  apply (signed_query_is_sent_query [("limit", "5"); ("offset", "10")]).
  - discriminate.
  - repeat constructor; cbn; intuition discriminate.
  - intros kv [<-|[<-|[]]]; repeat split; reflexivity.
Defined.

(** X20: a query string that is not empty becomes the parameters of
    the request exactly when each of its [&]-separated parts holds one
    [=]; when a part holds none or more than one, as a value with
    base64 padding does, the conversion raises [ValueError]. *)
Theorem query_parts_need_one_equals (query_params : string) :
  query_params <> "" ->
  (Exists (fun p => count_char "=" p <> 1%nat) (split "&" query_params) ->
   request_params query_params = Raise ValueError)
  /\ (Forall (fun p => count_char "=" p = 1%nat) (split "&" query_params) ->
      exists d, request_params query_params = Ok (Some d)).
Proof.
  intros NE. unfold request_params.
  destruct query_params as [|c r] eqn:E; [congruence|]. rewrite <- E.
  unfold query_to_params. split; intros H.
  - rewrite dict_from_raises; [reflexivity|].
    apply Exists_exists in H. destruct H as (p & Hp & Np).
    apply Exists_exists. exists (split "=" p). split.
    + apply in_map, Hp.
    + rewrite length_split. lia.
  - destruct (dict_from_returns (map (split "=") (split "&" query_params)) [])
      as (d & D).
    + apply Forall_forall. intros x Hx. apply in_map_iff in Hx.
      destruct Hx as (p & <- & Hp). rewrite length_split.
      rewrite Forall_forall in H. rewrite (H p Hp). reflexivity.
    + exists d. rewrite D. reflexivity.
Qed.

Lemma query_parts_need_one_equals_witness :
  request_params "limit=5&token=YWJjZA==" = Raise ValueError.
Proof.
  apply (proj1 (query_parts_need_one_equals "limit=5&token=YWJjZA=="
                  ltac:(discriminate))).
  apply Exists_cons_tl, Exists_cons_hd. cbn. discriminate.
Defined.

End QueryParamsFacts.
